(** * mech-client: the marketplace request/deliver protocol

    A shallow embedding of [mech_client/marketplace_interact.py] and
    [mech_client/fetch_ipfs_hash.py].

    The Python code talks to a ledger, a websocket, an HTTP endpoint, the
    file system and the wall clock.  Here every such collaborator is a field
    of a [World] record (a deterministic script of what the outside answers),
    and every externally visible action is appended, with the time at which
    it starts, to a trace carried by the state.  Python's three ways of
    leaving a function (return, [sys.exit], an exception) are constructors
    of [Outcome], next to the two ways of not leaving it.

    Left out of the trace: reading the ABI files shipped with the package,
    building contract handles, and loading the key.  Contract reads are
    taken to answer; the transaction calls and the HTTP requests, which the
    code guards with [try], may raise. *)

From Stdlib Require Import ZArith List String Ascii Bool Lia.
From stdpp Require Import base option list strings pretty gmap.

Set Warnings "-register-all".
Local Open Scope string_scope.
Local Open Scope Z_scope.

(** ** Python values *)

(** JSON-like data: what [extra_attributes] holds and what
    [requests.get(...).json()] returns.  Floats are left out. *)
Inductive JValue :=
| JNull
| JBool (b : bool)
| JInt (z : Z)
| JStr (s : string)
| JList (l : list JValue)
| JDict (kv : list (string * JValue)).

Inductive Key :=
| KInt (z : Z)
| KStr (s : string).

Inductive Exn :=
| KeyError (key : Key)
| TypeError
| ValueError (msg : string)
| FileNotFoundError (path : string)
| ExternalError (msg : string).

(** Arguments shown in trace events. *)
Inductive PyVal :=
| VNone
| VInt (z : Z)
| VStr (s : string)
| VExn (e : Exn)
| VJson (v : JValue).

(** Python truthiness, as used by [if response:] and [if not digest:]. *)
Definition truthy (v : JValue) : bool :=
  match v with
  | JNull => false
  | JBool b => b
  | JInt z => negb (z =? 0)
  | JStr s => negb (String.eqb s "")
  | JList l => match l with [] => false | _ => true end
  | JDict kv => match kv with [] => false | _ => true end
  end.

Definition truthy_str (s : option string) : bool :=
  match s with
  | None => false
  | Some s => negb (String.eqb s "")
  end.

(** [x or default] on an optional number. *)
Definition or_default (x : option Z) (d : Z) : Z :=
  match x with
  | None => d
  | Some v => if v =? 0 then d else v
  end.

Definition or_default_str (x : option string) (d : string) : string :=
  match x with
  | None => d
  | Some v => if String.eqb v "" then d else v
  end.

(** ** Constants of [marketplace_interact.py] *)

Definition PAYMENT_TYPE_NATIVE : string :=
  "ba699a34be8fe0e7725e93dcbce1701b0211a8ca61330aaeb8a05bf2ec7abed1".
Definition PAYMENT_TYPE_TOKEN : string :=
  "3679d66ef546e66ce9057c4a052f317b135bc8e8c509638f7966edfd4fcf45e9".
Definition PAYMENT_TYPE_NVM : string :=
  "803dd08fe79d91027fc9024e254a0942372b92f3ccabc1bd19f4a5c2b251c316".

(** [web3.constants.ADDRESS_ZERO]. *)
Definition ADDRESS_ZERO : string :=
  "0x0000000000000000000000000000000000000000".

Definition CHAIN_TO_WRAPPED_TOKEN : gmap Z string :=
  <[1 := "0xC02aaA39b223FE8D0A0e5C4F27eAD9083C756Cc2"]>
  (<[10 := "0x4200000000000000000000000000000000000006"]>
  (<[100 := "0xe91D153E0b41518A2Ce8Dd3D7944Fa863463a97d"]>
  (<[137 := "0x0d500B1d8E8eF31E21C99d1Db9A6444d3ADf1270"]>
  (<[8453 := "0x4200000000000000000000000000000000000006"]>
  (<[42220 := "0x471EcE3750Da237f93B8E339c536989b8978a438"]> ∅))))).

(** The request configuration object: the four keys of the default table,
    plus the two attributes [marketplace_interact] sets after
    [fetch_mech_info].  Field [rc_x] is the attribute [x]. *)
Record MechMarketplaceRequestConfig := {
  rc_mech_marketplace_contract : string;
  rc_priority_mech_address : string;
  rc_response_timeout : Z;
  rc_payment_data : string;
  rc_delivery_rate : Z;
  rc_payment_type : string;
}.

Definition CHAIN_TO_DEFAULT_MECH_MARKETPLACE_REQUEST_CONFIG
  : gmap Z MechMarketplaceRequestConfig :=
  {[ 100 := {| rc_mech_marketplace_contract := "0x735FAAb1c4Ec41128c367AFb5c3baC73509f70bB";
               rc_priority_mech_address := "0x478ad20eD958dCC5AD4ABa6F4E4cc51e07a840E4";
               rc_response_timeout := 300;
               rc_payment_data := "0x";
               rc_delivery_rate := 0;
               rc_payment_type := "" |} ]}.

(** Modelled from the spec: [mech_client.interact.ConfirmationType], whose
    declaration is not among the sources.  Its members are the three the
    code names: on-chain only, off-chain only, and both channels. *)
Inductive ConfirmationType := ON_CHAIN | OFF_CHAIN | WAIT_FOR_BOTH.

(** ** Traces, state and outcomes *)

Record TxRequest := {
  tx_contract : string;
  tx_method : string;
  tx_method_args : list (string * PyVal);
  tx_sender : string;
  tx_value : Z;
  tx_gas : Z;
}.

Inductive Event :=
| EPrint (template : string) (args : list PyVal)
| EWssConnect (endpoint : string)
| EWssRegister (contract : string)
| ECall (contract method : string) (args : list PyVal)
| EVerifyTool
| EIpfsPush
| EBuildTx (tx : TxRequest)
| ESignTx
| ESendTx
| ESignMessage
| EWaitReceipt (digest : string)
| EWatchRequestId (digest : string)
| ESleep (ticks : Z)
| EHttpPost (url : string)
| EHttpGet (url : string)
| ECreateTask (coro : string)
| ECancelTask (coro : string).

(** The clock counts microseconds, the resolution of
    [datetime.now().timestamp()]; [timeout] and [sleep] are given in the same
    unit. *)
Record State := {
  now : Z;
  trace : list (Z * Event);
  draws : nat;  (* how many [uuid.uuid4()] values were drawn so far *)
}.

Definition events (st : State) : list Event := map snd (trace st).

(** How a computation ends: it returns, it calls [sys.exit], it raises, it
    waits for something that never comes, or the model ran out of fuel. *)
Inductive Outcome (A : Type) :=
| Return (a : A)
| SysExit (code : Z)
| Raised (e : Exn)
| Blocked
| OutOfFuel.
Arguments Return {A} a.
Arguments SysExit {A} code.
Arguments Raised {A} e.
Arguments Blocked {A}.
Arguments OutOfFuel {A}.

Definition M (A : Type) : Type := State -> Outcome A * State.

Definition ret {A} (a : A) : M A := fun st => (Return a, st).

Definition bind {A B} (m : M A) (k : A -> M B) : M B :=
  fun st =>
    match m st with
    | (Return a, st') => k a st'
    | (SysExit c, st') => (SysExit c, st')
    | (Raised e, st') => (Raised e, st')
    | (Blocked, st') => (Blocked, st')
    | (OutOfFuel, st') => (OutOfFuel, st')
    end.

Notation "x <- m ;; k" := (bind m (fun x => k))
  (at level 100, m at next level, right associativity).
Notation "m ;;; k" := (bind m (fun _ => k))
  (at level 100, right associativity).

Definition sys_exit {A} (code : Z) : M A := fun st => (SysExit code, st).
Definition raise {A} (e : Exn) : M A := fun st => (Raised e, st).
Definition block {A} : M A := fun st => (Blocked, st).
Definition out_of_fuel {A} : M A := fun st => (OutOfFuel, st).

(** [try: body / except Exception as e:]: an exception becomes a value;
    [sys.exit] is not an [Exception] and passes through. *)
Definition try_ {A} (m : M A) : M (Exn + A) :=
  fun st =>
    match m st with
    | (Return a, st') => (Return (inr a), st')
    | (Raised e, st') => (Return (inl e), st')
    | (SysExit c, st') => (SysExit c, st')
    | (Blocked, st') => (Blocked, st')
    | (OutOfFuel, st') => (OutOfFuel, st')
    end.

Definition of_result {A} (r : Exn + A) : M A :=
  match r with
  | inl e => raise e
  | inr a => ret a
  end.

(** [datetime.now().timestamp()]. *)
Definition timestamp : M Z := fun st => (Return (now st), st).

(** How many events satisfying [f] have happened so far: the index of the
    next one, used to ask the world for its answer. *)
Definition count_events (f : Event -> bool) : M nat :=
  fun st => (Return (length (List.filter f (events st))), st).

(** ** Strings, bytes and JSON text *)

(** A [string] stands for a Python [str] whose code points are below 256,
    one character per code point. *)

Definition hex_digit (n : N) : ascii :=
  match n with
  | 0 => "0" | 1 => "1" | 2 => "2" | 3 => "3" | 4 => "4" | 5 => "5"
  | 6 => "6" | 7 => "7" | 8 => "8" | 9 => "9" | 10 => "a" | 11 => "b"
  | 12 => "c" | 13 => "d" | 14 => "e" | _ => "f"
  end%N%char.

(** Two lower-case hexadecimal digits of a number below 256. *)
Definition hex2 (n : N) : string :=
  String (hex_digit (n / 16)) (String (hex_digit (n mod 16)) EmptyString).

(** [bytes.hex()]. *)
Fixpoint bytes_hex (bs : list Byte.byte) : string :=
  match bs with
  | [] => ""
  | b :: bs' => hex2 (Byte.to_N b) +:+ bytes_hex bs'
  end.

(** [int.from_bytes(bs, byteorder="big")]. *)
Definition int_from_bytes_big (bs : list Byte.byte) : Z :=
  fold_left (fun acc b => acc * 256 + Z.of_N (Byte.to_N b)) bs 0.

Definition hex_value (c : ascii) : option N :=
  let n := N_of_ascii c in
  (if (48 <=? n) && (n <=? 57) then Some (n - 48)
   else if (97 <=? n) && (n <=? 102) then Some (n - 87)
   else if (65 <=? n) && (n <=? 70) then Some (n - 55)
   else None)%N.

Definition byte_of_N (n : N) : Byte.byte :=
  match Byte.of_N n with
  | Some b => b
  | None => Byte.x00
  end.

Definition is_ascii_whitespace (c : ascii) : bool :=
  let n := N_of_ascii c in
  ((n =? 32) || ((9 <=? n) && (n <=? 13)))%N.

(** [bytes.fromhex(s)]: pairs of hexadecimal digits, with ASCII whitespace
    allowed between the pairs; [None] is the [ValueError] Python raises. *)
Fixpoint bytes_fromhex (s : string) : option (list Byte.byte) :=
  match s with
  | EmptyString => Some []
  | String c1 s1 =>
      if is_ascii_whitespace c1 then bytes_fromhex s1
      else
        match s1 with
        | String c2 s' =>
            match hex_value c1, hex_value c2, bytes_fromhex s' with
            | Some h, Some l, Some bs => Some (byte_of_N (16 * h + l)%N :: bs)
            | _, _, _ => None
            end
        | EmptyString => None
        end
  end.

(** The position in the message of that [ValueError].  A string with a
    character that is not ASCII is refused before it is scanned, at the
    first such character. *)
Fixpoint first_non_ascii (s : string) : option nat :=
  match s with
  | EmptyString => None
  | String c s' =>
      if (N_of_ascii c <? 128)%N then option_map S (first_non_ascii s')
      else Some O
  end.

(** The scan of an ASCII string stops at the first character of a pair that
    is not a hexadecimal digit; a string that ends after the first digit of a
    pair stops at its length. *)
Fixpoint fromhex_scan_stop (s : string) : option nat :=
  match s with
  | EmptyString => None
  | String c1 s1 =>
      if is_ascii_whitespace c1 then option_map S (fromhex_scan_stop s1)
      else
        match hex_value c1 with
        | None => Some O
        | Some _ =>
            match s1 with
            | String c2 s' =>
                match hex_value c2 with
                | None => Some 1%nat
                | Some _ => option_map (fun n => S (S n)) (fromhex_scan_stop s')
                end
            | EmptyString => Some 1%nat
            end
        end
  end.

Definition bytes_fromhex_invalid_position (s : string) : option nat :=
  match first_non_ascii s with
  | Some i => Some i
  | None => fromhex_scan_stop s
  end.

(** The message of the [ValueError] of [bytes.fromhex(s)]. *)
Definition bytes_fromhex_error (s : string) : string :=
  "non-hexadecimal number found in fromhex() arg at position "
  +:+ pretty (default O (bytes_fromhex_invalid_position s)).

(** [s[n:]]. *)
Fixpoint string_drop (n : nat) (s : string) : string :=
  match n, s with
  | O, _ => s
  | S n', String _ s' => string_drop n' s'
  | S _, EmptyString => EmptyString
  end.

(** One character of [json]'s [py_encode_basestring_ascii]: the two-character
    escapes of its table, the character itself when printable ASCII, and
    [\u00xx] otherwise. *)
Definition backslash : ascii := ascii_of_N 92.
Definition dquote : ascii := ascii_of_N 34.

Definition json_escape_char (c : ascii) : string :=
  let n := N_of_ascii c in
  if (n =? 92)%N then String backslash (String backslash EmptyString)
  else if (n =? 34)%N then String backslash (String dquote EmptyString)
  else if (n =? 8)%N then String backslash (String "b" EmptyString)
  else if (n =? 12)%N then String backslash (String "f" EmptyString)
  else if (n =? 10)%N then String backslash (String "n" EmptyString)
  else if (n =? 13)%N then String backslash (String "r" EmptyString)
  else if (n =? 9)%N then String backslash (String "t" EmptyString)
  else if (32 <=? n)%N && (n <=? 126)%N then String c EmptyString
  else String backslash (String "u" (String "0" (String "0" (hex2 n)))).

Fixpoint json_escape (s : string) : string :=
  match s with
  | EmptyString => EmptyString
  | String c s' => json_escape_char c +:+ json_escape s'
  end.

Definition json_string (s : string) : string :=
  String dquote (json_escape s +:+ String dquote EmptyString).

(** [json.dumps(v, separators=(",", ":"))]. *)
Fixpoint json_dumps (v : JValue) : string :=
  match v with
  | JNull => "null"
  | JBool true => "true"
  | JBool false => "false"
  | JInt z => pretty z
  | JStr s => json_string s
  | JList l =>
      "[" +:+
      (fix items (l : list JValue) : string :=
         match l with
         | [] => ""
         | x :: l' =>
             match l' with
             | [] => json_dumps x
             | _ => json_dumps x +:+ "," +:+ items l'
             end
         end) l +:+ "]"
  | JDict kv =>
      "{" +:+
      (fix members (kv : list (string * JValue)) : string :=
         match kv with
         | [] => ""
         | (k, x) :: kv' =>
             match kv' with
             | [] => json_string k +:+ ":" +:+ json_dumps x
             | _ => json_string k +:+ ":" +:+ json_dumps x +:+ "," +:+ members kv'
             end
         end) kv +:+ "}"
  end.

(** [repr] of a [str]: between single quotes, or between double quotes when
    the string has a single quote and no double quote; the backslash and the
    quote in use are escaped, tab, line feed and carriage return have their
    letters, and a character that is not printable is written [\xhh]. *)
Definition squote : ascii := ascii_of_N 39.

Fixpoint string_has (c : ascii) (s : string) : bool :=
  match s with
  | EmptyString => false
  | String c' s' => (N_of_ascii c' =? N_of_ascii c)%N || string_has c s'
  end.

Definition repr_quote (s : string) : ascii :=
  if string_has squote s && negb (string_has dquote s) then dquote else squote.

Definition repr_char (q c : ascii) : string :=
  let n := N_of_ascii c in
  if (n =? 92)%N then String backslash (String backslash EmptyString)
  else if (n =? N_of_ascii q)%N then String backslash (String q EmptyString)
  else if (n =? 9)%N then String backslash (String "t" EmptyString)
  else if (n =? 10)%N then String backslash (String "n" EmptyString)
  else if (n =? 13)%N then String backslash (String "r" EmptyString)
  else if (n <? 32)%N || ((127 <=? n)%N && (n <=? 160)%N) || (n =? 173)%N
       then String backslash (String "x" (hex2 n))
  else String c EmptyString.

Fixpoint repr_escape (q : ascii) (s : string) : string :=
  match s with
  | EmptyString => EmptyString
  | String c s' => repr_char q c +:+ repr_escape q s'
  end.

Definition repr_string (s : string) : string :=
  let q := repr_quote s in
  String q (repr_escape q s +:+ String q EmptyString).

(** [repr(v)] of a value read from JSON. *)
Fixpoint py_repr (v : JValue) : string :=
  match v with
  | JNull => "None"
  | JBool true => "True"
  | JBool false => "False"
  | JInt z => pretty z
  | JStr s => repr_string s
  | JList l =>
      "[" +:+
      (fix items (l : list JValue) : string :=
         match l with
         | [] => ""
         | x :: l' =>
             match l' with
             | [] => py_repr x
             | _ => py_repr x +:+ ", " +:+ items l'
             end
         end) l +:+ "]"
  | JDict kv =>
      "{" +:+
      (fix members (kv : list (string * JValue)) : string :=
         match kv with
         | [] => ""
         | (k, x) :: kv' =>
             match kv' with
             | [] => repr_string k +:+ ": " +:+ py_repr x
             | _ => repr_string k +:+ ": " +:+ py_repr x +:+ ", " +:+ members kv'
             end
         end) kv +:+ "}"
  end.

(** [str(v)] of a value read from JSON: a string is itself, anything else
    is its [repr]. *)
Definition python_str (v : JValue) : string :=
  match v with
  | JStr s => s
  | _ => py_repr v
  end.

(** A Python [dict] keeps insertion order; assigning to a key that is
    present replaces the value where it stands. *)
Fixpoint dict_set (k : string) (v : JValue) (d : list (string * JValue))
  : list (string * JValue) :=
  match d with
  | [] => [(k, v)]
  | (k', v') :: d' =>
      if String.eqb k' k then (k, v) :: d' else (k', v') :: dict_set k v d'
  end.

(** [d.update(other)]. *)
Definition dict_update (d other : list (string * JValue)) : list (string * JValue) :=
  fold_left (fun d kv => dict_set (fst kv) (snd kv) d) other d.

Fixpoint dict_get (k : string) (d : list (string * JValue)) : option JValue :=
  match d with
  | [] => None
  | (k', v') :: d' => if String.eqb k' k then Some v' else dict_get k d'
  end.

(** ** The outside world *)

(** The fields of [get_mech_config(chain_config)] the code reads. *)
Record MechConfig := {
  mc_chain_id : Z;                       (* ledger_config.chain_id *)
  mc_mech_marketplace_contract : string;
  mc_wss_endpoint : string;
  mc_gas_limit : Z;
  mc_transaction_url : string;
  mc_subgraph_url : string;
}.

Record AbiEntry := {
  abi_type : string;
  abi_name : string;
}.

(** What the code imports from modules that are not among the sources
    ([mech_client.interact], [mech_client.wss], [mech_client.prompt_to_ipfs])
    and from libraries is a parameter: a field of [World]. *)
Record World := {
  (* constants imported from mech_client.interact *)
  MAX_RETRIES : Z;
  TIMEOUT : Z;
  WAIT_SLEEP : Z;
  PRIVATE_KEY_FILE_PATH : string;
  (* configuration, files, keys *)
  get_mech_config : option string -> MechConfig;
  path_exists : string -> bool;
  crypto_address : string -> string;
  marketplace_abi : list AbiEntry;
  calculate_topic_id : AbiEntry -> string;
  to_checksum_address : string -> string;
  verify_or_retrieve_tool : Z -> option string -> string;
  (* contract reads *)
  paymentType : string -> string;
  maxDeliveryRate : string -> Z;
  serviceId : string -> Z;
  mapPaymentTypeBalanceTrackers : string -> string -> string;
  token_balanceOf : string -> string -> Z;
  mapRequesterBalances : string -> string -> Z;
  subscriptionNFT : string -> string;
  subscriptionTokenId : string -> Z;
  nft_balanceOf : string -> string -> Z -> Z;
  mapNonces : string -> string -> Z;
  getRequestId : string -> string -> string -> Z -> string -> Z -> list Byte.byte;
  (* transactions: the answer to the n-th build_transaction call *)
  build_result : TxRequest -> nat -> option Exn;
  send_result : TxRequest -> nat -> Exn + option string;
  sign_message : list Byte.byte -> string;
  (* metadata upload and content addressing *)
  push_metadata_to_ipfs :
    string -> string -> option (list (string * JValue)) -> string * string;
  uuid4 : nat -> string;
  ipfs_hash_only : string -> string;
  multibase_decode : string -> list Byte.byte;
  multicodec_remove_prefix : list Byte.byte -> list Byte.byte;
  (* event stream and HTTP: the stream either never delivers ([None]) or
     delivers a data URL after some time; HTTP answers are indexed by the
     number of earlier requests *)
  watch_for_marketplace_request_id : string -> string;
  watch_for_marketplace_data_url_from_wss : string -> option (N * option string);
  py_str : JValue -> string;
  http_post : string -> nat -> Exn + JValue;
  http_get : string -> nat -> Exn + JValue;
  (* the clock: how long the n-th traced action takes *)
  latency : nat -> N;
}.

Section WithWorld.

Variable w : World.

(** Every traced action is stamped with its starting time and then takes
    [latency] microseconds. *)
Definition emit (e : Event) : M unit :=
  fun st =>
    (Return tt,
     {| now := now st + Z.of_N (latency w (length (trace st)));
        trace := (trace st ++ [(now st, e)])%list;
        draws := draws st |}).

Definition print (template : string) (args : list PyVal) : M unit :=
  emit (EPrint template args).

(** [time.sleep(s)]: rejects a negative length, otherwise at least [s]
    passes. *)
Definition time_sleep (s : Z) : M unit :=
  if s <? 0 then raise (ValueError "sleep length must be non-negative")
  else
    fun st =>
      (Return tt,
       {| now := now st + s + Z.of_N (latency w (length (trace st)));
          trace := (trace st ++ [(now st, ESleep s)])%list;
          draws := draws st |}).

(** [contract.functions.method(args).call()]. *)
Definition call {A} (contract method : string) (args : list PyVal) (v : A) : M A :=
  emit (ECall contract method args) ;;; ret v.

Definition is_build_tx (e : Event) : bool :=
  match e with EBuildTx _ => true | _ => false end.
Definition is_http_post (e : Event) : bool :=
  match e with EHttpPost _ => true | _ => false end.
Definition is_http_get (e : Event) : bool :=
  match e with EHttpGet _ => true | _ => false end.

(** [ledger_api.build_transaction(..., raise_on_try=True)]. *)
Definition build_transaction (tx : TxRequest) : M (TxRequest * nat) :=
  n <- count_events is_build_tx ;;
  emit (EBuildTx tx) ;;;
  match build_result w tx n with
  | Some e => raise e
  | None => ret (tx, n)
  end.

Definition sign_transaction (raw : TxRequest * nat) : M (TxRequest * nat) :=
  emit ESignTx ;;; ret raw.

(** [ledger_api.send_signed_transaction(..., raise_on_try=True)]. *)
Definition send_signed_transaction (signed : TxRequest * nat) : M (option string) :=
  emit ESendTx ;;; of_result (send_result w (fst signed) (snd signed)).

Definition requests_post (url : string) : M JValue :=
  n <- count_events is_http_post ;;
  emit (EHttpPost url) ;;;
  of_result (http_post w url n).

Definition requests_get (url : string) : M JValue :=
  n <- count_events is_http_get ;;
  emit (EHttpGet url) ;;;
  of_result (http_get w url n).

(** ** [get_event_signatures] *)

Fixpoint get_event_signatures_from
    (abi : list AbiEntry) (marketplace_request marketplace_deliver : string)
  : string * string :=
  match abi with
  | [] => (marketplace_request, marketplace_deliver)
  | obj :: abi' =>
      if negb (String.eqb (abi_type obj) "event") then
        get_event_signatures_from abi' marketplace_request marketplace_deliver
      else
        let marketplace_deliver :=
          if String.eqb (abi_name obj) "MarketplaceDeliver"
          then calculate_topic_id w obj else marketplace_deliver in
        let marketplace_request :=
          if String.eqb (abi_name obj) "MarketplaceRequest"
          then calculate_topic_id w obj else marketplace_request in
        get_event_signatures_from abi' marketplace_request marketplace_deliver
  end.

Definition get_event_signatures (abi : list AbiEntry) : string * string :=
  get_event_signatures_from abi "" "".

(** ** [fetch_mech_info] *)

Definition known_payment_type (payment_type : string) : bool :=
  String.eqb payment_type PAYMENT_TYPE_NATIVE
  || String.eqb payment_type PAYMENT_TYPE_TOKEN
  || String.eqb payment_type PAYMENT_TYPE_NVM.

(** Returns (payment_type, service_id, max_delivery_rate,
    mech_payment_balance_tracker, mech_contract); a contract handle is the
    address it was made for. *)
Definition fetch_mech_info (mech_marketplace_contract priority_mech_address : string)
  : M (string * Z * Z * string * string) :=
  let mech_contract := priority_mech_address in
  payment_type_bytes <-
    call mech_contract "paymentType" [] (paymentType w mech_contract) ;;
  max_delivery_rate <-
    call mech_contract "maxDeliveryRate" [] (maxDeliveryRate w mech_contract) ;;
  service_id <-
    call mech_contract "serviceId" [] (serviceId w mech_contract) ;;
  let payment_type := payment_type_bytes in
  mech_payment_balance_tracker <-
    call mech_marketplace_contract "mapPaymentTypeBalanceTrackers"
         [VStr payment_type_bytes]
         (mapPaymentTypeBalanceTrackers w mech_marketplace_contract payment_type_bytes) ;;
  if negb (known_payment_type payment_type) then
    print "  - Invalid mech type detected." [] ;;;
    sys_exit 1
  else
    ret (payment_type, service_id, max_delivery_rate,
         mech_payment_balance_tracker, mech_contract).

(** ** [approve_price_tokens] *)

Definition approve_price_tokens
    (sender wrapped_token mech_payment_balance_tracker : string) (price : Z)
  : M (option string) :=
  let token_contract := wrapped_token in
  user_token_balance <-
    call token_contract "balanceOf" [VStr sender]
         (token_balanceOf w token_contract sender) ;;
  if user_token_balance <? price then
    print "  - Sender Token balance low. Needed: {price}, Actual: {user_token_balance}"
          [VInt price; VInt user_token_balance] ;;;
    print "  - Sender Address: {sender}" [VStr sender] ;;;
    sys_exit 1
  else
    let tx := {| tx_contract := token_contract;
                 tx_method := "approve";
                 tx_method_args := [("_to", VStr mech_payment_balance_tracker);
                                    ("_value", VInt price)];
                 tx_sender := sender;
                 tx_value := 0;
                 tx_gas := 60000 |} in
    raw_transaction <- build_transaction tx ;;
    signed_transaction <- sign_transaction raw_transaction ;;
    transaction_digest <- send_signed_transaction signed_transaction ;;
    ret transaction_digest.

(** ** [fetch_requester_nvm_subscription_balance] *)

Definition fetch_requester_nvm_subscription_balance
    (requester mech_payment_balance_tracker : string) : M Z :=
  let nvm_balance_tracker_contract := mech_payment_balance_tracker in
  subscription_nft_address <-
    call nvm_balance_tracker_contract "subscriptionNFT" []
         (subscriptionNFT w nvm_balance_tracker_contract) ;;
  subscription_id <-
    call nvm_balance_tracker_contract "subscriptionTokenId" []
         (subscriptionTokenId w nvm_balance_tracker_contract) ;;
  let subscription_nft_contract := subscription_nft_address in
  requester_balance <-
    call subscription_nft_contract "balanceOf" [VStr requester; VInt subscription_id]
         (nft_balanceOf w subscription_nft_contract requester subscription_id) ;;
  ret requester_balance.

(** ** [check_prepaid_balances] *)

Definition check_prepaid_balances
    (requester mech_payment_balance_tracker payment_type : string)
    (max_delivery_rate : Z) : M unit :=
  (if String.eqb payment_type PAYMENT_TYPE_NATIVE then
     let balance_tracker_contract := mech_payment_balance_tracker in
     requester_balance <-
       call balance_tracker_contract "mapRequesterBalances" [VStr requester]
            (mapRequesterBalances w balance_tracker_contract requester) ;;
     if requester_balance <? max_delivery_rate then
       print "  - Sender Native deposited balance low. Needed: {max_delivery_rate}, Actual: {requester_balance}"
             [VInt max_delivery_rate; VInt requester_balance] ;;;
       print "  - Sender Address: {requester}" [VStr requester] ;;;
       print "  - Please use scripts/deposit_native.py to add balance" [] ;;;
       sys_exit 1
     else ret tt
   else ret tt) ;;;
  (if String.eqb payment_type PAYMENT_TYPE_TOKEN then
     let balance_tracker_contract := mech_payment_balance_tracker in
     requester_balance <-
       call balance_tracker_contract "mapRequesterBalances" [VStr requester]
            (mapRequesterBalances w balance_tracker_contract requester) ;;
     if requester_balance <? max_delivery_rate then
       print "  - Sender Token deposited balance low. Needed: {max_delivery_rate}, Actual: {requester_balance}"
             [VInt max_delivery_rate; VInt requester_balance] ;;;
       print "  - Sender Address: {requester}" [VStr requester] ;;;
       print "  - Please use scripts/deposit_token.py to add balance" [] ;;;
       sys_exit 1
     else ret tt
   else ret tt).

(** ** [send_marketplace_request] *)

Definition request_method_args
    (v1_file_hash_hex_truncated : string)
    (method_args_data : MechMarketplaceRequestConfig) : list (string * PyVal) :=
  [("requestData", VStr v1_file_hash_hex_truncated);
   ("maxDeliveryRate", VInt (rc_delivery_rate method_args_data));
   ("paymentType", VStr ("0x" +:+ rc_payment_type method_args_data));
   ("priorityMech",
    VStr (to_checksum_address w (rc_priority_mech_address method_args_data)));
   ("responseTimeout", VInt (rc_response_timeout method_args_data));
   ("paymentData", VStr (rc_payment_data method_args_data))].

(** The [while tries < retries and now < deadline] loop.  Each pass either
    returns or raises [tries], so [retries + 1] units of fuel are enough. *)
Fixpoint send_marketplace_request_loop
    (fuel : nat) (tx : TxRequest) (retries deadline sleep tries : Z)
  : M (option string) :=
  match fuel with
  | O => out_of_fuel
  | S fuel' =>
      t <- timestamp ;;
      if (tries <? retries) && (t <? deadline) then
        let tries := tries + 1 in
        r <- try_ (raw_transaction <- build_transaction tx ;;
                   signed_transaction <- sign_transaction raw_transaction ;;
                   send_signed_transaction signed_transaction) ;;
        match r with
        | inr transaction_digest => ret transaction_digest
        | inl e =>
            print "Error occured while sending the transaction: {e}; Retrying in {sleep}"
                  [VExn e; VInt sleep] ;;;
            time_sleep sleep ;;;
            send_marketplace_request_loop fuel' tx retries deadline sleep tries
        end
      else ret None
  end.

Definition send_marketplace_request
    (crypto marketplace_contract : string) (gas_limit : Z)
    (prompt tool : string)
    (method_args_data : MechMarketplaceRequestConfig)
    (extra_attributes : option (list (string * JValue)))
    (price : Z) (retries timeout sleep : option Z)
  : M (option string) :=
  emit EIpfsPush ;;;
  let hashes := push_metadata_to_ipfs w prompt tool extra_attributes in
  let v1_file_hash_hex_truncated := fst hashes in
  let v1_file_hash_hex := snd hashes in
  print "  - Prompt uploaded: https://gateway.autonolas.tech/ipfs/{v1_file_hash_hex}"
        [VStr v1_file_hash_hex] ;;;
  let tx := {| tx_contract := marketplace_contract;
               tx_method := "request";
               tx_method_args :=
                 request_method_args v1_file_hash_hex_truncated method_args_data;
               tx_sender := crypto;
               tx_value := price;
               tx_gas := gas_limit |} in
  let tries := 0 in
  let retries := or_default retries (MAX_RETRIES w) in
  let timeout := or_default timeout (TIMEOUT w) in
  let sleep := or_default sleep (WAIT_SLEEP w) in
  t0 <- timestamp ;;
  let deadline := t0 + timeout in
  send_marketplace_request_loop (S (Z.to_nat retries)) tx retries deadline sleep tries.

(** ** [fetch_ipfs_hash] *)

(** [str(uuid.uuid4())]: the next value of the world's random source. *)
Definition uuid4_str : M string :=
  fun st =>
    (Return (uuid4 w (draws st)),
     {| now := now st; trace := trace st; draws := S (draws st) |}).

Definition metadata_of
    (prompt tool nonce : string) (extra_attributes : option (list (string * JValue)))
  : list (string * JValue) :=
  let metadata := [("prompt", JStr prompt); ("tool", JStr tool); ("nonce", JStr nonce)] in
  match extra_attributes with
  | None => metadata
  | Some [] => metadata
  | Some extra => dict_update metadata extra
  end.

(** The body of [fetch_ipfs_hash] once the nonce is drawn. *)
Definition fetch_ipfs_hash_with
    (nonce prompt tool : string) (extra_attributes : option (list (string * JValue)))
  : string * string * string :=
  let metadata := metadata_of prompt tool nonce extra_attributes in
  let ipfs_data := json_dumps (JDict metadata) in
  let v1_file_hash := ipfs_hash_only w ipfs_data in
  let cid_bytes := multibase_decode w v1_file_hash in
  let multihash_bytes := multicodec_remove_prefix w cid_bytes in
  let v1_file_hash_hex := "f01" +:+ bytes_hex multihash_bytes in
  ("0x" +:+ string_drop 9 v1_file_hash_hex, v1_file_hash_hex, ipfs_data).

Definition fetch_ipfs_hash
    (prompt tool : string) (extra_attributes : option (list (string * JValue)))
  : M (string * string * string) :=
  nonce <- uuid4_str ;;
  ret (fetch_ipfs_hash_with nonce prompt tool extra_attributes).

(** ** [send_offchain_marketplace_request] *)

Fixpoint send_offchain_marketplace_request_loop
    (fuel : nat) (crypto marketplace_contract : string)
    (requestData : string) (maxDeliveryRate : Z) (paymentType priorityMech : string)
    (retries deadline sleep tries : Z)
  : M (option JValue) :=
  match fuel with
  | O => out_of_fuel
  | S fuel' =>
      t <- timestamp ;;
      if (tries <? retries) && (t <? deadline) then
        let tries := tries + 1 in
        r <- try_ (nonce <- call marketplace_contract "mapNonces" [VStr crypto]
                                 (mapNonces w marketplace_contract crypto) ;;
                   request_id <-
                     call marketplace_contract "getRequestId"
                          [VStr priorityMech; VStr crypto; VStr requestData;
                           VInt maxDeliveryRate; VStr paymentType; VInt nonce]
                          (getRequestId w priorityMech crypto requestData
                                        maxDeliveryRate paymentType nonce) ;;
                   emit ESignMessage ;;;
                   response <-
                     requests_post "http://localhost:8000/send_signed_requests" ;;
                   ret response) ;;
        match r with
        | inr response => ret (Some response)
        | inl e =>
            print "Error occured while sending the offchain request: {e}; Retrying in {sleep}"
                  [VExn e; VInt sleep] ;;;
            time_sleep sleep ;;;
            send_offchain_marketplace_request_loop
              fuel' crypto marketplace_contract requestData maxDeliveryRate
              paymentType priorityMech retries deadline sleep tries
        end
      else ret None
  end.

Definition send_offchain_marketplace_request
    (crypto marketplace_contract : string) (prompt tool : string)
    (method_args_data : MechMarketplaceRequestConfig)
    (extra_attributes : option (list (string * JValue)))
    (retries timeout sleep : option Z)
  : M (option JValue) :=
  hashes <- fetch_ipfs_hash prompt tool extra_attributes ;;
  let '(v1_file_hash_hex_truncated, v1_file_hash_hex, ipfs_data) := hashes in
  print "  - Prompt will shortly be uploaded to: https://gateway.autonolas.tech/ipfs/{v1_file_hash_hex}"
        [VStr v1_file_hash_hex] ;;;
  let tries := 0 in
  let retries := or_default retries (MAX_RETRIES w) in
  let timeout := or_default timeout (TIMEOUT w) in
  let sleep := or_default sleep (WAIT_SLEEP w) in
  t0 <- timestamp ;;
  let deadline := t0 + timeout in
  send_offchain_marketplace_request_loop
    (S (Z.to_nat retries)) crypto marketplace_contract
    v1_file_hash_hex_truncated (rc_delivery_rate method_args_data)
    ("0x" +:+ rc_payment_type method_args_data)
    (to_checksum_address w (rc_priority_mech_address method_args_data))
    retries deadline sleep tries.

(** ** [wait_for_marketplace_data_url] *)

(** A task on the event loop: the coroutine it runs and, when it ever
    finishes, after how long and with what result. *)
Record Task := {
  task_coro : string;
  task_outcome : option (N * option string);
}.

Definition create_task (coro : string) (outcome : option (N * option string)) : M Task :=
  emit (ECreateTask coro) ;;;
  ret {| task_coro := coro; task_outcome := outcome |}.

Definition elapse (d : N) : M unit :=
  fun st =>
    (Return tt, {| now := now st + Z.of_N d; trace := trace st; draws := draws st |}).

Fixpoint finish_times (tasks : list Task) : list N :=
  match tasks with
  | [] => []
  | t :: tasks' =>
      match task_outcome t with
      | Some (d, _) => d :: finish_times tasks'
      | None => finish_times tasks'
      end
  end.

Definition finishes_at (d : N) (t : Task) : bool :=
  match task_outcome t with
  | Some (d', _) => (d' =? d)%N
  | None => false
  end.

(** [asyncio.wait(tasks, return_when=FIRST_COMPLETED)]: an empty set is a
    [ValueError]; otherwise the tasks that finish first are done and the
    others pending.  When no task ever finishes the wait never returns. *)
Definition asyncio_wait_first_completed (tasks : list Task) : M (list Task * list Task) :=
  match tasks with
  | [] => raise (ValueError "Set of Tasks/Futures is empty.")
  | _ =>
      match finish_times tasks with
      | [] => block
      | d :: ds =>
          let first := fold_right N.min d ds in
          elapse first ;;;
          ret (List.filter (finishes_at first) tasks,
               List.filter (fun t => negb (finishes_at first t)) tasks)
      end
  end.

Fixpoint cancel_all (unfinished : list Task) : M unit :=
  match unfinished with
  | [] => ret tt
  | task :: rest => emit (ECancelTask (task_coro task)) ;;; cancel_all rest
  end.

Definition _wait_for_tasks (tasks : list Task) : M (option string) :=
  sets <- asyncio_wait_first_completed tasks ;;
  let '(done, unfinished) := sets in
  match done with
  | [] => block
  | finished :: _ =>
      cancel_all unfinished ;;;
      match task_outcome finished with
      | Some (_, result) => ret result
      | None => block
      end
  end.

Definition wait_for_marketplace_data_url
    (request_id mech_contract subgraph_url deliver_signature : string)
    (confirmation_type : ConfirmationType) : M (option string) :=
  let tasks : list Task := [] in
  (match confirmation_type with
   | OFF_CHAIN | WAIT_FOR_BOTH => print "Off chain to be implemented" []
   | ON_CHAIN => ret tt
   end) ;;;
  tasks <-
    (match confirmation_type with
     | ON_CHAIN | WAIT_FOR_BOTH =>
         on_chain_task <-
           create_task "watch_for_marketplace_data_url_from_wss"
                       (watch_for_marketplace_data_url_from_wss w request_id) ;;
         let tasks := (tasks ++ [on_chain_task])%list in
         (if negb (String.eqb subgraph_url "")
          then print "Subgraph to be implemented" []
          else ret tt) ;;;
         ret tasks
     | OFF_CHAIN => ret tasks
     end) ;;
  result <- _wait_for_tasks tasks ;;
  ret result.

(** ** [wait_for_offchain_marketplace_data] *)

(** One second, the argument of [time.sleep(1)], in clock units. *)
Definition one_second : Z := 1000000.

(** The [while True] loop; [fuel] bounds the number of polls. *)
Fixpoint wait_for_offchain_marketplace_data (fuel : nat) (request_id : JValue)
  : M JValue :=
  match fuel with
  | O => out_of_fuel
  | S fuel' =>
      r <- try_ (requests_get "http://localhost:8000/fetch_offchain_info") ;;
      match r with
      | inr response =>
          if truthy response then ret response
          else wait_for_offchain_marketplace_data fuel' request_id
      | inl _ =>
          time_sleep one_second ;;;
          wait_for_offchain_marketplace_data fuel' request_id
      end
  end.

(** ** The retry skeleton shared by the two submitters

    [send_marketplace_request_loop] and
    [send_offchain_marketplace_request_loop] are the same loop around two
    different [try] bodies and two different messages.  [retry_loop] is that
    loop with the body and the message as parameters; the two loops are
    proved equal to its instances below. *)


Definition onchain_attempt (tx : TxRequest) : M (option string) :=
  raw_transaction <- build_transaction tx ;;
  signed_transaction <- sign_transaction raw_transaction ;;
  send_signed_transaction signed_transaction.


(** ** [marketplace_interact] *)

(** [v[k]] on decoded JSON. *)
Definition getitem (v : JValue) (k : string) : M JValue :=
  match v with
  | JDict kv =>
      match dict_get k kv with
      | Some x => ret x
      | None => raise (KeyError (KStr k))
      end
  | _ => raise TypeError
  end.

Definition opt_str (s : option string) : PyVal :=
  match s with
  | Some s => VStr s
  | None => VNone
  end.

(** The body of [marketplace_interact] is cut at four seams into
    consecutive segments, each a definition of its own taking the local
    variables it reads: the payment block (source lines 751-782), the
    subscription block (784-798), the on-chain branch (800-853) and the
    off-chain tail (855-889).  [marketplace_interact] below runs them in
    source order. *)

(** Lines 751-782.  An early [return] is the [inl] of the result; [inr] is
    the value of [price] at the end of the block. *)
Definition marketplace_interact_payment
    (mech_config : MechConfig) (chain_id : Z) (use_prepaid : bool)
    (crypto payment_type mech_payment_balance_tracker : string)
    (max_delivery_rate : Z)
  : M (option JValue + Z) :=
  if negb use_prepaid then
    let price := max_delivery_rate in
    if String.eqb payment_type PAYMENT_TYPE_TOKEN then
      print "Token Mech detected, approving wrapped token for price payment..." [] ;;;
      match CHAIN_TO_WRAPPED_TOKEN !! chain_id with
      | None => raise (KeyError (KInt chain_id))
      | Some wxdai =>
          approve_tx <-
            approve_price_tokens crypto wxdai mech_payment_balance_tracker price ;;
          if negb (truthy_str approve_tx) then
            print "Unable to approve allowance" [] ;;;
            ret (inl None)
          else
            print "  - Transaction sent: {transaction_url_formatted}"
                  [VStr (mc_transaction_url mech_config); opt_str approve_tx] ;;;
            print "  - Waiting for transaction receipt..." [] ;;;
            emit (EWaitReceipt (default "" approve_tx)) ;;;
            let price := 0 in
            ret (inr price)
      end
    else ret (inr price)
  else
    print "Prepaid request to be used, skipping payment" [] ;;;
    let price := 0 in
    check_prepaid_balances crypto mech_payment_balance_tracker
                           payment_type max_delivery_rate ;;;
    ret (inr price).

(** Lines 784-798: returns the value of [price] after the block. *)
Definition marketplace_interact_subscription
    (crypto payment_type mech_payment_balance_tracker : string) (price : Z)
  : M Z :=
  if String.eqb payment_type PAYMENT_TYPE_NVM then
    print "Nevermined Mech detected, subscription credits to be used" [] ;;;
    let requester := crypto in
    requester_balance <-
      fetch_requester_nvm_subscription_balance requester mech_payment_balance_tracker ;;
    if requester_balance <? price then
      print "  - Sender Subscription balance low. Needed: {price}, Actual: {requester_balance}"
            [VInt price; VInt requester_balance] ;;;
      print "  - Sender Address: {requester}" [VStr requester] ;;;
      sys_exit 1
    else
      let price := 0 in
      ret price
  else ret price.

(** Lines 800-853. *)
Definition marketplace_interact_onchain
    (mech_config : MechConfig) (crypto mech_marketplace_contract : string)
    (prompt tool : string)
    (mech_marketplace_request_config : MechMarketplaceRequestConfig)
    (extra_attributes : option (list (string * JValue)))
    (price : Z) (retries timeout sleep : option Z)
    (mech_contract marketplace_deliver_event_signature : string)
    (confirmation_type : ConfirmationType)
  : M (option JValue) :=
  print "Sending Mech Marketplace request..." [] ;;;
  transaction_digest <-
    send_marketplace_request crypto mech_marketplace_contract (mc_gas_limit mech_config)
                             prompt tool mech_marketplace_request_config
                             extra_attributes price retries timeout sleep ;;
  if negb (truthy_str transaction_digest) then
    print "Unable to send request" [] ;;;
    ret None
  else
    let tx_hash := default "" transaction_digest in
    print "  - Transaction sent: {transaction_url_formatted}"
          [VStr (mc_transaction_url mech_config); VStr tx_hash] ;;;
    print "  - Waiting for transaction receipt..." [] ;;;
    emit (EWatchRequestId tx_hash) ;;;
    let request_id := watch_for_marketplace_request_id w tx_hash in
    match bytes_fromhex request_id with
    | None => raise (ValueError (bytes_fromhex_error request_id))
    | Some request_id_bytes =>
        let request_id_int := int_from_bytes_big request_id_bytes in
        print "  - Created on-chain request with ID {request_id_int}"
              [VInt request_id_int] ;;;
        print "" [] ;;;
        data_url <-
          wait_for_marketplace_data_url request_id mech_contract
                                        (mc_subgraph_url mech_config)
                                        marketplace_deliver_event_signature
                                        confirmation_type ;;
        if truthy_str data_url then
          let data_url := default "" data_url in
          print "  - Data arrived: {data_url}" [VStr data_url] ;;;
          data <- requests_get (data_url +:+ "/" +:+ pretty request_id_int) ;;
          print "  - Data from agent:" [] ;;;
          print "{json.dumps(data, indent=2)}" [VJson data] ;;;
          ret (Some data)
        else ret None
    end.

(** Lines 855-889; [fuel] bounds the polls of the delivery wait, the only
    unbounded loop. *)
Definition marketplace_interact_offchain
    (fuel : nat) (crypto mech_marketplace_contract : string) (prompt tool : string)
    (mech_marketplace_request_config : MechMarketplaceRequestConfig)
    (extra_attributes : option (list (string * JValue)))
    (retries timeout sleep : option Z)
  : M (option JValue) :=
  print "Sending Offchain Mech Marketplace request..." [] ;;;
  response <-
    send_offchain_marketplace_request crypto mech_marketplace_contract prompt tool
                                      mech_marketplace_request_config
                                      extra_attributes retries timeout sleep ;;
  match response with
  | None => ret None
  | Some response =>
      if negb (truthy response) then ret None
      else
        request_id <- getitem response "request_id" ;;
        print "  - Created off-chain request with ID {request_id}"
              [VJson request_id] ;;;
        print "" [] ;;;
        print "Waiting for Offchain Mech Marketplace deliver..." [] ;;;
        data <- wait_for_offchain_marketplace_data fuel request_id ;;
        if truthy data then
          task_result <- getitem data "task_result" ;;
          let data_url :=
            "https://gateway.autonolas.tech/ipfs/f01701220" +:+ py_str w task_result in
          print "  - Data arrived: {data_url}" [VStr data_url] ;;;
          data <- requests_get (data_url +:+ "/" +:+ py_str w request_id) ;;
          print "  - Data from agent:" [] ;;;
          print "{json.dumps(data, indent=2)}" [VJson data] ;;;
          ret (Some data)
        else ret None
  end.

Definition marketplace_interact
    (fuel : nat) (prompt : string) (priority_mech : option string)
    (use_prepaid use_offchain : bool) (tool : option string)
    (extra_attributes : option (list (string * JValue)))
    (private_key_path : option string)
    (confirmation_type : ConfirmationType)
    (retries timeout sleep : option Z) (chain_config : option string)
  : M (option JValue) :=
  let mech_config := get_mech_config w chain_config in
  let priority_mech_address := priority_mech in
  let mech_marketplace_contract := mc_mech_marketplace_contract mech_config in
  let chain_id := mc_chain_id mech_config in
  if String.eqb mech_marketplace_contract ADDRESS_ZERO then
    print "Mech Marketplace not yet supported on {chain_config}" [opt_str chain_config] ;;;
    ret None
  else
  match CHAIN_TO_DEFAULT_MECH_MARKETPLACE_REQUEST_CONFIG !! chain_id with
  | None => raise (KeyError (KInt chain_id))
  | Some config_values =>
  config_values <-
    (match priority_mech_address with
     | Some priority_mech_address =>
         print "Custom Mech detected" [] ;;;
         ret {| rc_mech_marketplace_contract := mech_marketplace_contract;
                rc_priority_mech_address := priority_mech_address;
                rc_response_timeout := rc_response_timeout config_values;
                rc_payment_data := rc_payment_data config_values;
                rc_delivery_rate := rc_delivery_rate config_values;
                rc_payment_type := rc_payment_type config_values |}
     | None => ret config_values
     end) ;;
  let mech_marketplace_request_config := config_values in
  let contract_address := rc_mech_marketplace_contract mech_marketplace_request_config in
  let private_key_path := or_default_str private_key_path (PRIVATE_KEY_FILE_PATH w) in
  if negb (path_exists w private_key_path) then
    raise (FileNotFoundError private_key_path)
  else
  emit (EWssConnect (mc_wss_endpoint mech_config)) ;;;
  let crypto := crypto_address w private_key_path in
  let abi := marketplace_abi w in
  let mech_marketplace_contract := contract_address in
  print "Fetching Mech Info..." [] ;;;
  let priority_mech_address := rc_priority_mech_address mech_marketplace_request_config in
  info <- fetch_mech_info mech_marketplace_contract priority_mech_address ;;
  let '(payment_type, service_id, max_delivery_rate,
        mech_payment_balance_tracker, mech_contract) := info in
  let mech_marketplace_request_config :=
    {| rc_mech_marketplace_contract := rc_mech_marketplace_contract mech_marketplace_request_config;
       rc_priority_mech_address := rc_priority_mech_address mech_marketplace_request_config;
       rc_response_timeout := rc_response_timeout mech_marketplace_request_config;
       rc_payment_data := rc_payment_data mech_marketplace_request_config;
       rc_delivery_rate := max_delivery_rate;
       rc_payment_type := payment_type |} in
  emit EVerifyTool ;;;
  let tool := verify_or_retrieve_tool w service_id tool in
  let signatures := get_event_signatures abi in
  let marketplace_request_event_signature := fst signatures in
  let marketplace_deliver_event_signature := snd signatures in
  emit (EWssRegister contract_address) ;;;
  paid <-
    marketplace_interact_payment mech_config chain_id use_prepaid crypto payment_type
                                 mech_payment_balance_tracker max_delivery_rate ;;
  match paid with
  | inl early => ret early
  | inr price =>
      price <-
        marketplace_interact_subscription crypto payment_type
                                          mech_payment_balance_tracker price ;;
      if negb use_offchain then
        marketplace_interact_onchain mech_config crypto mech_marketplace_contract
                                     prompt tool mech_marketplace_request_config
                                     extra_attributes price retries timeout sleep
                                     mech_contract marketplace_deliver_event_signature
                                     confirmation_type
      else
        marketplace_interact_offchain fuel crypto mech_marketplace_contract prompt tool
                                      mech_marketplace_request_config
                                      extra_attributes retries timeout sleep
  end
  end.

End WithWorld.


(** ** Vocabulary of the statements *)

(** A call starts at some time with an empty trace and a fresh random
    source. *)
Definition start (t0 : Z) : State := {| now := t0; trace := []; draws := 0 |}.



(** The actions that submit something: building, signing or sending a
    transaction, signing a message, posting to the direct endpoint. *)
Definition is_submission (e : Event) : bool :=
  match e with
  | EBuildTx _ | ESignTx | ESendTx | ESignMessage | EHttpPost _ => true
  | _ => false
  end.

Definition is_create_task (e : Event) : bool :=
  match e with ECreateTask _ => true | _ => false end.

Definition is_task_event (e : Event) : bool :=
  match e with
  | ECreateTask _ | ECancelTask _ => true
  | _ => false
  end.

(** The value of the request transaction, when [e] builds one. *)
Definition request_value (e : Event) : option Z :=
  match e with
  | EBuildTx tx =>
      if String.eqb (tx_method tx) "request" then Some (tx_value tx) else None
  | _ => None
  end.


(** The mech and marketplace addresses a call resolves to: the caller's
    mech with the configured marketplace, or the defaults of chain 100. *)
Definition resolved_mech (priority_mech : option string) : string :=
  default "0x478ad20eD958dCC5AD4ABa6F4E4cc51e07a840E4" priority_mech.

Definition resolved_marketplace (cfg : MechConfig) (priority_mech : option string)
  : string :=
  match priority_mech with
  | Some _ => mc_mech_marketplace_contract cfg
  | None => "0x735FAAb1c4Ec41128c367AFb5c3baC73509f70bB"
  end.

(** What a call that gets as far as the end of [fetch_mech_info] has done by
    then. *)
Definition resolution_events
    (w : World) (cfg : MechConfig) (priority_mech : option string) : list Event :=
  let mech := resolved_mech priority_mech in
  (match priority_mech with
   | Some _ => [EPrint "Custom Mech detected" []]
   | None => []
   end ++
   [EWssConnect (mc_wss_endpoint cfg);
    EPrint "Fetching Mech Info..." [];
    ECall mech "paymentType" [];
    ECall mech "maxDeliveryRate" [];
    ECall mech "serviceId" [];
    ECall (resolved_marketplace cfg priority_mech) "mapPaymentTypeBalanceTrackers"
          [VStr (paymentType w mech)]])%list.

(** What a call has done after the resolution when it reaches the payment
    block. *)
Definition registration_events (cfg : MechConfig) (priority_mech : option string)
  : list Event :=
  [EVerifyTool; EWssRegister (resolved_marketplace cfg priority_mech)].

(** The three lines [check_prepaid_balances] prints before it exits. *)
Definition deposit_low_events (ptype requester : string) (rate balance : Z)
  : list Event :=
  [EPrint (if String.eqb ptype PAYMENT_TYPE_NATIVE
           then "  - Sender Native deposited balance low. Needed: {max_delivery_rate}, Actual: {requester_balance}"
           else "  - Sender Token deposited balance low. Needed: {max_delivery_rate}, Actual: {requester_balance}")
          [VInt rate; VInt balance];
   EPrint "  - Sender Address: {requester}" [VStr requester];
   EPrint (if String.eqb ptype PAYMENT_TYPE_NATIVE
           then "  - Please use scripts/deposit_native.py to add balance"
           else "  - Please use scripts/deposit_token.py to add balance") []].

(** [emits P m Q]: whatever the state, running [m] extends the trace by
    actions that all satisfy [P], and a value it returns satisfies [Q]. *)
Definition emits {A : Type} (P : Event -> Prop) (m : M A) (Q : A -> Prop) : Prop :=
  forall st, exists new,
    trace (snd (m st)) = (trace st ++ new)%list
    /\ Forall (fun te => P (snd te)) new
    /\ forall a, fst (m st) = Return a -> Q a.

(** [stops m]: [m] leaves the state alone and does not return. *)
Definition stops {A : Type} (m : M A) : Prop :=
  forall st, snd (m st) = st /\ forall a, fst (m st) <> Return a.

(** [e] is not a request transaction, or it attaches the value [v]. *)
Definition attaches (v : Z) (e : Event) : Prop :=
  forall x, request_value e = Some x -> x = v.

(** The ledger's [n]-th answer is a failure: the transaction cannot be
    built or cannot be sent. *)
Definition attempt_fails (w : World) (tx : TxRequest) (n : nat) : Prop :=
  build_result w tx n <> None \/ exists e, send_result w tx n = inl e.




(** No entry of [d] has the key [k]. *)
Definition other_keys (k : string) (d : list (string * JValue)) : Prop :=
  Forall (fun kv => String.eqb (fst kv) k = false) d.

(** [extra_attributes] has a "nonce" key of its own. *)
Definition overrides_nonce (extra_attributes : option (list (string * JValue))) : bool :=
  match extra_attributes with
  | Some extra => existsb (fun kv => String.eqb (fst kv) "nonce") extra
  | None => false
  end.

(** The members of a JSON object as [json_dumps] writes them. *)
Definition json_members : list (string * JValue) -> string :=
  fix members (kv : list (string * JValue)) : string :=
    match kv with
    | [] => ""
    | (k, x) :: kv' =>
        match kv' with
        | [] => json_string k +:+ ":" +:+ json_dumps x
        | _ => json_string k +:+ ":" +:+ json_dumps x +:+ "," +:+ members kv'
        end
    end.

(** A reader for what [json_escape] writes, used to show that no two
    strings are written alike. *)
Definition unescape_letter (c : ascii) : option ascii :=
  match N_of_ascii c with
  | 92 => Some backslash
  | 34 => Some dquote
  | 98 => Some (ascii_of_N 8)
  | 102 => Some (ascii_of_N 12)
  | 110 => Some (ascii_of_N 10)
  | 114 => Some (ascii_of_N 13)
  | 116 => Some (ascii_of_N 9)
  | _ => None
  end%N.

Fixpoint json_unescape (s : string) : option string :=
  match s with
  | EmptyString => Some EmptyString
  | String c s1 =>
      if (N_of_ascii c =? 92)%N then
        match s1 with
        | EmptyString => None
        | String x s2 =>
            if (N_of_ascii x =? 117)%N then
              match s2 with
              | String _ (String _ (String h (String l s3))) =>
                  match hex_value h, hex_value l, json_unescape s3 with
                  | Some a, Some b, Some r =>
                      Some (String (ascii_of_N (16 * a + b)) r)
                  | _, _, _ => None
                  end
              | _ => None
              end
            else
              match unescape_letter x, json_unescape s2 with
              | Some c', Some r => Some (String c' r)
              | _, _ => None
              end
        end
      else
        match json_unescape s1 with
        | Some r => Some (String c r)
        | None => None
        end
  end.

(** ** Sample worlds *)

Definition sample_config (chain_id : Z) (marketplace : string) : MechConfig :=
  {| mc_chain_id := chain_id;
     mc_mech_marketplace_contract := marketplace;
     mc_wss_endpoint := "wss://rpc.gnosischain.example/wss";
     mc_gas_limit := 100000;
     mc_transaction_url := "https://gnosisscan.io/tx/{transaction_digest}";
     mc_subgraph_url := "" |}.

(** A world around one mech: its payment type and price, the requester's
    deposit with the balance tracker, wallet balance and subscription
    credits, and the answers of the ledger and of the direct endpoint. *)
Definition sample_world
    (cfg : MechConfig) (ptype : string) (rate deposit wallet credits : Z)
    (build : nat -> option Exn) (send : nat -> Exn + option string)
    (get : nat -> Exn + JValue) : World :=
  {| MAX_RETRIES := 3;
     TIMEOUT := 60000000;
     WAIT_SLEEP := 3000000;
     PRIVATE_KEY_FILE_PATH := "ethereum_private_key.txt";
     get_mech_config := fun _ => cfg;
     path_exists := fun _ => true;
     crypto_address := fun _ => "0xRequester";
     marketplace_abi :=
       [{| abi_type := "function"; abi_name := "request" |};
        {| abi_type := "event"; abi_name := "MarketplaceRequest" |};
        {| abi_type := "event"; abi_name := "MarketplaceDeliver" |}];
     calculate_topic_id := fun obj => "topic:" +:+ abi_name obj;
     to_checksum_address := fun a => a;
     verify_or_retrieve_tool := fun _ tool => default "openai-gpt-4" tool;
     paymentType := fun _ => ptype;
     maxDeliveryRate := fun _ => rate;
     serviceId := fun _ => 1;
     mapPaymentTypeBalanceTrackers := fun _ _ => "0xTracker";
     token_balanceOf := fun _ _ => wallet;
     mapRequesterBalances := fun _ _ => deposit;
     subscriptionNFT := fun _ => "0xSubscriptionNFT";
     subscriptionTokenId := fun _ => 7;
     nft_balanceOf := fun _ _ _ => credits;
     mapNonces := fun _ _ => 0;
     getRequestId := fun _ _ _ _ _ _ => [Byte.x2a];
     build_result := fun _ n => build n;
     send_result := fun _ n => send n;
     sign_message := fun _ => "0xsignature";
     push_metadata_to_ipfs := fun _ _ _ => ("0xabcd", "f01701220abcd");
     uuid4 := fun n => "uuid-" +:+ pretty n;
     ipfs_hash_only := fun data => "b" +:+ data;
     multibase_decode := fun _ => [Byte.x01; Byte.x70; Byte.x12; Byte.x20; Byte.xab];
     multicodec_remove_prefix := fun bs => drop 1 bs;
     watch_for_marketplace_request_id := fun _ => "2a";
     watch_for_marketplace_data_url_from_wss :=
       fun _ => Some (5000000%N, Some "https://gateway.autonolas.tech/ipfs/f01701220ff");
     py_str := python_str;
     http_post := fun _ _ => inr (JDict [("request_id", JInt 42)]);
     http_get := fun _ n => get n;
     latency := fun _ => 1000%N |}.

Definition always_sent : nat -> Exn + option string :=
  fun _ => inr (Some "0xdigest").
Definition never_sent : nat -> Exn + option string :=
  fun _ => inl (ExternalError "connection refused").

Definition builds : nat -> option Exn := fun _ => None.
Definition delivered : nat -> Exn + JValue :=
  fun _ => inr (JDict [("task_result", JStr "ff"); ("result", JStr "done")]).

(** The direct endpoint answers with an empty object first, then with the
    result. *)
Definition empty_then_delivered : nat -> Exn + JValue :=
  fun n =>
    match n with
    | O => inr (JDict [])
    | S _ => inr (JDict [("task_result", JStr "ff")])
    end.

(** The direct endpoint cannot be reached at first, then answers. *)
Definition refused_then_delivered : nat -> Exn + JValue :=
  fun n =>
    match n with
    | O => inl (ExternalError "connection refused")
    | S _ => inr (JDict [("task_result", JStr "ff")])
    end.

(** How many GET requests the trace holds. *)
Definition polls_so_far (st : State) : nat :=
  length (List.filter is_http_get (events st)).

(** A poll that did not yield a result: an exception or an empty answer. *)
Definition not_delivered (answer : Exn + JValue) : Prop :=
  match answer with
  | inl _ => True
  | inr response => truthy response = false
  end.

Definition gnosis : MechConfig :=
  sample_config 100 "0x735FAAb1c4Ec41128c367AFb5c3baC73509f70bB".

(** ** [main] of [fetch_ipfs_hash.py] *)

Definition main (w : World) (prompt tool : string) : M unit :=
  hashes <- fetch_ipfs_hash w prompt tool None ;;
  let '(v1_file_hash, v1_file_hash_hex, _) := hashes in
  print w "IPFS file hash v1: {}" [VStr v1_file_hash].

(** ** Vocabulary of the further properties *)

(** [obj] is an event entry of the ABI with the given name. *)
Definition is_event_named (name : string) (obj : AbiEntry) : bool :=
  String.eqb (abi_type obj) "event" && String.eqb (abi_name obj) name.

(** The topic of the last event entry with the given name, or the empty
    string when the ABI has none. *)
Definition last_topic (w : World) (name : string) (abi : list AbiEntry) : string :=
  match last (List.filter (is_event_named name) abi) with
  | Some obj => calculate_topic_id w obj
  | None => ""
  end.

(** The wrapped token of chain 100. *)
Definition gnosis_wrapped_token : string := "0xe91D153E0b41518A2Ce8Dd3D7944Fa863463a97d".

(** The transaction [approve_price_tokens] builds. *)
Definition approve_tx (token tracker sender : string) (price : Z) : TxRequest :=
  {| tx_contract := token;
     tx_method := "approve";
     tx_method_args := [("_to", VStr tracker); ("_value", VInt price)];
     tx_sender := sender;
     tx_value := 0;
     tx_gas := 60000 |}.

(** The request configuration after the mech was read: the defaults of
    chain 100, or the caller's mech with the configured marketplace, and the
    mech's rate and payment type. *)
Definition resolved_config
    (w : World) (cfg : MechConfig) (priority_mech : option string)
  : MechMarketplaceRequestConfig :=
  {| rc_mech_marketplace_contract := resolved_marketplace cfg priority_mech;
     rc_priority_mech_address := resolved_mech priority_mech;
     rc_response_timeout := 300;
     rc_payment_data := "0x";
     rc_delivery_rate := maxDeliveryRate w (resolved_mech priority_mech);
     rc_payment_type := paymentType w (resolved_mech priority_mech) |}.

(** The transaction [send_marketplace_request] builds. *)
Definition request_tx
    (w : World) (marketplace requester : string) (gas_limit : Z)
    (requestData : string) (rc : MechMarketplaceRequestConfig) (price : Z)
  : TxRequest :=
  {| tx_contract := marketplace;
     tx_method := "request";
     tx_method_args := request_method_args w requestData rc;
     tx_sender := requester;
     tx_value := price;
     tx_gas := gas_limit |}.

(** A world like [w0] but for the key file, the ABI, the answers of the
    direct endpoint to a post, the request identifier read from the receipt,
    and the event stream. *)
Definition with_answers
    (w0 : World) (key_file : bool) (abi : list AbiEntry)
    (post : nat -> Exn + JValue) (request_id : string)
    (stream : option (N * option string)) : World :=
  {| MAX_RETRIES := MAX_RETRIES w0;
     TIMEOUT := TIMEOUT w0;
     WAIT_SLEEP := WAIT_SLEEP w0;
     PRIVATE_KEY_FILE_PATH := PRIVATE_KEY_FILE_PATH w0;
     get_mech_config := get_mech_config w0;
     path_exists := fun _ => key_file;
     crypto_address := crypto_address w0;
     marketplace_abi := abi;
     calculate_topic_id := calculate_topic_id w0;
     to_checksum_address := to_checksum_address w0;
     verify_or_retrieve_tool := verify_or_retrieve_tool w0;
     paymentType := paymentType w0;
     maxDeliveryRate := maxDeliveryRate w0;
     serviceId := serviceId w0;
     mapPaymentTypeBalanceTrackers := mapPaymentTypeBalanceTrackers w0;
     token_balanceOf := token_balanceOf w0;
     mapRequesterBalances := mapRequesterBalances w0;
     subscriptionNFT := subscriptionNFT w0;
     subscriptionTokenId := subscriptionTokenId w0;
     nft_balanceOf := nft_balanceOf w0;
     mapNonces := mapNonces w0;
     getRequestId := getRequestId w0;
     build_result := build_result w0;
     send_result := send_result w0;
     sign_message := sign_message w0;
     push_metadata_to_ipfs := push_metadata_to_ipfs w0;
     uuid4 := uuid4 w0;
     ipfs_hash_only := ipfs_hash_only w0;
     multibase_decode := multibase_decode w0;
     multicodec_remove_prefix := multicodec_remove_prefix w0;
     watch_for_marketplace_request_id := fun _ => request_id;
     watch_for_marketplace_data_url_from_wss := fun _ => stream;
     py_str := py_str w0;
     http_post := fun _ n => post n;
     http_get := http_get w0;
     latency := latency w0 |}.

(** What [wait_for_marketplace_data_url] does before it waits. *)
Definition wait_events (subgraph_url : string) (confirmation_type : ConfirmationType)
  : list Event :=
  (match confirmation_type with
   | ON_CHAIN => []
   | _ => [EPrint "Off chain to be implemented" []]
   end
   ++ match confirmation_type with
      | OFF_CHAIN => []
      | _ =>
          ECreateTask "watch_for_marketplace_data_url_from_wss"
          :: (if String.eqb subgraph_url "" then []
              else [EPrint "Subgraph to be implemented" []])
      end)%list.

(** How the wait ends: on an empty task set, with the result of the
    websocket watch, or never. *)
Definition wait_outcome
    (w : World) (request_id : string) (confirmation_type : ConfirmationType)
  : Outcome (option string) :=
  match confirmation_type with
  | OFF_CHAIN => Raised (ValueError "Set of Tasks/Futures is empty.")
  | _ =>
      match watch_for_marketplace_data_url_from_wss w request_id with
      | Some (_, result) => Return result
      | None => Blocked
      end
  end.

(** The state in which the off-chain branch starts to poll: the three lines
    after the acknowledgement have been printed. *)
Definition offchain_poll_entry (w : World) (request_id : JValue) (st : State) : State :=
  snd ((print w "  - Created off-chain request with ID {request_id}" [VJson request_id] ;;;
        print w "" [] ;;;
        print w "Waiting for Offchain Mech Marketplace deliver..." []) st).

(** [v[k]] as a value: the entry, or the exception Python raises. *)
Definition getitem_result (v : JValue) (k : string) : Exn + JValue :=
  match v with
  | JDict kv =>
      match dict_get k kv with
      | Some x => inr x
      | None => inl (KeyError (KStr k))
      end
  | _ => inl TypeError
  end.

(** The address [wait_for_offchain_marketplace_data] polls. *)
Definition offchain_info_url : string := "http://localhost:8000/fetch_offchain_info".

(** What one poll that did not yield a result leaves in the trace: the
    request, and the one-second sleep when the request raised. *)
Definition poll_events (answer : Exn + JValue) : list Event :=
  match answer with
  | inl _ => [EHttpGet offchain_info_url; ESleep one_second]
  | inr _ => [EHttpGet offchain_info_url]
  end.

(** The answers to the next [k] polls. *)
Definition poll_answers (w : World) (st : State) (k : nat) : list (Exn + JValue) :=
  map (fun i => http_get w offchain_info_url (polls_so_far st + i)%nat) (seq 0 k).

(** How many transactions were built so far. *)
Definition builds_so_far (st : State) : nat :=
  length (List.filter is_build_tx (events st)).

(** What one attempt at a transaction leaves in the trace. *)
Definition attempt_events (w : World) (tx : TxRequest) (n : nat) : list Event :=
  match build_result w tx n with
  | Some _ => [EBuildTx tx]
  | None => [EBuildTx tx; ESignTx; ESendTx]
  end.

(** How one attempt at a transaction ends. *)
Definition attempt_outcome (w : World) (tx : TxRequest) (n : nat)
  : Outcome (option string) :=
  match build_result w tx n with
  | Some e => Raised e
  | None =>
      match send_result w tx n with
      | inl e => Raised e
      | inr digest => Return digest
      end
  end.

(** The metadata before [extra_attributes] is merged in. *)
Definition base_metadata (prompt tool nonce : string) : list (string * JValue) :=
  [("prompt", JStr prompt); ("tool", JStr tool); ("nonce", JStr nonce)].

(** The bytes [fetch_ipfs_hash] turns into the two identifiers. *)
Definition multihash_bytes_of
    (w : World) (prompt tool nonce : string)
    (extra_attributes : option (list (string * JValue))) : list Byte.byte :=
  multicodec_remove_prefix w
    (multibase_decode w
       (ipfs_hash_only w
          (json_dumps (JDict (metadata_of prompt tool nonce extra_attributes))))).

(** The address the off-chain submitter posts to. *)
Definition signed_requests_url : string := "http://localhost:8000/send_signed_requests".





(** What a call may do, as its inputs and the mech it resolves to allow:
    every action of every call is one of these. *)
Definition call_footprint
    (w : World) (cfg : MechConfig) (priority_mech : option string)
    (use_prepaid use_offchain : bool) (requester : string) (backoff : Z)
    (e : Event) : Prop :=
  let mech := resolved_mech priority_mech in
  let marketplace := resolved_marketplace cfg priority_mech in
  let ptype := paymentType w mech in
  let rate := maxDeliveryRate w mech in
  let tracker := mapPaymentTypeBalanceTrackers w marketplace ptype in
  let approving := use_prepaid = false /\ ptype = PAYMENT_TYPE_TOKEN in
  match e with
  | EPrint _ _ | EVerifyTool | EHttpGet _ => True
  | EWssConnect endpoint => endpoint = mc_wss_endpoint cfg
  | EWssRegister contract => contract = marketplace
  | ECall contract method args =>
      (contract = mech /\ In method ["paymentType"; "maxDeliveryRate"; "serviceId"])
      \/ (contract = marketplace /\ method = "mapPaymentTypeBalanceTrackers")
      \/ (approving /\ contract = gnosis_wrapped_token /\ method = "balanceOf"
          /\ args = [VStr requester])
      \/ (use_prepaid = true
          /\ (ptype = PAYMENT_TYPE_NATIVE \/ ptype = PAYMENT_TYPE_TOKEN)
          /\ contract = tracker /\ method = "mapRequesterBalances"
          /\ args = [VStr requester])
      \/ (ptype = PAYMENT_TYPE_NVM
          /\ ((contract = tracker /\ In method ["subscriptionNFT"; "subscriptionTokenId"])
              \/ (contract = subscriptionNFT w tracker /\ method = "balanceOf")))
      \/ (use_offchain = true /\ contract = marketplace
          /\ In method ["mapNonces"; "getRequestId"])
  | EBuildTx tx =>
      (approving /\ tx = approve_tx gnosis_wrapped_token tracker requester rate)
      \/ (use_offchain = false /\ tx_method tx = "request"
          /\ tx_contract tx = marketplace /\ tx_sender tx = requester
          /\ tx_gas tx = mc_gas_limit cfg)
  | ESignTx | ESendTx => approving \/ use_offchain = false
  | EWaitReceipt _ => approving
  | EIpfsPush | EWatchRequestId _ => use_offchain = false
  | ECreateTask coro =>
      use_offchain = false /\ coro = "watch_for_marketplace_data_url_from_wss"
  | ECancelTask _ => False
  | ESignMessage => use_offchain = true
  | EHttpPost url => use_offchain = true /\ url = signed_requests_url
  | ESleep ticks => ticks = backoff \/ (use_offchain = true /\ ticks = one_second)
  end.

(** The actions of a token approval: building the approve transaction and
    waiting for its receipt. *)
Definition is_approval_action (e : Event) : bool :=
  match e with
  | EBuildTx tx => String.eqb (tx_method tx) "approve"
  | EWaitReceipt _ => true
  | _ => false
  end.

(** The actions only the on-chain branch performs. *)
Definition is_onchain_action (e : Event) : bool :=
  match e with
  | EBuildTx tx => String.eqb (tx_method tx) "request"
  | EIpfsPush | EWatchRequestId _ | ECreateTask _ => true
  | _ => false
  end.

(** The actions only the off-chain branch performs. *)
Definition is_offchain_action (e : Event) : bool :=
  match e with
  | ESignMessage | EHttpPost _ => true
  | ECall _ method _ => String.eqb method "mapNonces" || String.eqb method "getRequestId"
  | _ => false
  end.

(** Reading a balance: the wallet, the deposit, or the subscription. *)
Definition is_balance_read (e : Event) : bool :=
  match e with
  | ECall _ method _ =>
      String.eqb method "balanceOf" || String.eqb method "mapRequesterBalances"
  | _ => false
  end.

(** * Properties *)

(** ** Running the model *)

(** Unfolds the monad, the primitive actions and the straight-line
    functions, and computes on the trace; conditions on what the world
    answers stay in place for the hypotheses to rewrite. *)
Ltac mrun :=
  cbv beta iota zeta delta
    [bind ret emit print call sys_exit raise block of_result try_ timestamp
     count_events fetch_mech_info check_prepaid_balances
     fetch_requester_nvm_subscription_balance approve_price_tokens
     build_transaction sign_transaction send_signed_transaction
     marketplace_interact_payment marketplace_interact_subscription
     fst snd negb now trace draws events
     rc_mech_marketplace_contract rc_priority_mech_address rc_response_timeout
     rc_payment_data rc_delivery_rate rc_payment_type
     length app map List.map List.filter is_submission is_task_event
     resolution_events resolved_mech resolved_marketplace default from_option id].

Lemma default_config_100 :
  CHAIN_TO_DEFAULT_MECH_MARKETPLACE_REQUEST_CONFIG !! 100 =
  Some {| rc_mech_marketplace_contract := "0x735FAAb1c4Ec41128c367AFb5c3baC73509f70bB";
          rc_priority_mech_address := "0x478ad20eD958dCC5AD4ABa6F4E4cc51e07a840E4";
          rc_response_timeout := 300;
          rc_payment_data := "0x";
          rc_delivery_rate := 0;
          rc_payment_type := "" |}.
Proof. reflexivity. Qed.

Lemma default_config_only_100 (chain_id : Z) :
  chain_id <> 100 ->
  CHAIN_TO_DEFAULT_MECH_MARKETPLACE_REQUEST_CONFIG !! chain_id = None.
Proof.
  intros H. unfold CHAIN_TO_DEFAULT_MECH_MARKETPLACE_REQUEST_CONFIG.
  apply lookup_singleton_ne. congruence.
Qed.

(** ** C10: chains without a default request configuration *)

(** C10. When the configured chain id is not 100 and the marketplace address
    is not the zero address, [marketplace_interact] raises [KeyError] on the
    chain id and leaves the state as it found it: nothing was printed, read,
    built or awaited.  The wrapped-token table meanwhile has six chains and
    the default-configuration table only chain 100. *)
Theorem unlisted_chain_raises_KeyError
    (w : World) (fuel : nat) (prompt : string) (priority_mech : option string)
    (use_prepaid use_offchain : bool) (tool : option string)
    (extra_attributes : option (list (string * JValue)))
    (private_key_path : option string) (confirmation_type : ConfirmationType)
    (retries timeout sleep : option Z) (chain_config : option string) (st : State) :
  mc_chain_id (get_mech_config w chain_config) <> 100 ->
  mc_mech_marketplace_contract (get_mech_config w chain_config) <> ADDRESS_ZERO ->
  marketplace_interact w fuel prompt priority_mech use_prepaid use_offchain tool
    extra_attributes private_key_path confirmation_type retries timeout sleep
    chain_config st
  = (Raised (KeyError (KInt (mc_chain_id (get_mech_config w chain_config)))), st)
  /\ size CHAIN_TO_WRAPPED_TOKEN = 6%nat
  /\ dom CHAIN_TO_DEFAULT_MECH_MARKETPLACE_REQUEST_CONFIG = {[ 100 ]}.
Proof.
  intros Hchain Haddr. split; [| split].
  - unfold marketplace_interact.
    apply String.eqb_neq in Haddr. rewrite Haddr.
    now rewrite (default_config_only_100 _ Hchain).
  - reflexivity.
  - unfold CHAIN_TO_DEFAULT_MECH_MARKETPLACE_REQUEST_CONFIG. apply dom_singleton_L.
Qed.

(** Ethereum mainnet has a wrapped token but no default request
    configuration: a call configured for chain 1 stops with [KeyError 1]. *)
Lemma unlisted_chain_raises_KeyError_witness :
  CHAIN_TO_WRAPPED_TOKEN !! 1 = Some "0xC02aaA39b223FE8D0A0e5C4F27eAD9083C756Cc2"
  /\ marketplace_interact
       (sample_world (sample_config 1 "0x735FAAb1c4Ec41128c367AFb5c3baC73509f70bB")
                     PAYMENT_TYPE_NATIVE 10 0 0 0 builds always_sent delivered)
       5 "hello" None false false None None None WAIT_FOR_BOTH None None None None
       (start 0)
     = (Raised (KeyError (KInt 1)), start 0).
Proof.
  split; [reflexivity |].
  apply (unlisted_chain_raises_KeyError
           (sample_world (sample_config 1 "0x735FAAb1c4Ec41128c367AFb5c3baC73509f70bB")
                         PAYMENT_TYPE_NATIVE 10 0 0 0 builds always_sent delivered)).
  - simpl. lia.
  - simpl. discriminate.
Defined.

(** ** C3: unrecognised payment types *)

Arguments known_payment_type : simpl never.

(** [fetch_mech_info] on an unrecognised tag: four reads, the message, and
    [sys.exit(1)]. *)
Lemma fetch_mech_info_unknown (w : World) (marketplace mech : string) (st : State) :
  known_payment_type (paymentType w mech) = false ->
  fst (fetch_mech_info w marketplace mech st) = SysExit 1
  /\ events (snd (fetch_mech_info w marketplace mech st))
     = (events st ++
        [ECall mech "paymentType" [];
         ECall mech "maxDeliveryRate" [];
         ECall mech "serviceId" [];
         ECall marketplace "mapPaymentTypeBalanceTrackers" [VStr (paymentType w mech)];
         EPrint "  - Invalid mech type detected." []])%list.
Proof.
  intros Hk. unfold fetch_mech_info, call, print, emit, bind, ret, sys_exit, events.
  cbn [fst snd trace]. rewrite Hk. cbn [negb fst snd trace].
  split; [reflexivity |].
  rewrite !map_app. cbn [map fst snd]. rewrite <- !app_assoc. reflexivity.
Qed.

(** C3. A call that gets as far as reading the mech (chain 100, a marketplace
    address, a key file) and finds a payment type that is none of the three
    known ones ends in [sys.exit(1)].  Its whole trace is the resolution
    reads, each made once, followed by the message: nothing is retried and no
    ledger, websocket or HTTP action follows the resolution. *)
Theorem unknown_payment_type_exits
    (w : World) (fuel : nat) (prompt : string) (priority_mech : option string)
    (use_prepaid use_offchain : bool) (tool : option string)
    (extra_attributes : option (list (string * JValue)))
    (private_key_path : option string) (confirmation_type : ConfirmationType)
    (retries timeout sleep : option Z) (chain_config : option string) (t0 : Z) :
  let cfg := get_mech_config w chain_config in
  let r := marketplace_interact w fuel prompt priority_mech use_prepaid use_offchain
             tool extra_attributes private_key_path confirmation_type
             retries timeout sleep chain_config (start t0) in
  mc_chain_id cfg = 100 ->
  mc_mech_marketplace_contract cfg <> ADDRESS_ZERO ->
  path_exists w (or_default_str private_key_path (PRIVATE_KEY_FILE_PATH w)) = true ->
  known_payment_type (paymentType w (resolved_mech priority_mech)) = false ->
  fst r = SysExit 1
  /\ events (snd r)
     = (resolution_events w cfg priority_mech
        ++ [EPrint "  - Invalid mech type detected." []])%list.
Proof.
  intros cfg r Hc Ha Hp Hk. subst r.
  unfold marketplace_interact, start. fold cfg.
  apply String.eqb_neq in Ha. rewrite Ha, Hc, default_config_100.
  destruct priority_mech as [pm|]; cbn [resolved_mech default from_option id] in Hk;
    mrun; rewrite Hp; mrun; rewrite Hk; mrun; split; reflexivity.
Qed.

Lemma unknown_payment_type_exits_witness :
  let w := sample_world gnosis "00" 10 0 0 0 builds always_sent delivered in
  fst (marketplace_interact w 5 "hello" None false false None None None
         WAIT_FOR_BOTH None None None None (start 0)) = SysExit 1.
Proof.
  intros w.
  apply (unknown_payment_type_exits w 5 "hello" None false false None None None
           WAIT_FOR_BOTH None None None None 0);
    [reflexivity | discriminate | reflexivity | reflexivity].
Defined.

(** ** C2: the prepaid balance check *)

(** Unfolds what [mrun] does and also decides comparisons of literal
    strings. *)
Ltac mrun_eqb :=
  cbv beta iota zeta delta
    [bind ret emit print call sys_exit raise block of_result try_ timestamp
     count_events fetch_mech_info check_prepaid_balances
     fetch_requester_nvm_subscription_balance approve_price_tokens
     build_transaction sign_transaction send_signed_transaction
     marketplace_interact_payment marketplace_interact_subscription
     fst snd negb orb andb now trace draws events
     rc_mech_marketplace_contract rc_priority_mech_address rc_response_timeout
     rc_payment_data rc_delivery_rate rc_payment_type
     length app map List.map List.filter is_submission is_task_event
     resolution_events registration_events deposit_low_events
     resolved_mech resolved_marketplace default from_option id
     known_payment_type String.eqb Ascii.eqb Bool.eqb
     PAYMENT_TYPE_NATIVE PAYMENT_TYPE_TOKEN PAYMENT_TYPE_NVM].

(** C2 as stated fails for a prepaid call to a subscription mech whose
    requester has neither a deposit nor credits: it should stop before
    anything is built, yet it goes on and builds the request transaction. *)
Lemma prepaid_subscription_not_checked :
  let w := sample_world gnosis PAYMENT_TYPE_NVM 10 0 0 0 builds always_sent delivered in
  let r := marketplace_interact w 5 "hello" None true false None None None
             WAIT_FOR_BOTH None None None None (start 0) in
  mapRequesterBalances w "0xTracker" "0xRequester" < maxDeliveryRate w (resolved_mech None)
  /\ nft_balanceOf w "0xSubscriptionNFT" "0xRequester" 7 < maxDeliveryRate w (resolved_mech None)
  /\ fst r <> SysExit 1
  /\ List.filter is_submission (events (snd r)) <> [].
Proof.
  cbv zeta. repeat split; try (vm_compute; reflexivity); vm_compute; discriminate.
Qed.

(** C2, amended.  A prepaid call to a native or token mech whose deposit with
    the balance tracker is below the mech's max delivery rate ends in
    [sys.exit(1)] after reading the deposit and printing the low-balance
    lines; nothing is built, signed, sent or posted. *)
Theorem prepaid_low_deposit_exits
    (w : World) (fuel : nat) (prompt : string) (priority_mech : option string)
    (use_offchain : bool) (tool : option string)
    (extra_attributes : option (list (string * JValue)))
    (private_key_path : option string) (confirmation_type : ConfirmationType)
    (retries timeout sleep : option Z) (chain_config : option string) (t0 : Z) :
  let cfg := get_mech_config w chain_config in
  let mech := resolved_mech priority_mech in
  let ptype := paymentType w mech in
  let rate := maxDeliveryRate w mech in
  let tracker :=
    mapPaymentTypeBalanceTrackers w (resolved_marketplace cfg priority_mech) ptype in
  let requester :=
    crypto_address w (or_default_str private_key_path (PRIVATE_KEY_FILE_PATH w)) in
  let r := marketplace_interact w fuel prompt priority_mech true use_offchain
             tool extra_attributes private_key_path confirmation_type
             retries timeout sleep chain_config (start t0) in
  mc_chain_id cfg = 100 ->
  mc_mech_marketplace_contract cfg <> ADDRESS_ZERO ->
  path_exists w (or_default_str private_key_path (PRIVATE_KEY_FILE_PATH w)) = true ->
  ptype = PAYMENT_TYPE_NATIVE \/ ptype = PAYMENT_TYPE_TOKEN ->
  mapRequesterBalances w tracker requester < rate ->
  fst r = SysExit 1
  /\ List.filter is_submission (events (snd r)) = []
  /\ events (snd r)
     = (resolution_events w cfg priority_mech
        ++ registration_events cfg priority_mech
        ++ [EPrint "Prepaid request to be used, skipping payment" [];
            ECall tracker "mapRequesterBalances" [VStr requester]]
        ++ deposit_low_events ptype requester rate
                              (mapRequesterBalances w tracker requester))%list.
Proof.
  intros cfg mech ptype rate tracker requester r Hc Ha Hp Hty Hlow.
  subst r requester tracker rate ptype mech. unfold marketplace_interact, start. fold cfg.
  apply String.eqb_neq in Ha. rewrite Ha, Hc, default_config_100.
  apply Z.ltb_lt in Hlow.
  destruct priority_mech as [pm|];
    cbn [resolved_mech resolved_marketplace default from_option id] in *;
    mrun; rewrite Hp; mrun;
    destruct Hty as [Hty | Hty]; rewrite Hty in *;
    cbv delta [PAYMENT_TYPE_NATIVE PAYMENT_TYPE_TOKEN] in Hlow;
    mrun_eqb; rewrite Hlow; mrun_eqb; repeat split; reflexivity.
Qed.

Lemma prepaid_low_deposit_exits_witness :
  let w := sample_world gnosis PAYMENT_TYPE_NATIVE 10 3 0 0 builds always_sent delivered in
  fst (marketplace_interact w 5 "hello" None true false None None None
         WAIT_FOR_BOTH None None None None (start 0)) = SysExit 1.
Proof.
  intros w.
  apply (prepaid_low_deposit_exits w 5 "hello" None false None None None
           WAIT_FOR_BOTH None None None None 0);
    [reflexivity | discriminate | reflexivity | left; reflexivity | reflexivity].
Defined.

(** ** C7: the subscription-credit check *)

(** C7 as stated fails for a prepaid call to a subscription mech by a
    requester holding 4 units against a max delivery rate of 10: the call is
    not stopped, and the request transaction is sent. *)
Lemma prepaid_subscription_compares_with_zero :
  let w := sample_world gnosis PAYMENT_TYPE_NVM 10 50 0 4 builds always_sent delivered in
  let r := marketplace_interact w 5 "hello" (Some "0xMyMech") true false None None None
             ON_CHAIN None None None None (start 0) in
  paymentType w (resolved_mech (Some "0xMyMech")) = PAYMENT_TYPE_NVM
  /\ nft_balanceOf w "0xSubscriptionNFT" "0xRequester" 7
     < maxDeliveryRate w (resolved_mech (Some "0xMyMech"))
  /\ fst r <> SysExit 1
  /\ In ESendTx (events (snd r)).
Proof.
  cbv zeta. split; [reflexivity |]. split; [reflexivity |].
  split; [vm_compute; discriminate |].
  vm_compute. tauto.
Qed.

(** C7, amended.  A call that is not prepaid and targets a subscription mech
    reads the subscription token's contract and identifier from the balance
    tracker, then the requester's units of that token, and ends in
    [sys.exit(1)] when the units are below the max delivery rate; nothing is
    built, signed, sent or posted. *)
Theorem subscription_low_credits_exits
    (w : World) (fuel : nat) (prompt : string) (priority_mech : option string)
    (use_offchain : bool) (tool : option string)
    (extra_attributes : option (list (string * JValue)))
    (private_key_path : option string) (confirmation_type : ConfirmationType)
    (retries timeout sleep : option Z) (chain_config : option string) (t0 : Z) :
  let cfg := get_mech_config w chain_config in
  let mech := resolved_mech priority_mech in
  let rate := maxDeliveryRate w mech in
  let tracker :=
    mapPaymentTypeBalanceTrackers w (resolved_marketplace cfg priority_mech)
                                  PAYMENT_TYPE_NVM in
  let requester :=
    crypto_address w (or_default_str private_key_path (PRIVATE_KEY_FILE_PATH w)) in
  let units :=
    nft_balanceOf w (subscriptionNFT w tracker) requester (subscriptionTokenId w tracker) in
  let r := marketplace_interact w fuel prompt priority_mech false use_offchain
             tool extra_attributes private_key_path confirmation_type
             retries timeout sleep chain_config (start t0) in
  mc_chain_id cfg = 100 ->
  mc_mech_marketplace_contract cfg <> ADDRESS_ZERO ->
  path_exists w (or_default_str private_key_path (PRIVATE_KEY_FILE_PATH w)) = true ->
  paymentType w mech = PAYMENT_TYPE_NVM ->
  units < rate ->
  fst r = SysExit 1
  /\ List.filter is_submission (events (snd r)) = []
  /\ events (snd r)
     = (resolution_events w cfg priority_mech
        ++ registration_events cfg priority_mech
        ++ [EPrint "Nevermined Mech detected, subscription credits to be used" [];
            ECall tracker "subscriptionNFT" [];
            ECall tracker "subscriptionTokenId" [];
            ECall (subscriptionNFT w tracker) "balanceOf"
                  [VStr requester; VInt (subscriptionTokenId w tracker)];
            EPrint "  - Sender Subscription balance low. Needed: {price}, Actual: {requester_balance}"
                   [VInt rate; VInt units];
            EPrint "  - Sender Address: {requester}" [VStr requester]])%list.
Proof.
  intros cfg mech rate tracker requester units r Hc Ha Hp Hty Hlow.
  subst r units requester tracker rate mech. unfold marketplace_interact, start. fold cfg.
  apply String.eqb_neq in Ha. rewrite Ha, Hc, default_config_100.
  apply Z.ltb_lt in Hlow.
  destruct priority_mech as [pm|];
    cbn [resolved_mech resolved_marketplace default from_option id] in *;
    mrun; rewrite Hp; mrun; rewrite Hty in *;
    cbv delta [PAYMENT_TYPE_NVM] in Hlow;
    mrun_eqb; rewrite Hlow; mrun_eqb; repeat split; reflexivity.
Qed.

Lemma subscription_low_credits_exits_witness :
  let w := sample_world gnosis PAYMENT_TYPE_NVM 10 0 0 4 builds always_sent delivered in
  fst (marketplace_interact w 5 "hello" None false false None None None
         WAIT_FOR_BOTH None None None None (start 0)) = SysExit 1.
Proof.
  intros w.
  apply (subscription_low_credits_exits w 5 "hello" None false None None None
           WAIT_FOR_BOTH None None None None 0);
    [reflexivity | discriminate | reflexivity | reflexivity | reflexivity].
Defined.

(** ** A logic of traces *)

Section TraceLogic.

Variable w : World.
Variable P : Event -> Prop.

Lemma emits_ret {A} (a : A) (Q : A -> Prop) : Q a -> emits P (ret a) Q.
Proof.
  intros HQ st. exists []. cbn. rewrite app_nil_r.
  repeat split; [constructor |]. intros b [= <-]. exact HQ.
Qed.

Lemma emits_stops {A} (m : M A) (Q : A -> Prop) : stops m -> emits P m Q.
Proof.
  intros Hm st. destruct (Hm st) as [Hst Hno]. exists [].
  rewrite Hst, app_nil_r. repeat split; [constructor |].
  intros a Ha. now destruct (Hno a).
Qed.

Lemma stops_raise {A} (e : Exn) : stops (@raise A e).
Proof. intros st. split; [reflexivity | discriminate]. Qed.
Lemma stops_sys_exit {A} (c : Z) : stops (@sys_exit A c).
Proof. intros st. split; [reflexivity | discriminate]. Qed.
Lemma stops_block {A} : stops (@block A).
Proof. intros st. split; [reflexivity | discriminate]. Qed.
Lemma stops_out_of_fuel {A} : stops (@out_of_fuel A).
Proof. intros st. split; [reflexivity | discriminate]. Qed.

Lemma emits_ext {A} (m m' : M A) (Q : A -> Prop) :
  (forall st, m st = m' st) -> emits P m' Q -> emits P m Q.
Proof. intros He Hm st. rewrite He. apply Hm. Qed.

Lemma emits_weaken {A} (m : M A) (Q Q' : A -> Prop) :
  emits P m Q -> (forall a, Q a -> Q' a) -> emits P m Q'.
Proof.
  intros Hm HQ st. destruct (Hm st) as (new & Ht & HP & Hr).
  exists new. repeat split; auto.
Qed.

Lemma emits_bind {A B} (m : M A) (k : A -> M B) (Q : A -> Prop) (R : B -> Prop) :
  emits P m Q -> (forall a, Q a -> emits P (k a) R) -> emits P (bind m k) R.
Proof.
  intros Hm Hk st. destruct (Hm st) as (new & Ht & HP & Hr).
  unfold bind. destruct (m st) as [[a | c | e | |] st1] eqn:E; cbn in *;
    try (exists new; repeat split; [assumption | assumption | discriminate]).
  destruct (Hk a (Hr a eq_refl) st1) as (new' & Ht' & HP' & Hr').
  exists (new ++ new')%list. rewrite Ht', Ht, app_assoc.
  repeat split; [now apply Forall_app | assumption].
Qed.

Lemma emits_assoc {A B C} (m : M A) (k : A -> M B) (k' : B -> M C) (R : C -> Prop) :
  emits P (bind m (fun a => bind (k a) k')) R -> emits P (bind (bind m k) k') R.
Proof.
  apply emits_ext. intros st. unfold bind.
  destruct (m st) as [[a | c | e | |] st1]; reflexivity.
Qed.

Lemma emits_emit (e : Event) (Q : unit -> Prop) :
  P e -> Q tt -> emits P (emit w e) Q.
Proof.
  intros He HQ st. exists [(now st, e)]. cbn.
  repeat split; [repeat constructor; exact He |]. intros [] _. exact HQ.
Qed.

Lemma emits_sleep (s : Z) (Q : unit -> Prop) :
  P (ESleep s) -> Q tt -> emits P (time_sleep w s) Q.
Proof.
  intros He HQ st. unfold time_sleep. destruct (s <? 0).
  - exists []. cbn. rewrite app_nil_r. repeat split; [constructor | discriminate].
  - exists [(now st, ESleep s)]. cbn.
    repeat split; [repeat constructor; exact He |]. intros [] _. exact HQ.
Qed.

Lemma emits_timestamp (Q : Z -> Prop) : (forall t, Q t) -> emits P timestamp Q.
Proof.
  intros HQ st. exists []. cbn. rewrite app_nil_r.
  repeat split; [constructor |]. intros a _. apply HQ.
Qed.

Lemma emits_count_events (f : Event -> bool) (Q : nat -> Prop) :
  (forall n, Q n) -> emits P (count_events f) Q.
Proof.
  intros HQ st. exists []. cbn. rewrite app_nil_r.
  repeat split; [constructor |]. intros a _. apply HQ.
Qed.

Lemma emits_try {A} (m : M A) (Q : A -> Prop) (Q' : Exn + A -> Prop) :
  emits P m Q ->
  (forall a, Q a -> Q' (inr a)) -> (forall e, Q' (inl e)) ->
  emits P (try_ m) Q'.
Proof.
  intros Hm Hr Hl st. destruct (Hm st) as (new & Ht & HP & HQ).
  exists new. unfold try_. destruct (m st) as [[a | c | e | |] st1]; cbn in *;
    repeat split; try assumption; try discriminate.
  - intros r [= <-]. apply Hr, HQ. reflexivity.
  - intros r [= <-]. apply Hl.
Qed.

(** The same rules with a continuation, the form symbolic execution
    meets. *)

Lemma emits_bind_ret {A B} (a : A) (k : A -> M B) (R : B -> Prop) :
  emits P (k a) R -> emits P (bind (ret a) k) R.
Proof. apply emits_ext. reflexivity. Qed.

Lemma emits_bind_stops {A B} (m : M A) (k : A -> M B) (R : B -> Prop) :
  stops m -> emits P (bind m k) R.
Proof.
  intros Hm. apply emits_bind with (Q := fun _ => False).
  - now apply emits_stops.
  - intros a [].
Qed.

Lemma emits_bind_emit {B} (e : Event) (k : unit -> M B) (R : B -> Prop) :
  P e -> emits P (k tt) R -> emits P (bind (emit w e) k) R.
Proof.
  intros He Hk. apply emits_bind with (Q := fun _ => True).
  - now apply emits_emit.
  - intros [] _. exact Hk.
Qed.

Lemma emits_bind_call {A B} (c m : string) (args : list PyVal) (v : A)
    (k : A -> M B) (R : B -> Prop) :
  P (ECall c m args) -> emits P (k v) R -> emits P (bind (call w c m args v) k) R.
Proof.
  intros He Hk. unfold call. apply emits_assoc, emits_bind_emit; [exact He |].
  now apply emits_bind_ret.
Qed.

Lemma emits_bind_sleep {B} (s : Z) (k : unit -> M B) (R : B -> Prop) :
  P (ESleep s) -> emits P (k tt) R -> emits P (bind (time_sleep w s) k) R.
Proof.
  intros He Hk. apply emits_bind with (Q := fun _ => True).
  - now apply emits_sleep.
  - intros [] _. exact Hk.
Qed.

Lemma emits_bind_timestamp {B} (k : Z -> M B) (R : B -> Prop) :
  (forall t, emits P (k t) R) -> emits P (bind timestamp k) R.
Proof.
  intros Hk. apply emits_bind with (Q := fun _ => True).
  - now apply emits_timestamp.
  - intros t _. apply Hk.
Qed.

Lemma emits_bind_count_events {B} (f : Event -> bool) (k : nat -> M B) (R : B -> Prop) :
  (forall n, emits P (k n) R) -> emits P (bind (count_events f) k) R.
Proof.
  intros Hk. apply emits_bind with (Q := fun _ => True).
  - now apply emits_count_events.
  - intros t _. apply Hk.
Qed.

Lemma emits_bind_try {A B} (m : M A) (k : Exn + A -> M B) (R : B -> Prop) :
  emits P m (fun _ => True) ->
  (forall r, emits P (k r) R) ->
  emits P (bind (try_ m) k) R.
Proof.
  intros Hm Hk. apply emits_bind with (Q := fun _ => True).
  - now apply emits_try with (Q := fun _ => True).
  - intros r _. apply Hk.
Qed.

Lemma emits_bind_elapse {B} (d : N) (k : unit -> M B) (R : B -> Prop) :
  emits P (k tt) R -> emits P (bind (elapse d) k) R.
Proof.
  intros Hk. apply emits_bind with (Q := fun _ => True).
  - intros st. exists []. cbn. rewrite app_nil_r. repeat split. constructor.
  - intros [] _. exact Hk.
Qed.

Lemma emits_bind_uuid4 {B} (k : string -> M B) (R : B -> Prop) :
  (forall u, emits P (k u) R) -> emits P (bind (uuid4_str w) k) R.
Proof.
  intros Hk. apply emits_bind with (Q := fun _ => True).
  - intros st. exists []. cbn. rewrite app_nil_r. repeat split. constructor.
  - intros u _. apply Hk.
Qed.

End TraceLogic.

(** Symbolic execution: one rule for the head of the computation, a case
    split where the code branches.  [side] proves [P] of each emitted
    action. *)
Ltac estep side :=
  lazymatch goal with
  | |- emits _ (bind (bind _ _) _) _ => apply emits_assoc
  | |- emits _ (bind (ret _) _) _ => apply emits_bind_ret
  | |- emits _ (bind (emit _ _) _) _ => apply emits_bind_emit; [side |]
  | |- emits _ (bind (print _ _ _) _) _ => apply emits_bind_emit; [side |]
  | |- emits _ (bind (call _ _ _ _ _) _) _ => apply emits_bind_call; [side |]
  | |- emits _ (bind (time_sleep _ _) _) _ => apply emits_bind_sleep; [side |]
  | |- emits _ (bind (elapse _) _) _ => apply emits_bind_elapse
  | |- emits _ (bind timestamp _) _ => apply emits_bind_timestamp; intro
  | |- emits _ (bind (count_events _) _) _ => apply emits_bind_count_events; intro
  | |- emits _ (bind (uuid4_str _) _) _ => apply emits_bind_uuid4; intro
  | |- emits _ (bind (raise _) _) _ => apply emits_bind_stops, stops_raise
  | |- emits _ (bind (sys_exit _) _) _ => apply emits_bind_stops, stops_sys_exit
  | |- emits _ (bind block _) _ => apply emits_bind_stops, stops_block
  | |- emits _ (bind out_of_fuel _) _ => apply emits_bind_stops, stops_out_of_fuel
  | |- emits _ (bind (if ?c then _ else _) _) _ => destruct c eqn:?
  | |- emits _ (bind (match ?x with _ => _ end) _) _ => destruct x eqn:?
  | |- emits _ (ret _) _ => apply emits_ret
  | |- emits _ (raise _) _ => apply emits_stops, stops_raise
  | |- emits _ (sys_exit _) _ => apply emits_stops, stops_sys_exit
  | |- emits _ block _ => apply emits_stops, stops_block
  | |- emits _ out_of_fuel _ => apply emits_stops, stops_out_of_fuel
  | |- emits _ (emit _ _) _ => apply emits_emit; [side |]
  | |- emits _ (print _ _ _) _ => apply emits_emit; [side |]
  | |- emits _ (time_sleep _ _) _ => apply emits_sleep; [side |]
  | |- emits _ (if ?c then _ else _) _ => destruct c eqn:?
  | |- emits _ (match ?x with _ => _ end) _ => destruct x eqn:?
  end.

(** ** C5: the value attached to the request transaction *)

Ltac attaches_side :=
  let x := fresh "x" in
  let Hx := fresh "Hx" in
  intros x Hx; cbn in Hx;
  first [discriminate Hx | injection Hx as <-; first [reflexivity | assumption | congruence]].

Ltac enorm :=
  cbv beta iota zeta delta
    [rc_mech_marketplace_contract rc_priority_mech_address rc_response_timeout
     rc_payment_data rc_delivery_rate rc_payment_type fst snd].

Ltac esteps side := repeat (enorm; estep side).

Section AttachedValue.

Variable w : World.
Variable v : Z.

Lemma attaches_not_build_tx (e : Event) : is_build_tx e = false -> attaches v e.
Proof. destruct e; cbn; intros H x Hx; discriminate. Qed.

Lemma onchain_attempt_attaches (tx : TxRequest) :
  attaches v (EBuildTx tx) ->
  emits (attaches v) (onchain_attempt w tx) (fun _ => True).
Proof.
  intros Htx. unfold onchain_attempt, build_transaction, sign_transaction,
    send_signed_transaction, of_result.
  esteps ltac:(first [exact Htx | attaches_side]); exact I.
Qed.

Lemma send_marketplace_request_loop_attaches
    (fuel : nat) (tx : TxRequest) (retries deadline sleep tries : Z) :
  attaches v (EBuildTx tx) ->
  emits (attaches v)
        (send_marketplace_request_loop w fuel tx retries deadline sleep tries)
        (fun _ => True).
Proof.
  intros Htx. revert tries.
  induction fuel as [| fuel IH]; intros tries; cbn [send_marketplace_request_loop].
  - esteps attaches_side.
  - estep attaches_side. estep attaches_side; [| esteps attaches_side; exact I].
    apply emits_bind_try; [now apply onchain_attempt_attaches |].
    intros [e | d]; esteps attaches_side; [apply IH | exact I].
Qed.

Lemma send_marketplace_request_attaches
    (crypto marketplace_contract : string) (gas_limit : Z) (prompt tool : string)
    (method_args_data : MechMarketplaceRequestConfig)
    (extra_attributes : option (list (string * JValue)))
    (retries timeout sleep : option Z) :
  emits (attaches v)
        (send_marketplace_request w crypto marketplace_contract gas_limit prompt tool
           method_args_data extra_attributes v retries timeout sleep)
        (fun _ => True).
Proof.
  unfold send_marketplace_request. esteps attaches_side.
  apply send_marketplace_request_loop_attaches. attaches_side.
Qed.

Lemma cancel_all_attaches (unfinished : list Task) :
  emits (attaches v) (cancel_all w unfinished) (fun _ => True).
Proof.
  induction unfinished as [| task rest IH]; cbn [cancel_all].
  - esteps attaches_side. exact I.
  - esteps attaches_side. exact IH.
Qed.

Lemma wait_for_marketplace_data_url_attaches
    (request_id mech_contract subgraph_url deliver_signature : string)
    (confirmation_type : ConfirmationType) :
  emits (attaches v)
        (wait_for_marketplace_data_url w request_id mech_contract subgraph_url
           deliver_signature confirmation_type)
        (fun _ => True).
Proof.
  assert (Hwait : forall tasks,
             emits (attaches v) (_wait_for_tasks w tasks) (fun _ => True)).
  { intros tasks. unfold _wait_for_tasks, asyncio_wait_first_completed.
    destruct tasks as [| t ts]; [esteps attaches_side |].
    destruct (finish_times (t :: ts)) as [| d ds]; [esteps attaches_side |].
    esteps attaches_side.
    eapply emits_bind; [apply cancel_all_attaches |].
    intros _ _. esteps attaches_side; exact I. }
  unfold wait_for_marketplace_data_url, create_task.
  destruct confirmation_type; esteps attaches_side;
    (eapply emits_bind; [apply Hwait |]); intros; esteps attaches_side; exact I.
Qed.

Lemma requests_get_attaches (url : string) :
  emits (attaches v) (requests_get w url) (fun _ => True).
Proof. unfold requests_get, of_result. esteps attaches_side; exact I. Qed.

Lemma wait_for_offchain_marketplace_data_attaches (fuel : nat) (request_id : JValue) :
  emits (attaches v) (wait_for_offchain_marketplace_data w fuel request_id)
        (fun _ => True).
Proof.
  induction fuel as [| fuel IH]; cbn [wait_for_offchain_marketplace_data].
  - esteps attaches_side.
  - apply emits_bind_try; [apply requests_get_attaches |].
    intros [e | response]; esteps attaches_side; first [exact IH | exact I].
Qed.

Lemma send_offchain_marketplace_request_loop_attaches
    (fuel : nat) (crypto marketplace_contract requestData : string)
    (maxDeliveryRate : Z) (paymentType priorityMech : string)
    (retries deadline sleep tries : Z) :
  emits (attaches v)
        (send_offchain_marketplace_request_loop w fuel crypto marketplace_contract
           requestData maxDeliveryRate paymentType priorityMech
           retries deadline sleep tries)
        (fun _ => True).
Proof.
  revert tries.
  induction fuel as [| fuel IH]; intros tries;
    cbn [send_offchain_marketplace_request_loop].
  - esteps attaches_side.
  - estep attaches_side. estep attaches_side; [| esteps attaches_side; exact I].
    apply emits_bind_try.
    + unfold requests_post, of_result. esteps attaches_side; exact I.
    + intros [e | d]; esteps attaches_side; [apply IH | exact I].
Qed.

End AttachedValue.

Section AttachedValueStages.

Variable w : World.

Lemma approve_price_tokens_attaches
    (v : Z) (sender wrapped_token tracker : string) (price : Z) :
  emits (attaches v) (approve_price_tokens w sender wrapped_token tracker price)
        (fun _ => True).
Proof.
  unfold approve_price_tokens, build_transaction, sign_transaction,
    send_signed_transaction, of_result.
  esteps attaches_side; exact I.
Qed.

Lemma check_prepaid_balances_attaches
    (v : Z) (requester tracker ptype : string) (rate : Z) :
  emits (attaches v) (check_prepaid_balances w requester tracker ptype rate)
        (fun _ => True).
Proof. unfold check_prepaid_balances. esteps attaches_side; exact I. Qed.

(** The price after the payment block: zero when prepaid or after a token
    approval, the max delivery rate otherwise. *)
Lemma marketplace_interact_payment_price
    (v : Z) (cfg : MechConfig) (chain_id : Z) (use_prepaid : bool)
    (crypto ptype tracker : string) (rate : Z) :
  emits (attaches v)
        (marketplace_interact_payment w cfg chain_id use_prepaid crypto ptype tracker rate)
        (fun paid => forall price, paid = inr price ->
           price = if use_prepaid then 0
                   else if String.eqb ptype PAYMENT_TYPE_TOKEN then 0 else rate).
Proof.
  unfold marketplace_interact_payment.
  destruct use_prepaid; cbn [negb].
  - esteps attaches_side.
    eapply emits_bind; [apply check_prepaid_balances_attaches |].
    intros _ _. esteps attaches_side. now intros price [= <-].
  - destruct (String.eqb ptype PAYMENT_TYPE_TOKEN); [| esteps attaches_side; now intros price [= <-]].
    esteps attaches_side.
    eapply emits_bind; [apply approve_price_tokens_attaches |].
    intros approve_tx _. esteps attaches_side; [discriminate | now intros price [= <-]].
Qed.

Lemma marketplace_interact_subscription_price
    (v : Z) (crypto ptype tracker : string) (price : Z) :
  emits (attaches v)
        (marketplace_interact_subscription w crypto ptype tracker price)
        (fun p => p = if String.eqb ptype PAYMENT_TYPE_NVM then 0 else price).
Proof.
  unfold marketplace_interact_subscription, fetch_requester_nvm_subscription_balance.
  destruct (String.eqb ptype PAYMENT_TYPE_NVM); esteps attaches_side; reflexivity.
Qed.

Lemma marketplace_interact_onchain_attaches
    (cfg : MechConfig) (crypto marketplace prompt tool : string)
    (rc : MechMarketplaceRequestConfig)
    (extra_attributes : option (list (string * JValue)))
    (price : Z) (retries timeout sleep : option Z)
    (mech_contract deliver_signature : string) (confirmation_type : ConfirmationType) :
  emits (attaches price)
        (marketplace_interact_onchain w cfg crypto marketplace prompt tool rc
           extra_attributes price retries timeout sleep mech_contract
           deliver_signature confirmation_type)
        (fun _ => True).
Proof.
  unfold marketplace_interact_onchain. esteps attaches_side.
  eapply emits_bind; [apply send_marketplace_request_attaches |].
  intros digest _. esteps attaches_side; try exact I.
  eapply emits_bind; [apply wait_for_marketplace_data_url_attaches |].
  intros data_url _. esteps attaches_side; try exact I.
  eapply emits_bind; [apply requests_get_attaches |].
  intros data _. esteps attaches_side. exact I.
Qed.

Lemma getitem_attaches (v : Z) (x : JValue) (k : string) :
  emits (attaches v) (getitem x k) (fun _ => True).
Proof. unfold getitem. esteps attaches_side; exact I. Qed.

Lemma marketplace_interact_offchain_attaches
    (v : Z) (fuel : nat) (crypto marketplace prompt tool : string)
    (rc : MechMarketplaceRequestConfig)
    (extra_attributes : option (list (string * JValue)))
    (retries timeout sleep : option Z) :
  emits (attaches v)
        (marketplace_interact_offchain w fuel crypto marketplace prompt tool rc
           extra_attributes retries timeout sleep)
        (fun _ => True).
Proof.
  unfold marketplace_interact_offchain, send_offchain_marketplace_request,
    fetch_ipfs_hash.
  esteps attaches_side.
  eapply emits_bind; [apply send_offchain_marketplace_request_loop_attaches |].
  intros response _. esteps attaches_side; try exact I.
  eapply emits_bind; [apply getitem_attaches |].
  intros request_id _. esteps attaches_side.
  eapply emits_bind; [apply wait_for_offchain_marketplace_data_attaches |].
  intros data _. esteps attaches_side; try exact I.
  eapply emits_bind; [apply getitem_attaches |].
  intros task_result _. esteps attaches_side.
  eapply emits_bind; [apply requests_get_attaches |].
  intros data' _. esteps attaches_side. exact I.
Qed.

(** The value a call attaches, as its inputs and the mech determine it. *)
Lemma marketplace_interact_attaches
    (fuel : nat) (prompt : string) (priority_mech : option string)
    (use_prepaid use_offchain : bool) (tool : option string)
    (extra_attributes : option (list (string * JValue)))
    (private_key_path : option string) (confirmation_type : ConfirmationType)
    (retries timeout sleep : option Z) (chain_config : option string) :
  let mech := resolved_mech priority_mech in
  let ptype := paymentType w mech in
  emits (attaches (if use_prepaid then 0
                   else if String.eqb ptype PAYMENT_TYPE_TOKEN then 0
                   else if String.eqb ptype PAYMENT_TYPE_NVM then 0
                   else maxDeliveryRate w mech))
        (marketplace_interact w fuel prompt priority_mech use_prepaid use_offchain
           tool extra_attributes private_key_path confirmation_type
           retries timeout sleep chain_config)
        (fun _ => True).
Proof.
  intros mech ptype. subst ptype mech. unfold marketplace_interact.
  destruct (String.eqb _ ADDRESS_ZERO); [esteps attaches_side; exact I |].
  destruct (Z.eq_dec (mc_chain_id (get_mech_config w chain_config)) 100) as [Hc | Hc];
    [rewrite Hc, default_config_100
    | rewrite (default_config_only_100 _ Hc); esteps attaches_side].
  unfold fetch_mech_info.
  destruct priority_mech as [pm |];
    cbn [resolved_mech default from_option id];
    esteps attaches_side; enorm;
    (eapply emits_bind; [apply marketplace_interact_payment_price |]);
    intros [early | price] Hprice; esteps attaches_side; try exact I;
    specialize (Hprice price eq_refl);
    (eapply emits_bind; [apply marketplace_interact_subscription_price |]);
    intros price' ->; esteps attaches_side;
    try apply marketplace_interact_offchain_attaches;
    subst price;
    match goal with
    | |- emits (attaches ?a) (marketplace_interact_onchain _ _ _ _ _ _ _ _ ?b _ _ _ _ _ _) _ =>
        replace a with b; [apply marketplace_interact_onchain_attaches |]
    end;
    repeat match goal with
           | |- context [if ?c then _ else _] => destruct c
           end; reflexivity.
Qed.

End AttachedValueStages.

Lemma attaches_values (v : Z) (new : list (Z * Event)) :
  Forall (fun te => attaches v (snd te)) new ->
  Forall (fun x => x = v) (omap request_value (map snd new)).
Proof.
  induction 1 as [| [t e] new He _ IH]; cbn [map omap list_omap snd]; [constructor |].
  cbn [snd] in He. specialize (He : forall x, request_value e = Some x -> x = v).
  destruct (request_value e) as [x |]; [constructor |]; auto.
Qed.

(** C5 as stated fails for a prepaid call to a native mech with a
    sufficient deposit: the mech is neither a token nor a subscription mech,
    its max delivery rate is 10, and the request transaction carries the
    value 0. *)
Lemma prepaid_native_attaches_zero :
  let w := sample_world gnosis PAYMENT_TYPE_NATIVE 10 50 0 0 builds always_sent delivered in
  let r := marketplace_interact w 5 "hello" None true false None None None
             WAIT_FOR_BOTH None None None None (start 0) in
  paymentType w (resolved_mech None) = PAYMENT_TYPE_NATIVE
  /\ maxDeliveryRate w (resolved_mech None) = 10
  /\ omap request_value (events (snd r)) = [0]
  /\ ~ Forall (fun x => x = maxDeliveryRate w (resolved_mech None))
              (omap request_value (events (snd r))).
Proof.
  intros w r.
  assert (E : omap request_value (events (snd r)) = [0]) by (vm_compute; reflexivity).
  rewrite E. repeat split; try reflexivity.
  intros H. apply Forall_inv in H. discriminate H.
Qed.

(** C5, amended.  Every request transaction a call builds carries the same
    value, fixed by the call and the mech: the max delivery rate when the
    call is not prepaid and the mech is native; zero when the call is
    prepaid, and zero when the mech is a token or a subscription mech. *)
Theorem request_value_by_payment_model
    (w : World) (fuel : nat) (prompt : string) (priority_mech : option string)
    (use_prepaid use_offchain : bool) (tool : option string)
    (extra_attributes : option (list (string * JValue)))
    (private_key_path : option string) (confirmation_type : ConfirmationType)
    (retries timeout sleep : option Z) (chain_config : option string) (t0 : Z) :
  let mech := resolved_mech priority_mech in
  let ptype := paymentType w mech in
  let rate := maxDeliveryRate w mech in
  let r := marketplace_interact w fuel prompt priority_mech use_prepaid use_offchain
             tool extra_attributes private_key_path confirmation_type
             retries timeout sleep chain_config (start t0) in
  Forall (fun x =>
            (use_prepaid = false /\ ptype = PAYMENT_TYPE_NATIVE -> x = rate)
            /\ (use_prepaid = true \/ ptype = PAYMENT_TYPE_TOKEN
                \/ ptype = PAYMENT_TYPE_NVM -> x = 0))
         (omap request_value (events (snd r))).
Proof.
  intros mech ptype rate r.
  destruct (marketplace_interact_attaches w fuel prompt priority_mech use_prepaid
              use_offchain tool extra_attributes private_key_path confirmation_type
              retries timeout sleep chain_config (start t0))
    as (new & Htr & Hnew & _).
  fold mech ptype rate r in Htr, Hnew.
  unfold events. rewrite Htr. cbn [start trace app].
  apply attaches_values in Hnew.
  eapply Forall_impl; [exact Hnew |].
  cbv beta. intros x ->. split.
  - intros [-> Hty]. rewrite Hty. reflexivity.
  - intros [-> | [Hty | Hty]]; [reflexivity | |]; rewrite Hty.
    + destruct use_prepaid; reflexivity.
    + destruct use_prepaid; reflexivity.
Qed.

(** A call that is not prepaid, to a native mech: the value is the rate. *)
Lemma request_value_by_payment_model_witness :
  let w := sample_world gnosis PAYMENT_TYPE_NATIVE 10 0 0 0 builds always_sent delivered in
  let r := marketplace_interact w 5 "hello" None false false None None None
             WAIT_FOR_BOTH None None None None (start 0) in
  omap request_value (events (snd r)) = [10]
  /\ Forall (fun x =>
               (false = false /\ PAYMENT_TYPE_NATIVE = PAYMENT_TYPE_NATIVE -> x = 10)
               /\ (false = true \/ PAYMENT_TYPE_NATIVE = PAYMENT_TYPE_TOKEN
                   \/ PAYMENT_TYPE_NATIVE = PAYMENT_TYPE_NVM -> x = 0))
            (omap request_value (events (snd r))).
Proof.
  intros w r. split; [vm_compute; reflexivity |].
  exact (request_value_by_payment_model w 5 "hello" None false false None None None
           WAIT_FOR_BOTH None None None None 0).
Defined.

(** ** C6: a submission that never gets through *)

Lemma bind_return {A B} (m : M A) (k : A -> M B) (st : State) (a : A) (st' : State) :
  m st = (Return a, st') -> bind m k st = k a st'.
Proof. intros H. unfold bind. now rewrite H. Qed.

Section Exhaustion.

Variable w : World.

Lemma onchain_attempt_fails (tx : TxRequest) (st : State) :
  (forall n, attempt_fails w tx n) ->
  exists e st', try_ (onchain_attempt w tx) st = (Return (inl e), st').
Proof.
  intros Hfail.
  unfold try_, onchain_attempt, build_transaction, sign_transaction,
    send_signed_transaction, count_events, bind, emit, ret, raise, of_result.
  cbn [fst snd].
  set (n := length _).
  destruct (Hfail n) as [Hb | [e Hs]].
  - destruct (build_result w tx n) as [e |]; [| congruence]. eauto.
  - destruct (build_result w tx n) as [e' |]; [eauto |].
    cbn [fst snd]. rewrite Hs. eauto.
Qed.

(** When every attempt fails and the back-off is not negative, the loop
    returns [None], given fuel for one pass more than the retries left. *)
Lemma send_marketplace_request_loop_exhausted
    (tx : TxRequest) (retries deadline sleep : Z) :
  (forall n, attempt_fails w tx n) ->
  0 <= sleep ->
  forall (fuel : nat) (tries : Z) (st : State),
    Z.max 0 (retries - tries) < Z.of_nat fuel ->
    fst (send_marketplace_request_loop w fuel tx retries deadline sleep tries st)
    = Return None.
Proof.
  intros Hfail Hsleep.
  induction fuel as [| fuel IH]; intros tries st Hfuel; [lia |].
  cbn [send_marketplace_request_loop]. unfold bind at 1, timestamp at 1.
  destruct ((tries <? retries) && (now st <? deadline)) eqn:Hguard; [| reflexivity].
  apply andb_true_iff in Hguard as [Htries _]. apply Z.ltb_lt in Htries.
  fold (onchain_attempt w tx).
  destruct (onchain_attempt_fails tx st Hfail) as (e & st1 & Htry).
  unfold bind at 1. rewrite Htry.
  unfold bind at 1, print, emit. unfold bind at 1, time_sleep.
  destruct (sleep <? 0) eqn:Hneg; [apply Z.ltb_lt in Hneg; lia |].
  apply IH. lia.
Qed.

End Exhaustion.

(** C6.  The on-chain branch around [send_marketplace_request].
    (1) When every attempt fails and the back-off is not negative, the
    submitter returns [None]: no transaction identifier.
    (2) Whenever the submitter returns no usable identifier, the branch
    prints "Unable to send request" and returns [None] to the caller; that
    message is the last action of the call, so no receipt is awaited and no
    delivery watch is started. *)
Theorem exhausted_submission_is_reported
    (w : World) (cfg : MechConfig) (crypto marketplace prompt tool : string)
    (rc : MechMarketplaceRequestConfig)
    (extra_attributes : option (list (string * JValue)))
    (price : Z) (retries timeout sleep : option Z)
    (mech_contract deliver_signature : string) (confirmation_type : ConfirmationType)
    (st : State) :
  let tx := {| tx_contract := marketplace;
               tx_method := "request";
               tx_method_args :=
                 request_method_args w
                   (fst (push_metadata_to_ipfs w prompt tool extra_attributes)) rc;
               tx_sender := crypto;
               tx_value := price;
               tx_gas := mc_gas_limit cfg |} in
  let st1 := snd (print w "Sending Mech Marketplace request..." [] st) in
  let sent := send_marketplace_request w crypto marketplace (mc_gas_limit cfg)
                prompt tool rc extra_attributes price retries timeout sleep st1 in
  let r := marketplace_interact_onchain w cfg crypto marketplace prompt tool rc
             extra_attributes price retries timeout sleep mech_contract
             deliver_signature confirmation_type st in
  ((forall n, attempt_fails w tx n) ->
   0 <= or_default sleep (WAIT_SLEEP w) ->
   fst sent = Return None)
  /\ (forall digest, fst sent = Return digest -> truthy_str digest = false ->
      fst r = Return None
      /\ events (snd r)
         = (events (snd sent) ++ [EPrint "Unable to send request" []])%list).
Proof.
  intros tx st1 sent r. split.
  - intros Hfail Hsleep. subst sent. unfold send_marketplace_request.
    unfold bind at 1, emit at 1. unfold bind at 1, print at 1, emit at 1.
    unfold bind at 1, timestamp at 1.
    apply send_marketplace_request_loop_exhausted; [exact Hfail | assumption | lia].
  - intros digest Hsent Hfalsy. subst r. unfold marketplace_interact_onchain.
    rewrite (bind_return _ _ st tt st1) by reflexivity.
    destruct sent as [o st2] eqn:Esent. cbn [fst snd] in *. subst o sent.
    rewrite (bind_return _ _ _ _ _ Esent).
    rewrite Hfalsy. cbn [negb]. unfold bind, print, emit, ret, events. cbn [fst snd trace].
    split; [reflexivity |]. now rewrite map_app.
Qed.

(** A ledger that refuses every transaction: three attempts, then [None]
    and the message. *)
Lemma exhausted_submission_is_reported_witness :
  let w := sample_world gnosis PAYMENT_TYPE_NATIVE 10 0 0 0 builds never_sent delivered in
  let r := marketplace_interact_onchain w gnosis "0xRequester"
             "0x735FAAb1c4Ec41128c367AFb5c3baC73509f70bB" "hello" "openai-gpt-4"
             {| rc_mech_marketplace_contract := "0x735FAAb1c4Ec41128c367AFb5c3baC73509f70bB";
                rc_priority_mech_address := "0x478ad20eD958dCC5AD4ABa6F4E4cc51e07a840E4";
                rc_response_timeout := 300;
                rc_payment_data := "0x";
                rc_delivery_rate := 10;
                rc_payment_type := PAYMENT_TYPE_NATIVE |}
             None 10 None None None "0x478ad20eD958dCC5AD4ABa6F4E4cc51e07a840E4"
             "topic:MarketplaceDeliver" WAIT_FOR_BOTH (start 0) in
  fst r = Return None
  /\ length (List.filter is_build_tx (events (snd r))) = 3%nat
  /\ List.filter is_task_event (events (snd r)) = [].
Proof.
  intros w r.
  destruct (exhausted_submission_is_reported w gnosis "0xRequester"
              "0x735FAAb1c4Ec41128c367AFb5c3baC73509f70bB" "hello" "openai-gpt-4"
              {| rc_mech_marketplace_contract := "0x735FAAb1c4Ec41128c367AFb5c3baC73509f70bB";
                 rc_priority_mech_address := "0x478ad20eD958dCC5AD4ABa6F4E4cc51e07a840E4";
                 rc_response_timeout := 300;
                 rc_payment_data := "0x";
                 rc_delivery_rate := 10;
                 rc_payment_type := PAYMENT_TYPE_NATIVE |}
              None 10 None None None "0x478ad20eD958dCC5AD4ABa6F4E4cc51e07a840E4"
              "topic:MarketplaceDeliver" WAIT_FOR_BOTH (start 0)) as [Hnone Hreport].
  assert (Hsent := Hnone ltac:(intros n; right; eexists; reflexivity)
                         ltac:(vm_compute; discriminate)).
  destruct (Hreport None Hsent eq_refl) as [Hr _].
  split; [exact Hr |]. split; vm_compute; reflexivity.
Defined.

(** ** Stepping through a computation by its events *)

Lemma events_emit (w : World) (e : Event) (st : State) :
  events (snd (emit w e st)) = (events st ++ [e])%list.
Proof. unfold events, emit. cbn [snd trace]. now rewrite map_app. Qed.

Lemma events_print (w : World) (t : string) (a : list PyVal) (st : State) :
  events (snd (print w t a st)) = (events st ++ [EPrint t a])%list.
Proof. apply events_emit. Qed.

Lemma bind_emit {B} (w : World) (e : Event) (k : unit -> M B) (st : State) :
  bind (emit w e) k st = k tt (snd (emit w e st)).
Proof. reflexivity. Qed.

Lemma bind_print {B} (w : World) (t : string) (a : list PyVal) (k : unit -> M B)
    (st : State) :
  bind (print w t a) k st = k tt (snd (print w t a st)).
Proof. reflexivity. Qed.

Lemma bind_outcome {A B} (m : M A) (k : A -> M B) (st : State) :
  bind m k st
  = match fst (m st) with
    | Return a => k a (snd (m st))
    | SysExit c => (SysExit c, snd (m st))
    | Raised e => (Raised e, snd (m st))
    | Blocked => (Blocked, snd (m st))
    | OutOfFuel => (OutOfFuel, snd (m st))
    end.
Proof. unfold bind. destruct (m st) as [[a | c | e | |] st1]; reflexivity. Qed.

Lemma try_outcome {A} (m : M A) (st : State) :
  try_ m st
  = (match fst (m st) with
     | Return a => Return (inr a)
     | Raised e => Return (inl e)
     | SysExit c => SysExit c
     | Blocked => Blocked
     | OutOfFuel => OutOfFuel
     end, snd (m st)).
Proof. unfold try_. destruct (m st) as [[a | c | e | |] st1]; reflexivity. Qed.

Lemma before_deadline (T : Z) : 0 < T -> forall t, (t <? t + T) = true.
Proof. intros HT t. apply Z.ltb_lt. lia. Qed.

Lemma bind_timestamp {B} (k : Z -> M B) (st : State) :
  bind timestamp k st = k (now st) st.
Proof. reflexivity. Qed.

Lemma onchain_attempt_runs (w : World) (tx : TxRequest) (st : State) :
  let r := onchain_attempt w tx st in
  fst r = attempt_outcome w tx (builds_so_far st)
  /\ events (snd r) = (events st ++ attempt_events w tx (builds_so_far st))%list.
Proof.
  cbn zeta.
  unfold onchain_attempt, build_transaction, sign_transaction,
    send_signed_transaction, count_events, of_result, bind, emit, ret, raise,
    attempt_outcome, attempt_events.
  cbn [fst snd]. fold (builds_so_far st).
  destruct (build_result w tx (builds_so_far st)) as [e |]; cbn [fst snd].
  - split; [reflexivity |]. unfold events. cbn [trace]. now rewrite map_app.
  - destruct (send_result w tx (builds_so_far st)) as [e | d]; cbn [fst snd];
      (split; [reflexivity |]); unfold events; cbn [trace];
      rewrite !map_app, <- !app_assoc; reflexivity.
Qed.

(** ** C4: how often and how late the submitters try *)




Section RetryBounds.

Variable w : World.
Variable X : Type.
Variable attempt : M (option X).
Variable template : string.
Variable mark : Event -> bool.
Variables retries deadline sleep : Z.

Hypothesis mark_print : forall t a, mark (EPrint t a) = false.
Hypothesis mark_sleep : forall s, mark (ESleep s) = false.

(** An attempt begins, at once, with its one marked action, and the clock
    does not run backwards. *)
Hypothesis attempt_marks :
  forall st, exists e rest,
    trace (snd (attempt st)) = (trace st ++ (now st, e) :: rest)%list
    /\ mark e = true
    /\ Forall (fun te => mark (snd te) = false) rest
    /\ now st <= now (snd (attempt st)).

(** An attempt returns or raises: it neither exits, nor blocks, nor needs
    fuel. *)
Hypothesis attempt_ends :
  forall st, (exists x, fst (attempt st) = Return x)
             \/ (exists e, fst (attempt st) = Raised e).



End RetryBounds.

Section RetryResult.

Variable w : World.
Variable X : Type.
Variable attempt : M (option X).
Variable template : string.
Variable mark : Event -> bool.
Variable outcome_at : nat -> Outcome (option X).
Variables retries deadline sleep : Z.

Hypothesis mark_print : forall t a, mark (EPrint t a) = false.
Hypothesis mark_sleep : forall s, mark (ESleep s) = false.

(** An attempt performs the marked action once, and how it ends is
    settled by how many were performed before. *)
Hypothesis attempt_runs :
  forall st,
    fst (attempt st) = outcome_at (length (List.filter mark (events st)))
    /\ length (List.filter mark (events (snd (attempt st))))
       = S (length (List.filter mark (events st))).

Hypothesis outcome_ends :
  forall n, (exists x, outcome_at n = Return x) \/ (exists e, outcome_at n = Raised e).


End RetryResult.


Section TheTwoLoops.

Variable w : World.







End TheTwoLoops.











(** ** C1: the delivery wait *)

(** C1 as stated fails: asked to wait for both channels, the waiter creates
    one task, the websocket watch; there are not two watches, and nothing is
    cancelled. *)
Lemma wait_for_both_starts_one_watch :
  let w := sample_world gnosis PAYMENT_TYPE_NATIVE 10 0 0 0 builds always_sent delivered in
  let r := wait_for_marketplace_data_url w "2a"
             "0x478ad20eD958dCC5AD4ABa6F4E4cc51e07a840E4" ""
             "topic:MarketplaceDeliver" WAIT_FOR_BOTH (start 0) in
  List.filter is_task_event (events (snd r))
  = [ECreateTask "watch_for_marketplace_data_url_from_wss"]
  /\ ~ (2 <= length (List.filter is_create_task (events (snd r))))%nat.
Proof.
  intros w r.
  assert (E : events (snd r)
              = [EPrint "Off chain to be implemented" [];
                 ECreateTask "watch_for_marketplace_data_url_from_wss"])
    by (vm_compute; reflexivity).
  rewrite E. cbn. split; [reflexivity | lia].
Qed.

(** C1, amended.  Asked to wait for both channels, the waiter prints that
    the off-chain watch is to be implemented, creates the websocket watch as
    its only task and cancels nothing; when that watch delivers it returns
    the watch's result, and it blocks for as long as the watch does not
    deliver. *)
Theorem wait_for_both_watches_the_websocket_only
    (w : World) (request_id mech_contract subgraph_url deliver_signature : string)
    (st : State) :
  let r := wait_for_marketplace_data_url w request_id mech_contract subgraph_url
             deliver_signature WAIT_FOR_BOTH st in
  events (snd r)
  = (events st
     ++ [EPrint "Off chain to be implemented" [];
         ECreateTask "watch_for_marketplace_data_url_from_wss"]
     ++ (if String.eqb subgraph_url "" then []
         else [EPrint "Subgraph to be implemented" []]))%list
  /\ match watch_for_marketplace_data_url_from_wss w request_id with
     | Some (d, result) => fst r = Return result /\ now st + Z.of_N d <= now (snd r)
     | None => fst r = Blocked
     end.
Proof.
  intros r. subst r.
  unfold wait_for_marketplace_data_url, create_task, _wait_for_tasks,
    asyncio_wait_first_completed, finishes_at, elapse,
    print, emit, bind, ret, block, events.
  cbn [fst snd trace app finish_times task_outcome negb].
  destruct (String.eqb subgraph_url ""); cbn [negb fst snd trace];
    destruct (watch_for_marketplace_data_url_from_wss w request_id) as [[d result] |];
    cbn [fst snd trace finish_times fold_right List.filter task_outcome cancel_all];
    rewrite ?N.eqb_refl;
    cbn [negb List.filter fst snd trace cancel_all task_outcome];
    unfold ret; cbn [fst snd trace now];
    rewrite !map_app, <- ?app_assoc;
    repeat split; try reflexivity;
    repeat match goal with
           | |- context [Z.of_N (latency w ?l)] =>
               lazymatch goal with
               | _ : 0 <= Z.of_N (latency w l) |- _ => fail
               | _ => pose proof (N2Z.is_nonneg (latency w l))
               end
           end; lia.
Qed.

(** ** C8: the content identifier and the nonce *)

Lemma append_cons (c : ascii) (s t : string) :
  String c s +:+ t = String c (s +:+ t).
Proof. reflexivity. Qed.

Lemma append_assoc (a b c : string) : (a +:+ b) +:+ c = a +:+ (b +:+ c).
Proof.
  induction a as [| x a IH]; [reflexivity |].
  rewrite !append_cons. now rewrite IH.
Qed.

Lemma append_nil_r (a : string) : a +:+ "" = a.
Proof.
  induction a as [| x a IH]; [reflexivity |]. rewrite append_cons. now rewrite IH.
Qed.

Lemma length_append (a b : string) :
  String.length (a +:+ b) = (String.length a + String.length b)%nat.
Proof.
  induction a as [| x a IH]; [reflexivity |].
  rewrite append_cons. cbn [String.length]. now rewrite IH.
Qed.

Lemma append_inv_tail (a b t : string) : a +:+ t = b +:+ t -> a = b.
Proof.
  revert b. induction a as [| x a IH]; intros [| y b] H.
  - reflexivity.
  - apply (f_equal String.length) in H. rewrite !length_append in H.
    cbn [String.length] in H. lia.
  - apply (f_equal String.length) in H. rewrite !length_append in H.
    cbn [String.length] in H. lia.
  - rewrite !append_cons in H. injection H as -> H. f_equal. now apply IH.
Qed.

Lemma json_unescape_escape_char (c : ascii) (rest : string) :
  json_unescape (json_escape_char c +:+ rest)
  = match json_unescape rest with
    | Some r => Some (String c r)
    | None => None
    end.
Proof.
  destruct c as [b0 b1 b2 b3 b4 b5 b6 b7].
  destruct b0, b1, b2, b3, b4, b5, b6, b7; reflexivity.
Qed.

(** What [json_escape] writes reads back as what was written. *)
Lemma json_unescape_escape (s : string) : json_unescape (json_escape s) = Some s.
Proof.
  induction s as [| c s IH]; [reflexivity |].
  cbn [json_escape]. now rewrite json_unescape_escape_char, IH.
Qed.

Lemma json_escape_inj (s1 s2 : string) : json_escape s1 = json_escape s2 -> s1 = s2.
Proof.
  intros H. apply (f_equal json_unescape) in H.
  rewrite !json_unescape_escape in H. now injection H.
Qed.

Lemma json_string_inj (s1 s2 t1 t2 : string) :
  json_string s1 +:+ t1 = json_string s2 +:+ t2 -> t1 = t2 -> s1 = s2.
Proof.
  intros H ->. apply append_inv_tail in H. unfold json_string in H.
  injection H as H. apply append_inv_tail in H. now apply json_escape_inj.
Qed.

Section NonceEntry.

Variable k : string.

(** Assigning to the key replaces its value where it stands. *)
Lemma dict_set_here (x : JValue) (A B : list (string * JValue)) (v : JValue) :
  other_keys k A ->
  dict_set k x (A ++ (k, v) :: B) = (A ++ (k, x) :: B)%list.
Proof.
  induction 1 as [| [k0 v0] A Hk0 _ IH]; cbn [app dict_set].
  - now rewrite String.eqb_refl.
  - cbn [fst] in Hk0. now rewrite Hk0, IH.
Qed.

(** Assigning to another key leaves the entry alone. *)
Lemma dict_set_elsewhere (k' : string) (x : JValue) (A B : list (string * JValue)) :
  String.eqb k' k = false ->
  other_keys k A ->
  exists A' B', other_keys k A'
    /\ forall v, dict_set k' x (A ++ (k, v) :: B) = (A' ++ (k, v) :: B')%list.
Proof.
  intros Hk'. induction 1 as [| [k0 v0] A Hk0 HA IH]; cbn [app dict_set].
  - exists [], (dict_set k' x B). split; [constructor |]. intros v.
    rewrite String.eqb_sym, Hk'. reflexivity.
  - destruct (String.eqb k0 k') eqn:E.
    + exists ((k', x) :: A), B. split; [constructor; assumption |]. reflexivity.
    + destruct IH as (A' & B' & HA' & Hset).
      exists ((k0, v0) :: A'), B'. split; [constructor; assumption |].
      intros v. now rewrite Hset.
Qed.

Lemma dict_update_keeps (extra A B : list (string * JValue)) :
  existsb (fun kv => String.eqb (fst kv) k) extra = false ->
  other_keys k A ->
  exists A' B', forall v,
    dict_update (A ++ (k, v) :: B) extra = (A' ++ (k, v) :: B')%list.
Proof.
  unfold dict_update. revert A B.
  induction extra as [| [k' x] extra IH]; intros A B Hno HA; cbn [fold_left].
  - exists A, B. reflexivity.
  - cbn [existsb fst snd] in *. apply orb_false_iff in Hno as [Hk' Hno].
    destruct (dict_set_elsewhere k' x A B Hk' HA) as (A1 & B1 & HA1 & Hset).
    destruct (IH A1 B1 Hno HA1) as (A' & B' & Hupd).
    exists A', B'. intros v. now rewrite Hset, Hupd.
Qed.

Lemma dict_update_overrides (extra A B : list (string * JValue)) (v1 v2 : JValue) :
  existsb (fun kv => String.eqb (fst kv) k) extra = true ->
  other_keys k A ->
  dict_update (A ++ (k, v1) :: B) extra = dict_update (A ++ (k, v2) :: B) extra.
Proof.
  unfold dict_update. revert A B.
  induction extra as [| [k' x] extra IH]; intros A B Hyes HA; cbn [fold_left];
    [discriminate |].
  cbn [existsb fst snd] in *.
  destruct (String.eqb k' k) eqn:Hk'.
  - apply String.eqb_eq in Hk' as ->. now rewrite !dict_set_here.
  - cbn [orb] in Hyes.
    destruct (dict_set_elsewhere k' x A B Hk' HA) as (A1 & B1 & HA1 & Hset).
    rewrite !Hset. now apply IH.
Qed.

(** In the JSON text of an object, the value of a string entry sits between
    a prefix and a suffix that do not depend on it. *)
Lemma json_members_entry (A B : list (string * JValue)) :
  exists P S, forall u,
    json_members (A ++ (k, JStr u) :: B) = P +:+ json_string u +:+ S.
Proof.
  induction A as [| [k0 x0] A (P & S & IH)].
  - destruct B as [| b B].
    + exists (json_string k +:+ ":"), "". intros u.
      change (json_members ([] ++ [(k, JStr u)]))
        with (json_string k +:+ ":" +:+ json_string u).
      now rewrite !append_assoc, append_nil_r.
    + exists (json_string k +:+ ":"), ("," +:+ json_members (b :: B)). intros u.
      cbn [app]. change (json_members ((k, JStr u) :: b :: B))
        with (json_string k +:+ ":" +:+ json_dumps (JStr u) +:+ "," +:+
              json_members (b :: B)).
      cbn [json_dumps]. now rewrite !append_assoc.
  - exists (json_string k0 +:+ ":" +:+ json_dumps x0 +:+ "," +:+ P), S. intros u.
    cbn [app].
    assert (E : json_members ((k0, x0) :: A ++ (k, JStr u) :: B)
                = json_string k0 +:+ ":" +:+ json_dumps x0 +:+ "," +:+
                  json_members (A ++ (k, JStr u) :: B))
      by (destruct A; reflexivity).
    rewrite E, IH, !append_assoc. reflexivity.
Qed.

End NonceEntry.

Lemma json_dumps_dict (kv : list (string * JValue)) :
  json_dumps (JDict kv) = "{" +:+ json_members kv +:+ "}".
Proof. reflexivity. Qed.

(** Without an entry of its own in [extra_attributes], the nonce is one
    entry of the metadata, the rest of which does not depend on it. *)
Lemma metadata_of_nonce_entry
    (prompt tool : string) (extra_attributes : option (list (string * JValue))) :
  overrides_nonce extra_attributes = false ->
  exists A B, forall nonce,
    metadata_of prompt tool nonce extra_attributes
    = (A ++ ("nonce", JStr nonce) :: B)%list.
Proof.
  intros Hno. unfold metadata_of.
  pose (A := [("prompt", JStr prompt); ("tool", JStr tool)]).
  assert (HA : other_keys "nonce" A) by (repeat constructor).
  destruct extra_attributes as [[| kv extra] |]; try (exists A, []; reflexivity).
  destruct (dict_update_keeps "nonce" (kv :: extra) A [] Hno HA) as (A' & B' & H).
  exists A', B'. intros nonce. apply H.
Qed.

(** C8 as stated fails: of two runs, one after the other, in the same world
    and on the same input, the second draws another nonce and produces other
    raw bytes. *)
Lemma second_run_differs :
  let w := sample_world gnosis PAYMENT_TYPE_NATIVE 10 0 0 0 builds always_sent delivered in
  let first := fetch_ipfs_hash w "hello" "openai-gpt-4" None (start 0) in
  let second := fetch_ipfs_hash w "hello" "openai-gpt-4" None (snd first) in
  fst first <> fst second.
Proof.
  intros w first second H.
  assert (E1 : fst first = Return (fetch_ipfs_hash_with w "uuid-0" "hello" "openai-gpt-4" None))
    by reflexivity.
  assert (E2 : fst second = Return (fetch_ipfs_hash_with w "uuid-1" "hello" "openai-gpt-4" None))
    by reflexivity.
  rewrite E1, E2 in H.
  apply (f_equal (fun o => match o with Return (_, _, raw) => raw | _ => "" end)) in H.
  vm_compute in H. discriminate H.
Qed.

(** C8, amended.  The triple is a function of the input and of the nonce
    drawn by the run.
    (1) When [extra_attributes] has a "nonce" key of its own, that entry
    replaces the drawn one and every run produces the same triple.
    (2) Otherwise two runs produce the same triple when they draw the same
    nonce, and raw bytes that differ when they draw different nonces. *)
Theorem fetch_ipfs_hash_up_to_nonce
    (w : World) (prompt tool : string)
    (extra_attributes : option (list (string * JValue))) (st1 st2 : State) :
  let run := fun st => fst (fetch_ipfs_hash w prompt tool extra_attributes st) in
  let nonce := fun st => uuid4 w (draws st) in
  let raw := fun st =>
    match run st with
    | Return (_, _, ipfs_data) => Some ipfs_data
    | _ => None
    end in
  (overrides_nonce extra_attributes = true -> run st1 = run st2)
  /\ (nonce st1 = nonce st2 -> run st1 = run st2)
  /\ (overrides_nonce extra_attributes = false ->
      nonce st1 <> nonce st2 -> raw st1 <> raw st2).
Proof.
  intros run nonce raw. subst raw run nonce. cbv beta.
  unfold fetch_ipfs_hash, uuid4_str, bind, ret. cbn [fst snd].
  repeat apply conj.
  - intros Hyes. f_equal. unfold fetch_ipfs_hash_with.
    assert (E : metadata_of prompt tool (uuid4 w (draws st1)) extra_attributes
                = metadata_of prompt tool (uuid4 w (draws st2)) extra_attributes).
    { unfold metadata_of. destruct extra_attributes as [[| kv extra] |];
        try discriminate Hyes.
      apply (dict_update_overrides "nonce" (kv :: extra)
               [("prompt", JStr prompt); ("tool", JStr tool)] []);
        [exact Hyes | repeat constructor]. }
    now rewrite E.
  - intros ->. reflexivity.
  - intros Hno Hdiff Hraw. apply Hdiff.
    unfold fetch_ipfs_hash_with in Hraw. cbv beta iota zeta in Hraw.
    assert (Hsome : forall a b : string, Some a = Some b -> a = b)
      by (intros a b [= ->]; reflexivity).
    apply Hsome in Hraw.
    destruct (metadata_of_nonce_entry prompt tool extra_attributes Hno)
      as (A & B & Hmeta).
    rewrite !Hmeta, !json_dumps_dict in Hraw.
    destruct (json_members_entry "nonce" A B) as (P & S & Hmem).
    rewrite !Hmem in Hraw.
    apply String.app_inj, append_inv_tail, String.app_inj in Hraw.
    exact (json_string_inj (uuid4 w (draws st1)) (uuid4 w (draws st2)) S S Hraw eq_refl).
Qed.

(** Run twice in a row with a nonce of the caller's, the triple is the
    same. *)
Lemma fetch_ipfs_hash_up_to_nonce_witness :
  let w := sample_world gnosis PAYMENT_TYPE_NATIVE 10 0 0 0 builds always_sent delivered in
  let extra := Some [("nonce", JStr "fixed"); ("temperature", JInt 0)] in
  let first := fetch_ipfs_hash w "hello" "openai-gpt-4" extra (start 0) in
  let second := fetch_ipfs_hash w "hello" "openai-gpt-4" extra (snd first) in
  fst first = fst second.
Proof.
  intros w extra first second.
  exact (proj1 (fetch_ipfs_hash_up_to_nonce w "hello" "openai-gpt-4" extra
                  (start 0) (snd first)) eq_refl).
Defined.

(** ** C9: the off-chain poll *)

Section Poll.

Variable w : World.

(** The poll returns the first answer that is not empty, whatever came
    before it, given fuel for that many polls. *)
Lemma wait_for_offchain_marketplace_data_first
    (request_id response : JValue) (k : nat) :
  forall (fuel : nat) (st : State),
    (k < fuel)%nat ->
    (forall i, (i < k)%nat ->
       not_delivered (http_get w "http://localhost:8000/fetch_offchain_info"
                               (polls_so_far st + i))) ->
    http_get w "http://localhost:8000/fetch_offchain_info" (polls_so_far st + k)
    = inr response ->
    truthy response = true ->
    fst (wait_for_offchain_marketplace_data w fuel request_id st) = Return response.
Proof.
  induction k as [| k IH]; intros fuel st Hfuel Hbefore Hk Htruthy;
    (destruct fuel as [| fuel]; [lia |]);
    cbn [wait_for_offchain_marketplace_data];
    unfold bind at 1, try_ at 1, requests_get, count_events, of_result,
      bind at 1, bind at 1, emit, ret, raise; cbn [fst snd];
    fold (polls_so_far st).
  - rewrite Nat.add_0_r in Hk. rewrite Hk. cbn [fst snd]. now rewrite Htruthy.
  - pose proof (Hbefore O ltac:(lia)) as H0. rewrite Nat.add_0_r in H0.
    set (st1 := {| now := _; trace := (trace st ++ [_])%list; draws := _ |}).
    assert (Hpolls : polls_so_far st1 = S (polls_so_far st)).
    { unfold polls_so_far, events, st1. cbn [trace].
      rewrite map_app, List.filter_app, length_app. cbn. lia. }
    destruct (http_get w _ (polls_so_far st)) as [e | r0]; cbn [fst snd not_delivered] in *.
    + unfold bind at 1, time_sleep. cbn [Z.ltb Z.compare one_second].
      apply IH; [lia | | | exact Htruthy].
      * intros i Hi.
        replace (polls_so_far _ + i)%nat with (polls_so_far st + S i)%nat;
          [apply Hbefore; lia |].
        unfold polls_so_far, events in *. subst st1. cbn [trace].
        rewrite !map_app, !List.filter_app, !length_app. cbn. lia.
      * replace (polls_so_far _ + k)%nat with (polls_so_far st + S k)%nat;
          [exact Hk |].
        unfold polls_so_far, events in *. subst st1. cbn [trace].
        rewrite !map_app, !List.filter_app, !length_app. cbn. lia.
    + rewrite H0. apply IH; [lia | | | exact Htruthy].
      * intros i Hi. rewrite Hpolls.
        replace (S (polls_so_far st) + i)%nat with (polls_so_far st + S i)%nat by lia.
        apply Hbefore. lia.
      * rewrite Hpolls.
        replace (S (polls_so_far st) + k)%nat with (polls_so_far st + S k)%nat by lia.
        exact Hk.
Qed.

End Poll.

(** C9 at an endpoint that answers with an empty object, then with the
    result: the second poll starts the moment the first has been answered,
    one millisecond after it started, and nothing sleeps in between.  When
    the first request raises instead, the loop does sleep one second. *)
Theorem empty_answer_polled_again_at_once :
  let url := "http://localhost:8000/fetch_offchain_info" in
  let quiet := sample_world gnosis PAYMENT_TYPE_NATIVE 10 0 0 0 builds always_sent
                            empty_then_delivered in
  let broken := sample_world gnosis PAYMENT_TYPE_NATIVE 10 0 0 0 builds always_sent
                             refused_then_delivered in
  let r := wait_for_offchain_marketplace_data quiet 5 (JInt 42) (start 0) in
  let r' := wait_for_offchain_marketplace_data broken 5 (JInt 42) (start 0) in
  fst r = Return (JDict [("task_result", JStr "ff")])
  /\ trace (snd r) = [(0, EHttpGet url); (1000, EHttpGet url)]
  /\ fst r' = Return (JDict [("task_result", JStr "ff")])
  /\ trace (snd r')
     = [(0, EHttpGet url); (1000, ESleep one_second); (1002000, EHttpGet url)].
Proof. cbv zeta. repeat split; vm_compute; reflexivity. Qed.

(** * Further properties *)

(** ** The event topics *)

Lemma get_event_signatures_from_last (w : World) (abi : list AbiEntry) :
  forall request deliver : string,
    get_event_signatures_from w abi request deliver
    = (match last (List.filter (is_event_named "MarketplaceRequest") abi) with
       | Some obj => calculate_topic_id w obj
       | None => request
       end,
       match last (List.filter (is_event_named "MarketplaceDeliver") abi) with
       | Some obj => calculate_topic_id w obj
       | None => deliver
       end).
Proof.
  induction abi as [| obj abi IH]; intros request deliver; [reflexivity |].
  cbn [get_event_signatures_from List.filter].
  assert (E : forall name, is_event_named name obj
              = String.eqb (abi_type obj) "event" && String.eqb (abi_name obj) name)
    by reflexivity.
  rewrite !E. clear E.
  destruct (String.eqb (abi_type obj) "event"); cbn [negb andb]; [| apply IH].
  rewrite IH.
  destruct (String.eqb (abi_name obj) "MarketplaceRequest"),
           (String.eqb (abi_name obj) "MarketplaceDeliver");
    rewrite ?last_cons;
    repeat match goal with
           | |- context [last ?l] => destruct (last l)
           end; reflexivity.
Qed.

(** X1. [get_event_signatures] returns, for each of the two event names, the
    topic of the last ABI entry of type "event" with that name, and the
    empty string when there is none; entries of another type never
    count. *)
Theorem get_event_signatures_last_event (w : World) (abi : list AbiEntry) :
  get_event_signatures w abi
  = (last_topic w "MarketplaceRequest" abi, last_topic w "MarketplaceDeliver" abi).
Proof. unfold get_event_signatures, last_topic. apply get_event_signatures_from_last. Qed.

(** ** The guards at the head of [marketplace_interact] *)

(** X2. A configuration whose marketplace address is the zero address ends
    the call at once, whatever the chain: one line is printed, [None] is
    returned, and neither the chain table nor the key file is looked at. *)
Theorem zero_address_is_not_supported
    (w : World) (fuel : nat) (prompt : string) (priority_mech : option string)
    (use_prepaid use_offchain : bool) (tool : option string)
    (extra_attributes : option (list (string * JValue)))
    (private_key_path : option string) (confirmation_type : ConfirmationType)
    (retries timeout sleep : option Z) (chain_config : option string) (st : State) :
  let r := marketplace_interact w fuel prompt priority_mech use_prepaid use_offchain
             tool extra_attributes private_key_path confirmation_type
             retries timeout sleep chain_config st in
  mc_mech_marketplace_contract (get_mech_config w chain_config) = ADDRESS_ZERO ->
  fst r = Return None
  /\ events (snd r)
     = (events st ++
        [EPrint "Mech Marketplace not yet supported on {chain_config}"
                [opt_str chain_config]])%list.
Proof.
  intros r Hzero. subst r. unfold marketplace_interact.
  rewrite Hzero, String.eqb_refl.
  unfold bind, print, emit, ret, events. cbn [fst snd trace].
  split; [reflexivity |]. now rewrite map_app.
Qed.

Lemma zero_address_is_not_supported_witness :
  let w := sample_world (sample_config 1 ADDRESS_ZERO) PAYMENT_TYPE_NATIVE 10 0 0 0
                        builds always_sent delivered in
  let r := marketplace_interact w 5 "hello" None false false None None None
             WAIT_FOR_BOTH None None None (Some "ethereum") (start 0) in
  fst r = Return None
  /\ events (snd r)
     = [EPrint "Mech Marketplace not yet supported on {chain_config}" [VStr "ethereum"]].
Proof.
  intros w.
  apply (zero_address_is_not_supported w 5 "hello" None false false None None None
           WAIT_FOR_BOTH None None None (Some "ethereum") (start 0)).
  reflexivity.
Defined.

(** X3. On chain 100 with a marketplace address, a call whose key file does
    not exist raises [FileNotFoundError] on the path in force (the caller's,
    or the default one).  By then it has printed at most the custom-mech
    line: no websocket was opened and nothing was read from the ledger. *)
Theorem missing_key_file_raises
    (w : World) (fuel : nat) (prompt : string) (priority_mech : option string)
    (use_prepaid use_offchain : bool) (tool : option string)
    (extra_attributes : option (list (string * JValue)))
    (private_key_path : option string) (confirmation_type : ConfirmationType)
    (retries timeout sleep : option Z) (chain_config : option string) (st : State) :
  let cfg := get_mech_config w chain_config in
  let path := or_default_str private_key_path (PRIVATE_KEY_FILE_PATH w) in
  let r := marketplace_interact w fuel prompt priority_mech use_prepaid use_offchain
             tool extra_attributes private_key_path confirmation_type
             retries timeout sleep chain_config st in
  mc_chain_id cfg = 100 ->
  mc_mech_marketplace_contract cfg <> ADDRESS_ZERO ->
  path_exists w path = false ->
  fst r = Raised (FileNotFoundError path)
  /\ events (snd r)
     = (events st ++
        match priority_mech with
        | Some _ => [EPrint "Custom Mech detected" []]
        | None => []
        end)%list.
Proof.
  intros cfg path r Hc Ha Hp. subst r path.
  unfold marketplace_interact. fold cfg.
  apply String.eqb_neq in Ha. rewrite Ha, Hc, default_config_100.
  destruct priority_mech as [pm |];
    unfold bind, print, emit, ret, raise, events; cbn [fst snd trace];
    rewrite Hp; cbn [negb fst snd trace];
    (split; [reflexivity |]); [now rewrite map_app | now rewrite app_nil_r].
Qed.

Lemma missing_key_file_raises_witness :
  let w := with_answers
             (sample_world gnosis PAYMENT_TYPE_NATIVE 10 0 0 0 builds always_sent delivered)
             false [] (fun _ => inr JNull) "2a" None in
  let r := marketplace_interact w 5 "hello" (Some "0xMyMech") false false None None
             (Some "missing.txt") WAIT_FOR_BOTH None None None None (start 0) in
  fst r = Raised (FileNotFoundError "missing.txt")
  /\ events (snd r) = [EPrint "Custom Mech detected" []].
Proof.
  intros w.
  apply (missing_key_file_raises w 5 "hello" (Some "0xMyMech") false false None None
           (Some "missing.txt") WAIT_FOR_BOTH None None None None (start 0));
    [reflexivity | discriminate | reflexivity].
Defined.

(** ** The token approval *)

Lemma wrapped_token_100 : CHAIN_TO_WRAPPED_TOKEN !! 100 = Some gnosis_wrapped_token.
Proof. reflexivity. Qed.

(** X4. A call that is not prepaid, to a token mech, by a requester whose
    wallet holds less of the wrapped token than the max delivery rate ends in
    [sys.exit(1)] after reading the wallet balance and printing the two
    low-balance lines; nothing is built, signed, sent or posted. *)
Theorem token_wallet_low_exits
    (w : World) (fuel : nat) (prompt : string) (priority_mech : option string)
    (use_offchain : bool) (tool : option string)
    (extra_attributes : option (list (string * JValue)))
    (private_key_path : option string) (confirmation_type : ConfirmationType)
    (retries timeout sleep : option Z) (chain_config : option string) (t0 : Z) :
  let cfg := get_mech_config w chain_config in
  let mech := resolved_mech priority_mech in
  let rate := maxDeliveryRate w mech in
  let requester :=
    crypto_address w (or_default_str private_key_path (PRIVATE_KEY_FILE_PATH w)) in
  let wallet := token_balanceOf w gnosis_wrapped_token requester in
  let r := marketplace_interact w fuel prompt priority_mech false use_offchain
             tool extra_attributes private_key_path confirmation_type
             retries timeout sleep chain_config (start t0) in
  mc_chain_id cfg = 100 ->
  mc_mech_marketplace_contract cfg <> ADDRESS_ZERO ->
  path_exists w (or_default_str private_key_path (PRIVATE_KEY_FILE_PATH w)) = true ->
  paymentType w mech = PAYMENT_TYPE_TOKEN ->
  wallet < rate ->
  fst r = SysExit 1
  /\ List.filter is_submission (events (snd r)) = []
  /\ events (snd r)
     = (resolution_events w cfg priority_mech
        ++ registration_events cfg priority_mech
        ++ [EPrint "Token Mech detected, approving wrapped token for price payment..." [];
            ECall gnosis_wrapped_token "balanceOf" [VStr requester];
            EPrint "  - Sender Token balance low. Needed: {price}, Actual: {user_token_balance}"
                   [VInt rate; VInt wallet];
            EPrint "  - Sender Address: {sender}" [VStr requester]])%list.
Proof.
  intros cfg mech rate requester wallet r Hc Ha Hp Hty Hlow.
  subst r wallet requester rate mech. unfold marketplace_interact, start. fold cfg.
  apply String.eqb_neq in Ha. rewrite Ha, Hc, default_config_100.
  apply Z.ltb_lt in Hlow.
  destruct priority_mech as [pm|];
    cbn [resolved_mech resolved_marketplace default from_option id] in *;
    mrun; rewrite Hp; mrun; rewrite Hty in *;
    mrun_eqb; rewrite wrapped_token_100; mrun_eqb; rewrite Hlow; mrun_eqb;
    repeat split; reflexivity.
Qed.

Lemma token_wallet_low_exits_witness :
  let w := sample_world gnosis PAYMENT_TYPE_TOKEN 10 0 3 0 builds always_sent delivered in
  fst (marketplace_interact w 5 "hello" None false false None None None
         WAIT_FOR_BOTH None None None None (start 0)) = SysExit 1.
Proof.
  intros w.
  apply (token_wallet_low_exits w 5 "hello" None false None None None
           WAIT_FOR_BOTH None None None None 0);
    [reflexivity | discriminate | reflexivity | reflexivity | reflexivity].
Defined.

(** What [mrun_eqb] does, and also counts the transactions and HTTP
    requests made so far. *)
Ltac xrun :=
  cbv beta iota zeta delta
    [bind ret emit print call sys_exit raise block of_result try_ timestamp
     count_events fetch_mech_info check_prepaid_balances
     fetch_requester_nvm_subscription_balance approve_price_tokens
     build_transaction sign_transaction send_signed_transaction
     marketplace_interact_payment marketplace_interact_subscription
     fst snd negb orb andb now trace draws events
     rc_mech_marketplace_contract rc_priority_mech_address rc_response_timeout
     rc_payment_data rc_delivery_rate rc_payment_type
     length app map List.map List.filter is_submission is_task_event
     is_build_tx is_http_post is_http_get approve_tx
     resolution_events registration_events
     resolved_mech resolved_marketplace default from_option id
     known_payment_type String.eqb Ascii.eqb Bool.eqb
     PAYMENT_TYPE_NATIVE PAYMENT_TYPE_TOKEN PAYMENT_TYPE_NVM].

(** X5. The approval is attempted once.  When the approve transaction
    cannot be built, or cannot be sent, the exception leaves
    [marketplace_interact]: there is no retry loop around
    [approve_price_tokens], the one transaction built is the approval, and
    no task was started. *)
Theorem approval_is_not_retried
    (w : World) (fuel : nat) (prompt : string) (priority_mech : option string)
    (use_offchain : bool) (tool : option string)
    (extra_attributes : option (list (string * JValue)))
    (private_key_path : option string) (confirmation_type : ConfirmationType)
    (retries timeout sleep : option Z) (chain_config : option string) (t0 : Z)
    (e : Exn) :
  let cfg := get_mech_config w chain_config in
  let mech := resolved_mech priority_mech in
  let rate := maxDeliveryRate w mech in
  let tracker :=
    mapPaymentTypeBalanceTrackers w (resolved_marketplace cfg priority_mech)
                                  PAYMENT_TYPE_TOKEN in
  let requester :=
    crypto_address w (or_default_str private_key_path (PRIVATE_KEY_FILE_PATH w)) in
  let tx := approve_tx gnosis_wrapped_token tracker requester rate in
  let r := marketplace_interact w fuel prompt priority_mech false use_offchain
             tool extra_attributes private_key_path confirmation_type
             retries timeout sleep chain_config (start t0) in
  mc_chain_id cfg = 100 ->
  mc_mech_marketplace_contract cfg <> ADDRESS_ZERO ->
  path_exists w (or_default_str private_key_path (PRIVATE_KEY_FILE_PATH w)) = true ->
  paymentType w mech = PAYMENT_TYPE_TOKEN ->
  rate <= token_balanceOf w gnosis_wrapped_token requester ->
  build_result w tx 0 = Some e
  \/ (build_result w tx 0 = None /\ send_result w tx 0 = inl e) ->
  fst r = Raised e
  /\ List.filter is_build_tx (events (snd r)) = [EBuildTx tx]
  /\ List.filter is_task_event (events (snd r)) = [].
Proof.
  intros cfg mech rate tracker requester tx r Hc Ha Hp Hty Hwallet Hfail.
  subst r tx requester tracker rate mech. unfold marketplace_interact, start. fold cfg.
  apply String.eqb_neq in Ha. rewrite Ha, Hc, default_config_100.
  apply Z.ltb_ge in Hwallet.
  unfold approve_tx in Hfail. cbv delta [PAYMENT_TYPE_TOKEN] in Hfail, Hwallet.
  destruct priority_mech as [pm|];
    cbn [resolved_mech resolved_marketplace default from_option id] in *;
    mrun; rewrite Hp; mrun; rewrite Hty;
    mrun_eqb; rewrite wrapped_token_100; mrun_eqb; rewrite Hwallet; xrun;
    (destruct Hfail as [Hb | [Hb Hs]];
     [rewrite Hb | rewrite Hb; xrun; rewrite Hs]);
    repeat split; reflexivity.
Qed.

Lemma approval_is_not_retried_witness :
  let w := sample_world gnosis PAYMENT_TYPE_TOKEN 10 0 50 0 builds never_sent delivered in
  let r := marketplace_interact w 5 "hello" None false false None None None
             WAIT_FOR_BOTH None None None None (start 0) in
  fst r = Raised (ExternalError "connection refused")
  /\ List.filter is_build_tx (events (snd r))
     = [EBuildTx (approve_tx gnosis_wrapped_token "0xTracker" "0xRequester" 10)]
  /\ List.filter is_task_event (events (snd r)) = [].
Proof.
  intros w.
  apply (approval_is_not_retried w 5 "hello" None false None None None
           WAIT_FOR_BOTH None None None None 0);
    [reflexivity | discriminate | reflexivity | reflexivity | cbn; lia
    | right; split; reflexivity].
Defined.

(** X6. When the approve transaction is sent but comes back without a
    digest ([None] or the empty string), the call prints "Unable to approve
    allowance" and returns [None]; that message is its last action, so the
    request transaction is never built. *)
Theorem approval_without_digest_returns_None
    (w : World) (fuel : nat) (prompt : string) (priority_mech : option string)
    (use_offchain : bool) (tool : option string)
    (extra_attributes : option (list (string * JValue)))
    (private_key_path : option string) (confirmation_type : ConfirmationType)
    (retries timeout sleep : option Z) (chain_config : option string) (t0 : Z)
    (digest : option string) :
  let cfg := get_mech_config w chain_config in
  let mech := resolved_mech priority_mech in
  let rate := maxDeliveryRate w mech in
  let tracker :=
    mapPaymentTypeBalanceTrackers w (resolved_marketplace cfg priority_mech)
                                  PAYMENT_TYPE_TOKEN in
  let requester :=
    crypto_address w (or_default_str private_key_path (PRIVATE_KEY_FILE_PATH w)) in
  let tx := approve_tx gnosis_wrapped_token tracker requester rate in
  let r := marketplace_interact w fuel prompt priority_mech false use_offchain
             tool extra_attributes private_key_path confirmation_type
             retries timeout sleep chain_config (start t0) in
  mc_chain_id cfg = 100 ->
  mc_mech_marketplace_contract cfg <> ADDRESS_ZERO ->
  path_exists w (or_default_str private_key_path (PRIVATE_KEY_FILE_PATH w)) = true ->
  paymentType w mech = PAYMENT_TYPE_TOKEN ->
  rate <= token_balanceOf w gnosis_wrapped_token requester ->
  build_result w tx 0 = None ->
  send_result w tx 0 = inr digest ->
  truthy_str digest = false ->
  fst r = Return None
  /\ events (snd r)
     = (resolution_events w cfg priority_mech
        ++ registration_events cfg priority_mech
        ++ [EPrint "Token Mech detected, approving wrapped token for price payment..." [];
            ECall gnosis_wrapped_token "balanceOf" [VStr requester];
            EBuildTx tx; ESignTx; ESendTx;
            EPrint "Unable to approve allowance" []])%list.
Proof.
  intros cfg mech rate tracker requester tx r Hc Ha Hp Hty Hwallet Hb Hs Hd.
  subst r tx requester tracker rate mech. unfold marketplace_interact, start. fold cfg.
  apply String.eqb_neq in Ha. rewrite Ha, Hc, default_config_100.
  apply Z.ltb_ge in Hwallet.
  unfold approve_tx in Hb, Hs. cbv delta [PAYMENT_TYPE_TOKEN] in Hb, Hs, Hwallet.
  destruct priority_mech as [pm|];
    cbn [resolved_mech resolved_marketplace default from_option id] in *;
    mrun; rewrite Hp; mrun; rewrite Hty;
    mrun_eqb; rewrite wrapped_token_100; mrun_eqb; rewrite Hwallet; xrun;
    rewrite Hb; xrun; rewrite Hs; xrun; rewrite Hd; xrun;
    repeat split; reflexivity.
Qed.

Lemma approval_without_digest_returns_None_witness :
  let w := sample_world gnosis PAYMENT_TYPE_TOKEN 10 0 50 0 builds
                        (fun _ => inr None) delivered in
  let r := marketplace_interact w 5 "hello" None false false None None None
             WAIT_FOR_BOTH None None None None (start 0) in
  fst r = Return None
  /\ last (events (snd r)) = Some (EPrint "Unable to approve allowance" []).
Proof.
  intros w r.
  destruct (approval_without_digest_returns_None w 5 "hello" None false None None None
              WAIT_FOR_BOTH None None None None 0 None) as [Hr Hev];
    [reflexivity | discriminate | reflexivity | reflexivity | cbn; lia
    | reflexivity | reflexivity | reflexivity |].
  split; [exact Hr |]. fold w r in Hev. rewrite Hev. reflexivity.
Defined.

(** ** The delivery wait, for each confirmation type *)

Lemma wait_for_marketplace_data_url_runs
    (w : World) (request_id mech_contract subgraph_url deliver_signature : string)
    (confirmation_type : ConfirmationType) (st : State) :
  let r := wait_for_marketplace_data_url w request_id mech_contract subgraph_url
             deliver_signature confirmation_type st in
  fst r = wait_outcome w request_id confirmation_type
  /\ events (snd r) = (events st ++ wait_events subgraph_url confirmation_type)%list.
Proof.
  intros r. subst r.
  unfold wait_for_marketplace_data_url, create_task, _wait_for_tasks,
    asyncio_wait_first_completed, finishes_at, elapse, wait_outcome, wait_events,
    print, emit, bind, ret, block, raise, events.
  destruct confirmation_type;
    cbn [fst snd trace app finish_times task_outcome negb];
    try destruct (String.eqb subgraph_url ""); cbn [negb fst snd trace];
    try destruct (watch_for_marketplace_data_url_from_wss w request_id) as [[d result] |];
    cbn [fst snd trace finish_times fold_right List.filter task_outcome cancel_all];
    rewrite ?N.eqb_refl;
    cbn [negb List.filter fst snd trace cancel_all task_outcome];
    unfold ret; cbn [fst snd trace now];
    rewrite ?map_app, <- ?app_assoc, ?app_nil_r;
    split; reflexivity.
Qed.

(** X7. The two confirmation types other than WAIT_FOR_BOTH.
    OFF_CHAIN prints the notice, creates no task, and the wait raises
    [ValueError], [asyncio.wait] being given an empty set.
    ON_CHAIN creates the websocket watch as its only task without the
    notice, and returns the watch's result, or blocks when it never
    delivers. *)
Theorem wait_on_chain_or_off_chain
    (w : World) (request_id mech_contract subgraph_url deliver_signature : string)
    (st : State) :
  let off := wait_for_marketplace_data_url w request_id mech_contract subgraph_url
               deliver_signature OFF_CHAIN st in
  let on := wait_for_marketplace_data_url w request_id mech_contract subgraph_url
              deliver_signature ON_CHAIN st in
  fst off = Raised (ValueError "Set of Tasks/Futures is empty.")
  /\ events (snd off) = (events st ++ [EPrint "Off chain to be implemented" []])%list
  /\ fst on = match watch_for_marketplace_data_url_from_wss w request_id with
              | Some (_, result) => Return result
              | None => Blocked
              end
  /\ events (snd on)
     = (events st
        ++ ECreateTask "watch_for_marketplace_data_url_from_wss"
           :: (if String.eqb subgraph_url "" then []
               else [EPrint "Subgraph to be implemented" []]))%list.
Proof.
  intros off on.
  destruct (wait_for_marketplace_data_url_runs w request_id mech_contract subgraph_url
              deliver_signature OFF_CHAIN st) as [Ho1 Ho2].
  destruct (wait_for_marketplace_data_url_runs w request_id mech_contract subgraph_url
              deliver_signature ON_CHAIN st) as [Hc1 Hc2].
  repeat split; assumption.
Qed.

(** ** The on-chain branch *)

Lemma polls_so_far_app (st st' : State) (new : list Event) :
  events st' = (events st ++ new)%list ->
  List.filter is_http_get new = [] ->
  polls_so_far st' = polls_so_far st.
Proof.
  intros He Hnew. unfold polls_so_far.
  now rewrite He, List.filter_app, Hnew, app_nil_r.
Qed.

Lemma requests_get_runs (w : World) (url : string) (st : State) :
  let r := requests_get w url st in
  fst r = match http_get w url (polls_so_far st) with
          | inr data => Return data
          | inl e => Raised e
          end
  /\ events (snd r) = (events st ++ [EHttpGet url])%list.
Proof.
  cbn zeta. unfold requests_get, count_events, of_result, bind, emit, ret, raise.
  cbn [fst snd]. fold (polls_so_far st).
  destruct (http_get w url (polls_so_far st)); cbn [fst snd];
    (split; [reflexivity |]); unfold events; cbn [trace]; now rewrite map_app.
Qed.

Lemma wait_events_no_get (subgraph_url : string) (confirmation_type : ConfirmationType) :
  List.filter is_http_get (wait_events subgraph_url confirmation_type) = [].
Proof.
  unfold wait_events.
  destruct confirmation_type, (String.eqb subgraph_url ""); reflexivity.
Qed.

(** X8. The on-chain branch once the submitter has returned a digest and
    the request identifier read from the receipt is hexadecimal.  It prints
    the transaction, reads the identifier and waits for the delivery; then
    - when the wait raises or blocks, so does the branch;
    - when the wait yields no data URL, the branch returns [None];
    - otherwise it fetches [data_url/request_id_int] once and returns the
      answer, or raises what the request raised. *)
Theorem onchain_branch_after_submission
    (w : World) (cfg : MechConfig) (crypto marketplace prompt tool : string)
    (rc : MechMarketplaceRequestConfig)
    (extra_attributes : option (list (string * JValue)))
    (price : Z) (retries timeout sleep : option Z)
    (mech_contract deliver_signature : string) (confirmation_type : ConfirmationType)
    (st : State) (digest : option string) (request_id_bytes : list Byte.byte) :
  let st1 := snd (print w "Sending Mech Marketplace request..." [] st) in
  let sent := send_marketplace_request w crypto marketplace (mc_gas_limit cfg)
                prompt tool rc extra_attributes price retries timeout sleep st1 in
  let r := marketplace_interact_onchain w cfg crypto marketplace prompt tool rc
             extra_attributes price retries timeout sleep mech_contract
             deliver_signature confirmation_type st in
  let tx_hash := default "" digest in
  let request_id := watch_for_marketplace_request_id w tx_hash in
  let request_id_int := int_from_bytes_big request_id_bytes in
  let before :=
    (events (snd sent)
     ++ [EPrint "  - Transaction sent: {transaction_url_formatted}"
                [VStr (mc_transaction_url cfg); VStr tx_hash];
         EPrint "  - Waiting for transaction receipt..." [];
         EWatchRequestId tx_hash;
         EPrint "  - Created on-chain request with ID {request_id_int}"
                [VInt request_id_int];
         EPrint "" []]
     ++ wait_events (mc_subgraph_url cfg) confirmation_type)%list in
  fst sent = Return digest ->
  truthy_str digest = true ->
  bytes_fromhex request_id = Some request_id_bytes ->
  match wait_outcome w request_id confirmation_type with
  | Return data_url =>
      if truthy_str data_url then
        let url := default "" data_url +:+ "/" +:+ pretty request_id_int in
        match http_get w url (polls_so_far (snd sent)) with
        | inr data =>
            fst r = Return (Some data)
            /\ events (snd r)
               = (before
                  ++ [EPrint "  - Data arrived: {data_url}" [VStr (default "" data_url)];
                      EHttpGet url;
                      EPrint "  - Data from agent:" [];
                      EPrint "{json.dumps(data, indent=2)}" [VJson data]])%list
        | inl e =>
            fst r = Raised e
            /\ events (snd r)
               = (before
                  ++ [EPrint "  - Data arrived: {data_url}" [VStr (default "" data_url)];
                      EHttpGet url])%list
        end
      else fst r = Return None /\ events (snd r) = before
  | Raised e => fst r = Raised e /\ events (snd r) = before
  | _ => fst r = Blocked /\ events (snd r) = before
  end.
Proof.
  intros st1 sent r tx_hash request_id request_id_int before Hsent Hd Hid.
  subst r. unfold marketplace_interact_onchain.
  rewrite (bind_return _ _ st tt st1) by reflexivity.
  destruct sent as [o st2] eqn:Esent. cbn [fst snd] in *. subst o sent.
  rewrite (bind_return _ _ _ _ _ Esent). rewrite Hd. cbn [negb].
  fold tx_hash. fold request_id. rewrite Hid. fold request_id_int.
  repeat (first [rewrite bind_print | rewrite bind_emit]; cbv beta).
  match goal with
  | |- context [bind (wait_for_marketplace_data_url w _ _ _ _ _) _ ?s] => set (st3 := s)
  end.
  assert (Hst3 : events st3
                 = (events st2
                    ++ [EPrint "  - Transaction sent: {transaction_url_formatted}"
                               [VStr (mc_transaction_url cfg); VStr tx_hash];
                        EPrint "  - Waiting for transaction receipt..." [];
                        EWatchRequestId tx_hash;
                        EPrint "  - Created on-chain request with ID {request_id_int}"
                               [VInt request_id_int];
                        EPrint "" []])%list).
  { subst st3. rewrite !events_print, events_emit, !events_print, <- !app_assoc.
    reflexivity. }
  destruct (wait_for_marketplace_data_url_runs w request_id mech_contract
              (mc_subgraph_url cfg) deliver_signature confirmation_type st3)
    as [Hw Hev].
  cbv zeta in Hw, Hev.
  rewrite bind_outcome, Hw.
  set (st4 := snd (wait_for_marketplace_data_url w _ _ _ _ _ st3)) in *.
  rewrite Hst3, <- app_assoc in Hev. fold before in Hev.
  assert (Hcases : (exists data_url,
                      wait_outcome w request_id confirmation_type = Return data_url)
                   \/ (exists e, wait_outcome w request_id confirmation_type = Raised e)
                   \/ wait_outcome w request_id confirmation_type = Blocked).
  { unfold wait_outcome.
    destruct confirmation_type;
      try destruct (watch_for_marketplace_data_url_from_wss w request_id) as [[d u] |];
      eauto. }
  destruct Hcases as [[data_url Ho] | [[e Ho] | Ho]]; rewrite Ho; cbn [fst snd];
    try (split; [reflexivity | exact Hev]).
  destruct (truthy_str data_url); [| split; [reflexivity | exact Hev]].
  cbn zeta. rewrite bind_print. cbv beta.
  set (st5 := snd (print w _ _ st4)).
  assert (Hst5 : events st5
                 = (before ++ [EPrint "  - Data arrived: {data_url}"
                                      [VStr (default "" data_url)]])%list).
  { subst st5. now rewrite events_print, Hev. }
  assert (Hpolls : polls_so_far st5 = polls_so_far st2).
  { eapply (polls_so_far_app st2 st5).
    - rewrite Hst5. unfold before. symmetry. apply app_assoc.
    - now rewrite !List.filter_app, wait_events_no_get. }
  destruct (requests_get_runs w (default "" data_url +:+ "/" +:+ pretty request_id_int) st5)
    as [Hg Hgev].
  cbv zeta in Hg, Hgev. rewrite Hpolls in Hg.
  rewrite bind_outcome, Hg.
  set (st6 := snd (requests_get w _ st5)) in *.
  destruct (http_get w _ (polls_so_far st2)) as [e | data]; cbn [fst snd].
  - split; [reflexivity |]. rewrite Hgev, Hst5, <- app_assoc. reflexivity.
  - repeat (rewrite bind_print; cbv beta). unfold ret. cbn [fst snd].
    split; [reflexivity |].
    rewrite !events_print, Hgev, Hst5, <- !app_assoc. reflexivity.
Qed.

Lemma onchain_branch_after_submission_witness :
  let w := sample_world gnosis PAYMENT_TYPE_NATIVE 10 0 0 0 builds always_sent delivered in
  let r := marketplace_interact_onchain w gnosis "0xRequester"
             "0x735FAAb1c4Ec41128c367AFb5c3baC73509f70bB" "hello" "openai-gpt-4"
             (resolved_config w gnosis None)
             None 10 None None None "0x478ad20eD958dCC5AD4ABa6F4E4cc51e07a840E4"
             "topic:MarketplaceDeliver" ON_CHAIN (start 0) in
  fst r = Return (Some (JDict [("task_result", JStr "ff"); ("result", JStr "done")]))
  /\ List.filter is_http_get (events (snd r))
     = [EHttpGet "https://gateway.autonolas.tech/ipfs/f01701220ff/42"].
Proof.
  intros w r.
  pose proof (onchain_branch_after_submission w gnosis "0xRequester"
                "0x735FAAb1c4Ec41128c367AFb5c3baC73509f70bB" "hello" "openai-gpt-4"
                (resolved_config w gnosis None)
                None 10 None None None "0x478ad20eD958dCC5AD4ABa6F4E4cc51e07a840E4"
                "topic:MarketplaceDeliver" ON_CHAIN (start 0)
                (Some "0xdigest") [Byte.x2a] eq_refl eq_refl eq_refl) as [Hr Hev].
  split; [exact Hr |]. fold r in Hev. rewrite Hev. vm_compute. reflexivity.
Defined.

(** ** Reaching the two branches *)

(** X10. A call that is not prepaid, to a native mech, pays nothing up
    front: once the mech is read, the tool verified and the handlers
    registered, it is the on-chain branch (with the max delivery rate as
    price) or the off-chain branch, run on the resolved configuration. *)
Theorem direct_native_call_is_its_branch
    (w : World) (fuel : nat) (prompt : string) (priority_mech : option string)
    (use_offchain : bool) (tool : option string)
    (extra_attributes : option (list (string * JValue)))
    (private_key_path : option string) (confirmation_type : ConfirmationType)
    (retries timeout sleep : option Z) (chain_config : option string) (t0 : Z) :
  let cfg := get_mech_config w chain_config in
  let mech := resolved_mech priority_mech in
  let marketplace := resolved_marketplace cfg priority_mech in
  let requester :=
    crypto_address w (or_default_str private_key_path (PRIVATE_KEY_FILE_PATH w)) in
  let tool' := verify_or_retrieve_tool w (serviceId w mech) tool in
  let rc := resolved_config w cfg priority_mech in
  mc_chain_id cfg = 100 ->
  mc_mech_marketplace_contract cfg <> ADDRESS_ZERO ->
  path_exists w (or_default_str private_key_path (PRIVATE_KEY_FILE_PATH w)) = true ->
  paymentType w mech = PAYMENT_TYPE_NATIVE ->
  exists st : State,
    events st = (resolution_events w cfg priority_mech
                 ++ registration_events cfg priority_mech)%list
    /\ draws st = 0%nat
    /\ t0 <= now st
    /\ marketplace_interact w fuel prompt priority_mech false use_offchain
         tool extra_attributes private_key_path confirmation_type
         retries timeout sleep chain_config (start t0)
       = if use_offchain then
           marketplace_interact_offchain w fuel requester marketplace prompt tool' rc
             extra_attributes retries timeout sleep st
         else
           marketplace_interact_onchain w cfg requester marketplace prompt tool' rc
             extra_attributes (maxDeliveryRate w mech) retries timeout sleep mech
             (snd (get_event_signatures w (marketplace_abi w))) confirmation_type st.
Proof.
  intros cfg mech marketplace requester tool' rc Hc Ha Hp Hty.
  subst rc tool' requester marketplace mech.
  unfold marketplace_interact, start, resolved_config. fold cfg.
  apply String.eqb_neq in Ha. rewrite Ha, Hc, default_config_100. clear Ha Hc.
  cbv delta [PAYMENT_TYPE_NATIVE] in Hty.
  destruct priority_mech as [pm|];
    cbn [resolved_mech resolved_marketplace default from_option id] in *;
    mrun; rewrite Hp; mrun; rewrite Hty; mrun_eqb;
    eexists; (split; [| split; [| split; [| destruct use_offchain; reflexivity]]]);
    cbn [negb]; try reflexivity;
    repeat match goal with
           | |- context [Z.of_N (latency w ?l)] =>
               lazymatch goal with
               | _ : 0 <= Z.of_N (latency w l) |- _ => fail
               | _ => pose proof (N2Z.is_nonneg (latency w l))
               end
           end; cbn [now]; lia.
Qed.

(** ** The off-chain branch *)

Lemma getitem_runs (v : JValue) (k : string) (st : State) :
  getitem v k st = (match getitem_result v k with
                    | inr x => Return x
                    | inl e => Raised e
                    end, st).
Proof.
  unfold getitem, getitem_result.
  destruct v; try reflexivity. destruct (dict_get k kv); reflexivity.
Qed.

(** The poll never returns an empty answer. *)
Lemma wait_for_offchain_marketplace_data_truthy
    (w : World) (request_id : JValue) (fuel : nat) :
  forall (st : State) (data : JValue),
    fst (wait_for_offchain_marketplace_data w fuel request_id st) = Return data ->
    truthy data = true.
Proof.
  induction fuel as [| fuel IH]; intros st data; [discriminate |].
  cbn [wait_for_offchain_marketplace_data].
  rewrite bind_outcome. unfold try_ at 1.
  destruct (requests_get w _ st) as [[response | c | e | |] st1]; cbn [fst snd];
    try discriminate.
  - destruct (truthy response) eqn:Ht; [| apply IH].
    unfold ret. cbn [fst]. now intros [= <-].
  - rewrite bind_outcome. unfold time_sleep. cbn [Z.ltb Z.compare one_second fst snd].
    apply IH.
Qed.

(** X12. The off-chain branch without a request identifier.  When the
    submitter returns [None] or an empty answer, the branch returns [None]
    and prints nothing more; when the answer is not empty but has no
    "request_id" (or is no object), the lookup raises, [KeyError] or
    [TypeError], and nothing is polled. *)
Theorem offchain_branch_without_request
    (w : World) (fuel : nat) (crypto marketplace prompt tool : string)
    (rc : MechMarketplaceRequestConfig)
    (extra_attributes : option (list (string * JValue)))
    (retries timeout sleep : option Z) (st : State) :
  let st1 := snd (print w "Sending Offchain Mech Marketplace request..." [] st) in
  let sent := send_offchain_marketplace_request w crypto marketplace prompt tool rc
                extra_attributes retries timeout sleep st1 in
  let r := marketplace_interact_offchain w fuel crypto marketplace prompt tool rc
             extra_attributes retries timeout sleep st in
  (fst sent = Return None -> r = (Return None, snd sent))
  /\ (forall response,
        fst sent = Return (Some response) ->
        (truthy response = false -> r = (Return None, snd sent))
        /\ (forall e, truthy response = true ->
              getitem_result response "request_id" = inl e ->
              r = (Raised e, snd sent))).
Proof.
  intros st1 sent r. subst r. unfold marketplace_interact_offchain.
  rewrite bind_print. cbv beta. fold st1. rewrite bind_outcome. fold sent.
  split; [intros -> ; reflexivity |].
  intros response ->. split.
  - intros ->. reflexivity.
  - intros e -> He. cbn [negb]. rewrite bind_outcome, getitem_runs, He. reflexivity.
Qed.

Lemma offchain_branch_without_request_witness :
  let w := with_answers
             (sample_world gnosis PAYMENT_TYPE_NATIVE 10 0 0 0 builds always_sent delivered)
             true [] (fun _ => inr (JDict [("status", JStr "queued")])) "2a" None in
  let r := marketplace_interact_offchain w 5 "0xRequester"
             "0x735FAAb1c4Ec41128c367AFb5c3baC73509f70bB" "hello" "openai-gpt-4"
             (resolved_config w gnosis None) None None None None (start 0) in
  fst r = Raised (KeyError (KStr "request_id"))
  /\ List.filter is_http_get (events (snd r)) = [].
Proof.
  intros w r.
  destruct (offchain_branch_without_request w 5 "0xRequester"
              "0x735FAAb1c4Ec41128c367AFb5c3baC73509f70bB" "hello" "openai-gpt-4"
              (resolved_config w gnosis None) None None None None (start 0))
    as [_ H].
  destruct (H (JDict [("status", JStr "queued")]) eq_refl) as [_ Hkey].
  specialize (Hkey (KeyError (KStr "request_id")) eq_refl eq_refl).
  fold r in Hkey. rewrite Hkey. split; [reflexivity | vm_compute; reflexivity].
Defined.

(** X13. The off-chain branch once the direct endpoint has acknowledged
    the request with an identifier and the poll has returned [data].  The
    data URL is the gateway prefix followed by [data["task_result"]]; the
    branch fetches [data_url/request_id] once and returns the answer, or
    raises what the request raised; a [data] without "task_result" raises
    from the lookup. *)
Theorem offchain_branch_after_acknowledgement
    (w : World) (fuel : nat) (crypto marketplace prompt tool : string)
    (rc : MechMarketplaceRequestConfig)
    (extra_attributes : option (list (string * JValue)))
    (retries timeout sleep : option Z) (st : State)
    (response request_id data : JValue) :
  let st1 := snd (print w "Sending Offchain Mech Marketplace request..." [] st) in
  let sent := send_offchain_marketplace_request w crypto marketplace prompt tool rc
                extra_attributes retries timeout sleep st1 in
  let polled := wait_for_offchain_marketplace_data w fuel request_id
                  (offchain_poll_entry w request_id (snd sent)) in
  let r := marketplace_interact_offchain w fuel crypto marketplace prompt tool rc
             extra_attributes retries timeout sleep st in
  fst sent = Return (Some response) ->
  truthy response = true ->
  getitem_result response "request_id" = inr request_id ->
  fst polled = Return data ->
  match getitem_result data "task_result" with
  | inl e => fst r = Raised e /\ events (snd r) = events (snd polled)
  | inr task_result =>
      let data_url :=
        "https://gateway.autonolas.tech/ipfs/f01701220" +:+ py_str w task_result in
      let url := data_url +:+ "/" +:+ py_str w request_id in
      match http_get w url (polls_so_far (snd polled)) with
      | inr result =>
          fst r = Return (Some result)
          /\ events (snd r)
             = (events (snd polled)
                ++ [EPrint "  - Data arrived: {data_url}" [VStr data_url];
                    EHttpGet url;
                    EPrint "  - Data from agent:" [];
                    EPrint "{json.dumps(data, indent=2)}" [VJson result]])%list
      | inl e =>
          fst r = Raised e
          /\ events (snd r)
             = (events (snd polled)
                ++ [EPrint "  - Data arrived: {data_url}" [VStr data_url];
                    EHttpGet url])%list
      end
  end.
Proof.
  intros st1 sent polled r Hsent Htruthy Hid Hpolled.
  subst r. unfold marketplace_interact_offchain.
  rewrite bind_print. cbv beta. fold st1. rewrite bind_outcome. fold sent.
  rewrite Hsent, Htruthy. cbn [negb].
  rewrite bind_outcome, getitem_runs, Hid. cbn [fst snd].
  repeat (rewrite bind_print; cbv beta).
  change (snd (print w "Waiting for Offchain Mech Marketplace deliver..." [] _))
    with (offchain_poll_entry w request_id (snd sent)).
  rewrite bind_outcome. fold polled. rewrite Hpolled.
  rewrite (wait_for_offchain_marketplace_data_truthy w request_id fuel _ data Hpolled).
  rewrite bind_outcome, getitem_runs. cbn [fst snd].
  destruct (getitem_result data "task_result") as [e | task_result]; cbn [fst snd];
    [split; reflexivity |].
  cbv zeta. rewrite bind_print. cbv beta.
  set (st5 := snd (print w _ _ (snd polled))).
  match goal with
  | |- context [requests_get w ?u] => set (url := u)
  end.
  assert (Hst5 : events st5 = (events (snd polled) ++ [_])%list)
    by (subst st5; apply events_print).
  assert (Hpolls : polls_so_far st5 = polls_so_far (snd polled))
    by (apply (polls_so_far_app _ _ _ Hst5); reflexivity).
  destruct (requests_get_runs w url st5) as [Hg Hgev].
  cbv zeta in Hg, Hgev. rewrite Hpolls in Hg.
  rewrite bind_outcome, Hg.
  destruct (http_get w url (polls_so_far (snd polled))) as [e | result]; cbn [fst snd].
  - split; [reflexivity |]. rewrite Hgev, Hst5, <- app_assoc. reflexivity.
  - repeat (rewrite bind_print; cbv beta). unfold ret. cbn [fst snd].
    split; [reflexivity |].
    rewrite !events_print, Hgev, Hst5, <- !app_assoc. reflexivity.
Qed.

Lemma offchain_branch_after_acknowledgement_witness :
  let w := sample_world gnosis PAYMENT_TYPE_NATIVE 10 0 0 0 builds always_sent
                        refused_then_delivered in
  let r := marketplace_interact_offchain w 5 "0xRequester"
             "0x735FAAb1c4Ec41128c367AFb5c3baC73509f70bB" "hello" "openai-gpt-4"
             (resolved_config w gnosis None) None None None None (start 0) in
  fst r = Return (Some (JDict [("task_result", JStr "ff")]))
  /\ List.filter is_http_get (events (snd r))
     = [EHttpGet "http://localhost:8000/fetch_offchain_info";
        EHttpGet "http://localhost:8000/fetch_offchain_info";
        EHttpGet "https://gateway.autonolas.tech/ipfs/f01701220ff/42"].
Proof.
  intros w r.
  pose proof (offchain_branch_after_acknowledgement w 5 "0xRequester"
                "0x735FAAb1c4Ec41128c367AFb5c3baC73509f70bB" "hello" "openai-gpt-4"
                (resolved_config w gnosis None) None None None None (start 0)
                (JDict [("request_id", JInt 42)]) (JInt 42)
                (JDict [("task_result", JStr "ff")])
                eq_refl eq_refl eq_refl eq_refl) as [Hr Hev].
  split; [exact Hr |]. fold r in Hev. rewrite Hev. vm_compute. reflexivity.
Defined.

(** ** The poll, step by step *)

Lemma time_sleep_one_second (w : World) (st : State) :
  fst (time_sleep w one_second st) = Return tt
  /\ events (snd (time_sleep w one_second st)) = (events st ++ [ESleep one_second])%list.
Proof.
  unfold time_sleep. cbn [Z.ltb Z.compare one_second fst snd].
  split; [reflexivity |]. unfold events. cbn [trace]. now rewrite map_app.
Qed.

(** One poll that does not yield a result: the loop goes on, with fuel for
    one poll less, from a state with one more request made. *)
Lemma wait_for_offchain_marketplace_data_step
    (w : World) (request_id : JValue) (fuel : nat) (st : State) :
  not_delivered (http_get w offchain_info_url (polls_so_far st)) ->
  exists st1,
    wait_for_offchain_marketplace_data w (S fuel) request_id st
    = wait_for_offchain_marketplace_data w fuel request_id st1
    /\ events st1
       = (events st ++ poll_events (http_get w offchain_info_url (polls_so_far st)))%list
    /\ polls_so_far st1 = S (polls_so_far st).
Proof.
  intros Hnot. cbn [wait_for_offchain_marketplace_data].
  fold offchain_info_url.
  destruct (requests_get_runs w offchain_info_url st) as [Hg Hev]. cbv zeta in Hg, Hev.
  rewrite bind_outcome, try_outcome, Hg. cbn [fst snd].
  set (st0 := snd (requests_get w offchain_info_url st)) in *.
  assert (Hpolls0 : polls_so_far st0 = S (polls_so_far st)).
  { unfold polls_so_far. rewrite Hev, List.filter_app, length_app. cbn. lia. }
  destruct (http_get w offchain_info_url (polls_so_far st)) as [e | response];
    cbn [not_delivered poll_events] in *.
  - destruct (time_sleep_one_second w st0) as [Hs Hsev].
    rewrite bind_outcome, Hs.
    exists (snd (time_sleep w one_second st0)).
    split; [reflexivity |]. split.
    + rewrite Hsev, Hev, <- app_assoc. reflexivity.
    + rewrite <- Hpolls0. apply (polls_so_far_app _ _ _ Hsev). reflexivity.
  - rewrite Hnot. exists st0. repeat split; assumption.
Qed.

Lemma poll_answers_S (w : World) (st st1 : State) (k : nat) :
  polls_so_far st1 = S (polls_so_far st) ->
  poll_answers w st (S k)
  = http_get w offchain_info_url (polls_so_far st) :: poll_answers w st1 k.
Proof.
  intros Hp. unfold poll_answers. cbn [seq map]. rewrite Nat.add_0_r. f_equal.
  rewrite <- seq_shift, map_map. apply map_ext. intros i. rewrite Hp. f_equal. lia.
Qed.

(** X14. When the next [k] polls do not yield a result and the one after
    them does, the poll returns that answer, given fuel for [k + 1] polls.
    Its trace is one request per poll, followed by a one-second sleep
    exactly when the request raised. *)
Theorem poll_returns_first_delivery
    (w : World) (request_id response : JValue) (k : nat) :
  forall (fuel : nat) (st : State),
    let r := wait_for_offchain_marketplace_data w fuel request_id st in
    (k < fuel)%nat ->
    Forall not_delivered (poll_answers w st k) ->
    http_get w offchain_info_url (polls_so_far st + k) = inr response ->
    truthy response = true ->
    fst r = Return response
    /\ events (snd r)
       = (events st
          ++ flat_map poll_events (poll_answers w st k)
          ++ [EHttpGet offchain_info_url])%list.
Proof.
  induction k as [| k IH]; intros fuel st r Hfuel Hbefore Hk Htruthy; subst r;
    (destruct fuel as [| fuel]; [lia |]).
  - rewrite Nat.add_0_r in Hk.
    cbn [wait_for_offchain_marketplace_data]. fold offchain_info_url.
    destruct (requests_get_runs w offchain_info_url st) as [Hg Hev]. cbv zeta in Hg, Hev.
    rewrite bind_outcome, try_outcome, Hg, Hk. cbn [fst snd].
    rewrite Htruthy. unfold ret. cbn [fst snd].
    split; [reflexivity | exact Hev].
  - assert (Hfirst : not_delivered (http_get w offchain_info_url (polls_so_far st))).
    { apply Forall_inv in Hbefore. cbn in Hbefore. now rewrite Nat.add_0_r in Hbefore. }
    destruct (wait_for_offchain_marketplace_data_step w request_id fuel st Hfirst)
      as (st1 & Hstep & Hev1 & Hp1).
    rewrite Hstep. rewrite (poll_answers_S w st st1 k Hp1) in *.
    apply Forall_inv_tail in Hbefore.
    destruct (IH fuel st1 ltac:(lia) Hbefore) as [Hr Hev]; [| exact Htruthy |].
    + rewrite Hp1. replace (S (polls_so_far st) + k)%nat
        with (polls_so_far st + S k)%nat by lia. exact Hk.
    + split; [exact Hr |].
      rewrite Hev, Hev1. cbn [flat_map]. rewrite <- !app_assoc. reflexivity.
Qed.

Lemma poll_returns_first_delivery_witness :
  let w := sample_world gnosis PAYMENT_TYPE_NATIVE 10 0 0 0 builds always_sent
                        refused_then_delivered in
  let r := wait_for_offchain_marketplace_data w 2 (JInt 42) (start 0) in
  fst r = Return (JDict [("task_result", JStr "ff")])
  /\ events (snd r)
     = [EHttpGet offchain_info_url; ESleep one_second; EHttpGet offchain_info_url].
Proof.
  intros w.
  apply (poll_returns_first_delivery w (JInt 42) (JDict [("task_result", JStr "ff")]) 1
           2%nat (start 0)).
  - lia.
  - repeat constructor.
  - reflexivity.
  - reflexivity.
Defined.

(** X15. The poll has no way out but a result: while the answers are
    exceptions or empty, it goes on polling, whatever the number of polls
    so far. *)
Theorem poll_never_gives_up
    (w : World) (request_id : JValue) (n : nat) :
  forall (st : State),
    let r := wait_for_offchain_marketplace_data w n request_id st in
    Forall not_delivered (poll_answers w st n) ->
    fst r = OutOfFuel
    /\ polls_so_far (snd r) = (polls_so_far st + n)%nat
    /\ events (snd r) = (events st ++ flat_map poll_events (poll_answers w st n))%list.
Proof.
  induction n as [| n IH]; intros st r Hnot; subst r.
  - cbn. rewrite Nat.add_0_r, app_nil_r. repeat split.
  - assert (Hfirst : not_delivered (http_get w offchain_info_url (polls_so_far st))).
    { apply Forall_inv in Hnot. cbn in Hnot. now rewrite Nat.add_0_r in Hnot. }
    destruct (wait_for_offchain_marketplace_data_step w request_id n st Hfirst)
      as (st1 & Hstep & Hev1 & Hp1).
    rewrite Hstep. rewrite (poll_answers_S w st st1 n Hp1) in *.
    apply Forall_inv_tail in Hnot.
    destruct (IH st1 Hnot) as (Hr & Hp & Hev).
    split; [exact Hr |]. split.
    + rewrite Hp, Hp1. lia.
    + rewrite Hev, Hev1. cbn [flat_map]. rewrite <- !app_assoc. reflexivity.
Qed.

Lemma poll_never_gives_up_witness :
  let w := sample_world gnosis PAYMENT_TYPE_NATIVE 10 0 0 0 builds always_sent
                        (fun _ => inr (JDict [])) in
  let r := wait_for_offchain_marketplace_data w 50 (JInt 42) (start 0) in
  fst r = OutOfFuel /\ polls_so_far (snd r) = 50%nat.
Proof.
  intros w r.
  destruct (poll_never_gives_up w (JInt 42) 50 (start 0)) as (Hr & Hp & _).
  - unfold poll_answers. apply List.Forall_map, List.Forall_forall.
    intros i _. reflexivity.
  - split; [exact Hr | exact Hp].
Defined.

(** ** The submitters at their limits *)

(** X16. With a retry ceiling that is not positive, or a timeout that is
    not positive (the values in force after the defaults), neither submitter
    makes an attempt: each returns [None] after its first message.  The
    on-chain one has uploaded the metadata by then. *)
Theorem no_attempt_without_retries_or_time
    (w : World) (crypto marketplace_contract : string) (gas_limit : Z)
    (prompt tool : string) (method_args_data : MechMarketplaceRequestConfig)
    (extra_attributes : option (list (string * JValue)))
    (price : Z) (retries timeout sleep : option Z) (st : State) :
  let R := or_default retries (MAX_RETRIES w) in
  let T := or_default timeout (TIMEOUT w) in
  let on := send_marketplace_request w crypto marketplace_contract gas_limit prompt
              tool method_args_data extra_attributes price retries timeout sleep st in
  let off := send_offchain_marketplace_request w crypto marketplace_contract prompt
               tool method_args_data extra_attributes retries timeout sleep st in
  R <= 0 \/ T <= 0 ->
  (fst on = Return None
   /\ events (snd on)
      = (events st
         ++ [EIpfsPush;
             EPrint "  - Prompt uploaded: https://gateway.autonolas.tech/ipfs/{v1_file_hash_hex}"
                    [VStr (snd (push_metadata_to_ipfs w prompt tool extra_attributes))]])%list)
  /\ (fst off = Return None
      /\ events (snd off)
         = (events st
            ++ [EPrint "  - Prompt will shortly be uploaded to: https://gateway.autonolas.tech/ipfs/{v1_file_hash_hex}"
                       [VStr (snd (fst (fetch_ipfs_hash_with w (uuid4 w (draws st))
                                          prompt tool extra_attributes)))]])%list).
Proof.
  intros R T on off Hnone. subst on off.
  assert (Hguard : forall t, (0 <? R) && (t <? t + T) = false).
  { intros t. apply andb_false_iff. destruct Hnone; [left | right]; apply Z.ltb_ge; lia. }
  split.
  - unfold send_marketplace_request.
    rewrite bind_emit. cbv beta. rewrite bind_print. cbv beta zeta.
    rewrite bind_timestamp. cbv beta.
    cbn [send_marketplace_request_loop]. rewrite bind_timestamp. cbv beta.
    fold R T. rewrite Hguard. unfold ret. cbn [fst snd].
    split; [reflexivity |].
    rewrite events_print, events_emit, <- app_assoc. reflexivity.
  - set (st' := {| now := now st; trace := trace st; draws := S (draws st) |}).
    set (hashes := fetch_ipfs_hash_with w (uuid4 w (draws st)) prompt tool
                     extra_attributes).
    assert (E : send_offchain_marketplace_request w crypto marketplace_contract prompt
                  tool method_args_data extra_attributes retries timeout sleep st
                = (Return None,
                   snd (print w "  - Prompt will shortly be uploaded to: https://gateway.autonolas.tech/ipfs/{v1_file_hash_hex}"
                              [VStr (snd (fst hashes))] st'))).
    { unfold send_offchain_marketplace_request, fetch_ipfs_hash.
      unfold bind at 1 2, uuid4_str, ret at 1. cbn [fst snd]. fold st' hashes.
      destruct hashes as [[truncated full] raw].
      rewrite bind_print. cbv beta zeta. rewrite bind_timestamp. cbv beta.
      cbn [send_offchain_marketplace_request_loop]. rewrite bind_timestamp. cbv beta.
      fold R T. rewrite Hguard. reflexivity. }
    rewrite E. cbn [fst snd]. split; [reflexivity |]. rewrite events_print. reflexivity.
Qed.

Lemma no_attempt_without_retries_or_time_witness :
  let w := sample_world gnosis PAYMENT_TYPE_NATIVE 10 0 0 0 builds always_sent delivered in
  let on := send_marketplace_request w "0xRequester"
              "0x735FAAb1c4Ec41128c367AFb5c3baC73509f70bB" 100000 "hello"
              "openai-gpt-4" (resolved_config w gnosis None) None 10
              (Some (-1)) None None (start 0) in
  fst on = Return None
  /\ events (snd on)
     = [EIpfsPush;
        EPrint "  - Prompt uploaded: https://gateway.autonolas.tech/ipfs/{v1_file_hash_hex}"
               [VStr "f01701220abcd"]].
Proof.
  intros w.
  apply (no_attempt_without_retries_or_time w "0xRequester"
           "0x735FAAb1c4Ec41128c367AFb5c3baC73509f70bB" 100000 "hello"
           "openai-gpt-4" (resolved_config w gnosis None) None 10
           (Some (-1)) None None (start 0)).
  left. cbn. lia.
Defined.

(** X17. With a negative back-off, a first attempt that fails ends the
    on-chain submitter: the error line is printed, [time.sleep] refuses the
    negative length, and the [ValueError] leaves the loop, raised as it is
    inside the handler.  One attempt was made. *)
Theorem negative_backoff_raises
    (w : World) (crypto marketplace_contract : string) (gas_limit : Z)
    (prompt tool : string) (method_args_data : MechMarketplaceRequestConfig)
    (extra_attributes : option (list (string * JValue)))
    (price : Z) (retries timeout sleep : option Z) (st : State) (e : Exn) :
  let R := or_default retries (MAX_RETRIES w) in
  let T := or_default timeout (TIMEOUT w) in
  let B := or_default sleep (WAIT_SLEEP w) in
  let hashes := push_metadata_to_ipfs w prompt tool extra_attributes in
  let tx := request_tx w marketplace_contract crypto gas_limit (fst hashes)
                       method_args_data price in
  let on := send_marketplace_request w crypto marketplace_contract gas_limit prompt
              tool method_args_data extra_attributes price retries timeout sleep st in
  0 < R -> 0 < T -> B < 0 ->
  attempt_outcome w tx (builds_so_far st) = Raised e ->
  fst on = Raised (ValueError "sleep length must be non-negative")
  /\ events (snd on)
     = (events st
        ++ [EIpfsPush;
            EPrint "  - Prompt uploaded: https://gateway.autonolas.tech/ipfs/{v1_file_hash_hex}"
                   [VStr (snd hashes)]]
        ++ attempt_events w tx (builds_so_far st)
        ++ [EPrint "Error occured while sending the transaction: {e}; Retrying in {sleep}"
                   [VExn e; VInt B]])%list.
Proof.
  intros R T B hashes tx on HR HT HB Hfail. subst on.
  unfold send_marketplace_request.
  rewrite bind_emit. cbv beta. rewrite bind_print. cbv beta zeta.
  rewrite bind_timestamp. cbv beta.
  fold hashes R T B. fold (request_tx w marketplace_contract crypto gas_limit (fst hashes)
                                      method_args_data price). fold tx.
  set (st2 := snd (print w _ _ _)).
  assert (Hst2 : events st2
                 = (events st
                    ++ [EIpfsPush;
                        EPrint "  - Prompt uploaded: https://gateway.autonolas.tech/ipfs/{v1_file_hash_hex}"
                               [VStr (snd hashes)]])%list).
  { subst st2. rewrite events_print, events_emit, <- app_assoc. reflexivity. }
  assert (Hb2 : builds_so_far st2 = builds_so_far st).
  { unfold builds_so_far. rewrite Hst2, List.filter_app. cbn. now rewrite app_nil_r. }
  cbn [send_marketplace_request_loop]. rewrite bind_timestamp. cbv beta.
  apply Z.ltb_lt in HR. rewrite HR, (before_deadline T HT). cbn [andb].
  fold (onchain_attempt w tx).
  destruct (onchain_attempt_runs w tx st2) as [Ho Hev]. cbv zeta in Ho, Hev.
  rewrite Hb2, Hfail in Ho. rewrite Hb2, Hst2 in Hev.
  rewrite bind_outcome, try_outcome, Ho. cbn [fst snd].
  rewrite bind_print. cbv beta. rewrite bind_outcome.
  unfold time_sleep. apply Z.ltb_lt in HB. rewrite HB. unfold raise. cbn [fst snd].
  split; [reflexivity |].
  rewrite events_print, Hev, <- !app_assoc. reflexivity.
Qed.

Lemma negative_backoff_raises_witness :
  let w := sample_world gnosis PAYMENT_TYPE_NATIVE 10 0 0 0 builds never_sent delivered in
  let on := send_marketplace_request w "0xRequester"
              "0x735FAAb1c4Ec41128c367AFb5c3baC73509f70bB" 100000 "hello"
              "openai-gpt-4" (resolved_config w gnosis None) None 10
              None None (Some (-5)) (start 0) in
  fst on = Raised (ValueError "sleep length must be non-negative")
  /\ length (List.filter is_build_tx (events (snd on))) = 1%nat.
Proof.
  intros w on.
  destruct (negative_backoff_raises w "0xRequester"
              "0x735FAAb1c4Ec41128c367AFb5c3baC73509f70bB" 100000 "hello"
              "openai-gpt-4" (resolved_config w gnosis None) None 10
              None None (Some (-5)) (start 0) (ExternalError "connection refused"))
    as [Hr Hev]; [cbn; lia | cbn; lia | cbn; lia | reflexivity |].
  split; [exact Hr |]. fold on in Hev. rewrite Hev. reflexivity.
Defined.

(** ** Hexadecimal text *)

Lemma bytes_hex_app (a b : list Byte.byte) :
  bytes_hex (a ++ b) = bytes_hex a +:+ bytes_hex b.
Proof.
  induction a as [| x a IH]; [reflexivity |].
  cbn [app bytes_hex]. now rewrite IH, append_assoc.
Qed.

Lemma bytes_fromhex_hex2 (b : Byte.byte) (rest : string) :
  bytes_fromhex (hex2 (Byte.to_N b) +:+ rest)
  = match bytes_fromhex rest with
    | Some bs => Some (b :: bs)
    | None => None
    end.
Proof. destruct b; reflexivity. Qed.

(** X20. [bytes.fromhex] reads back what [bytes.hex] writes, two digits
    to the byte. *)
Theorem bytes_fromhex_bytes_hex (bs : list Byte.byte) :
  bytes_fromhex (bytes_hex bs) = Some bs
  /\ String.length (bytes_hex bs) = (2 * length bs)%nat.
Proof.
  induction bs as [| b bs [IH IHlen]]; [split; reflexivity |].
  cbn [bytes_hex]. split.
  - now rewrite bytes_fromhex_hex2, IH.
  - rewrite length_append, IHlen. cbn [hex2 String.length length]. lia.
Qed.

(** ** The two identifiers *)

Lemma fetch_ipfs_hash_with_digest
    (w : World) (nonce prompt tool : string)
    (extra_attributes : option (list (string * JValue)))
    (header digest : list Byte.byte) :
  length header = 3%nat ->
  multihash_bytes_of w prompt tool nonce extra_attributes = (header ++ digest)%list ->
  fetch_ipfs_hash_with w nonce prompt tool extra_attributes
  = ("0x" +:+ bytes_hex digest,
     "f01" +:+ bytes_hex header +:+ bytes_hex digest,
     json_dumps (JDict (metadata_of prompt tool nonce extra_attributes))).
Proof.
  intros Hlen He. unfold fetch_ipfs_hash_with. cbv zeta.
  unfold multihash_bytes_of in He. rewrite He, bytes_hex_app.
  destruct header as [| b1 [| b2 [| b3 [| b4 header]]]]; try discriminate Hlen.
  reflexivity.
Qed.

(** X18. When the bytes left after the multicodec prefix are a
    three-byte header followed by the digest, the full identifier is "f01",
    the header and the digest in hexadecimal, and the truncated one is "0x"
    and the digest alone: the nine characters dropped are "f01" and the
    header.  One nonce is drawn and nothing is traced. *)
Theorem truncated_hash_is_the_digest
    (w : World) (prompt tool : string)
    (extra_attributes : option (list (string * JValue))) (st : State)
    (header digest : list Byte.byte) :
  let nonce := uuid4 w (draws st) in
  let ipfs_data := json_dumps (JDict (metadata_of prompt tool nonce extra_attributes)) in
  length header = 3%nat ->
  multihash_bytes_of w prompt tool nonce extra_attributes = (header ++ digest)%list ->
  fst (fetch_ipfs_hash w prompt tool extra_attributes st)
  = Return ("0x" +:+ bytes_hex digest,
            "f01" +:+ bytes_hex header +:+ bytes_hex digest,
            ipfs_data)
  /\ draws (snd (fetch_ipfs_hash w prompt tool extra_attributes st)) = S (draws st)
  /\ events (snd (fetch_ipfs_hash w prompt tool extra_attributes st)) = events st.
Proof.
  intros nonce ipfs_data Hlen Hbytes.
  unfold fetch_ipfs_hash, uuid4_str, bind, ret. cbn [fst snd]. fold nonce.
  rewrite (fetch_ipfs_hash_with_digest w nonce prompt tool extra_attributes
             header digest Hlen Hbytes).
  repeat split.
Qed.

Lemma truncated_hash_is_the_digest_witness :
  let w := sample_world gnosis PAYMENT_TYPE_NATIVE 10 0 0 0 builds always_sent delivered in
  fst (fetch_ipfs_hash w "hello" "openai-gpt-4" None (start 0))
  = Return ("0xab", "f01701220ab",
            json_dumps (JDict (base_metadata "hello" "openai-gpt-4" "uuid-0"))).
Proof.
  intros w.
  apply (truncated_hash_is_the_digest w "hello" "openai-gpt-4" None (start 0)
           [Byte.x70; Byte.x12; Byte.x20] [Byte.xab]); reflexivity.
Defined.

(** X19. [main] prints one line, with the truncated identifier. *)
Theorem main_prints_the_digest
    (w : World) (prompt tool : string) (st : State) (header digest : list Byte.byte) :
  length header = 3%nat ->
  multihash_bytes_of w prompt tool (uuid4 w (draws st)) None = (header ++ digest)%list ->
  fst (main w prompt tool st) = Return tt
  /\ events (snd (main w prompt tool st))
     = (events st ++ [EPrint "IPFS file hash v1: {}" [VStr ("0x" +:+ bytes_hex digest)]])%list.
Proof.
  intros Hlen Hbytes.
  assert (E : main w prompt tool st
              = print w "IPFS file hash v1: {}" [VStr ("0x" +:+ bytes_hex digest)]
                      {| now := now st; trace := trace st; draws := S (draws st) |}).
  { unfold main, fetch_ipfs_hash, uuid4_str, bind, ret. cbn [fst snd].
    now rewrite (fetch_ipfs_hash_with_digest w _ prompt tool None header digest
                   Hlen Hbytes). }
  rewrite E. split; [reflexivity |]. now rewrite events_print.
Qed.

Lemma main_prints_the_digest_witness :
  let w := sample_world gnosis PAYMENT_TYPE_NATIVE 10 0 0 0 builds always_sent delivered in
  events (snd (main w "hello" "openai-gpt-4" (start 0)))
  = [EPrint "IPFS file hash v1: {}" [VStr "0xab"]].
Proof.
  intros w.
  apply (main_prints_the_digest w "hello" "openai-gpt-4" (start 0)
           [Byte.x70; Byte.x12; Byte.x20] [Byte.xab]); reflexivity.
Defined.

(** ** The metadata *)

Lemma dict_get_set_same (k : string) (v : JValue) (d : list (string * JValue)) :
  dict_get k (dict_set k v d) = Some v.
Proof.
  induction d as [| [k' v'] d IH]; cbn [dict_set dict_get].
  - now rewrite String.eqb_refl.
  - destruct (String.eqb k' k) eqn:E; cbn [dict_get].
    + now rewrite String.eqb_refl.
    + now rewrite E.
Qed.

Lemma dict_get_set_other (k k' : string) (v : JValue) (d : list (string * JValue)) :
  String.eqb k' k = false ->
  dict_get k (dict_set k' v d) = dict_get k d.
Proof.
  intros Hk. induction d as [| [k0 v0] d IH]; cbn [dict_set dict_get].
  - now rewrite Hk.
  - destruct (String.eqb k0 k') eqn:E; cbn [dict_get].
    + apply String.eqb_eq in E as ->. now rewrite Hk.
    + now rewrite IH.
Qed.

Lemma dict_get_app (k : string) (a b : list (string * JValue)) :
  dict_get k (a ++ b)
  = match dict_get k a with
    | Some v => Some v
    | None => dict_get k b
    end.
Proof.
  induction a as [| [k0 v0] a IH]; cbn [app dict_get]; [reflexivity |].
  destruct (String.eqb k0 k); [reflexivity | exact IH].
Qed.

(** Looking a key up after [d.update(other)]: the last value [other] gives
    it, or else what [d] had. *)
Lemma dict_get_update (k : string) (other : list (string * JValue)) :
  forall d,
    dict_get k (dict_update d other)
    = match dict_get k (rev other) with
      | Some v => Some v
      | None => dict_get k d
      end.
Proof.
  unfold dict_update.
  induction other as [| [k' v'] other IH]; intros d; cbn [fold_left rev fst snd];
    [reflexivity |].
  rewrite IH, dict_get_app. destruct (dict_get k (rev other)); [reflexivity |].
  cbn [dict_get]. destruct (String.eqb k' k) eqn:E.
  - apply String.eqb_eq in E as ->. apply dict_get_set_same.
  - now apply dict_get_set_other.
Qed.

(** X21. Looking a key up in the metadata: the last value
    [extra_attributes] gives it, or else the prompt, the tool or the nonce.
    So [extra_attributes] can replace each of the three. *)
Theorem metadata_lookup
    (prompt tool nonce : string) (extra_attributes : option (list (string * JValue)))
    (k : string) :
  dict_get k (metadata_of prompt tool nonce extra_attributes)
  = match dict_get k (rev (default [] extra_attributes)) with
    | Some v => Some v
    | None => dict_get k (base_metadata prompt tool nonce)
    end.
Proof.
  unfold metadata_of. fold (base_metadata prompt tool nonce).
  destruct extra_attributes as [[| kv extra] |]; [reflexivity | | reflexivity].
  apply dict_get_update.
Qed.

Lemma keys_dict_set (k : string) (v : JValue) (d : list (string * JValue)) :
  map fst (dict_set k v d)
  = if existsb (fun kv => String.eqb (fst kv) k) d then map fst d
    else (map fst d ++ [k])%list.
Proof.
  induction d as [| [k' v'] d IH]; cbn [dict_set existsb map fst app]; [reflexivity |].
  destruct (String.eqb k' k) eqn:E; cbn [orb map fst].
  - apply String.eqb_eq in E as ->. reflexivity.
  - rewrite IH. destruct (existsb _ d); reflexivity.
Qed.

Lemma existsb_key_false (k : string) (d : list (string * JValue)) :
  existsb (fun kv => String.eqb (fst kv) k) d = false -> k ∉ map fst d.
Proof.
  induction d as [| [k' v'] d IH]; cbn [existsb map fst]; intros H.
  - apply not_elem_of_nil.
  - apply orb_false_iff in H as [Hk Hd]. apply not_elem_of_cons. split.
    + intros ->. now rewrite String.eqb_refl in Hk.
    + now apply IH.
Qed.

Lemma keys_dict_update (other : list (string * JValue)) :
  forall d,
    NoDup (map fst d) ->
    NoDup (map fst (dict_update d other))
    /\ exists rest, map fst (dict_update d other) = (map fst d ++ rest)%list.
Proof.
  unfold dict_update.
  induction other as [| [k v] other IH]; intros d Hd; cbn [fold_left fst snd].
  - split; [exact Hd |]. exists []. now rewrite app_nil_r.
  - pose proof (keys_dict_set k v d) as Hk.
    destruct (existsb (fun kv => String.eqb (fst kv) k) d) eqn:E.
    + destruct (IH (dict_set k v d)) as [Hn [rest Hr]]; [now rewrite Hk |].
      split; [exact Hn |]. exists rest. now rewrite Hr, Hk.
    + destruct (IH (dict_set k v d)) as [Hn [rest Hr]].
      * rewrite Hk. apply NoDup_app. split; [exact Hd |]. split.
        -- intros x Hx Hin. apply list_elem_of_singleton in Hin as ->.
           now apply (existsb_key_false k d E).
        -- apply NoDup_singleton.
      * split; [exact Hn |]. exists ([k] ++ rest)%list.
        now rewrite Hr, Hk, <- app_assoc.
Qed.

(** X22. The metadata never has a key twice, and its first three keys
    are "prompt", "tool" and "nonce" in this order, whatever
    [extra_attributes] holds. *)
Theorem metadata_keys
    (prompt tool nonce : string) (extra_attributes : option (list (string * JValue))) :
  let keys := map fst (metadata_of prompt tool nonce extra_attributes) in
  NoDup keys /\ exists rest, keys = (["prompt"; "tool"; "nonce"] ++ rest)%list.
Proof.
  intros keys. subst keys.
  assert (Hbase : NoDup (map fst (base_metadata prompt tool nonce))).
  { cbn. repeat (apply NoDup_cons; split;
                 [rewrite ?elem_of_cons, elem_of_nil; intros H; intuition discriminate |]).
    apply NoDup_nil_2. }
  unfold metadata_of. fold (base_metadata prompt tool nonce).
  destruct extra_attributes as [[| kv extra] |];
    try (split; [exact Hbase | exists []; reflexivity]).
  now apply keys_dict_update.
Qed.

(** ** What a call may do *)

Section Footprints.

Variable w : World.
Variable P : Event -> Prop.
Hypothesis P_print : forall t a, P (EPrint t a).
Hypothesis P_get : forall url, P (EHttpGet url).

Ltac side := first [apply P_print | apply P_get | assumption | exact I].

Lemma onchain_attempt_emits (tx : TxRequest) :
  P (EBuildTx tx) -> P ESignTx -> P ESendTx ->
  emits P (onchain_attempt w tx) (fun _ => True).
Proof.
  intros Hb Hs Hd. unfold onchain_attempt, build_transaction, sign_transaction,
    send_signed_transaction, of_result.
  esteps side; exact I.
Qed.

Lemma send_marketplace_request_loop_emits
    (fuel : nat) (tx : TxRequest) (retries deadline sleep tries : Z) :
  P (EBuildTx tx) -> P ESignTx -> P ESendTx -> P (ESleep sleep) ->
  emits P (send_marketplace_request_loop w fuel tx retries deadline sleep tries)
        (fun _ => True).
Proof.
  intros Hb Hs Hd Hz. revert tries.
  induction fuel as [| fuel IH]; intros tries; cbn [send_marketplace_request_loop].
  - esteps side.
  - estep side. estep side; [| esteps side; exact I].
    apply emits_bind_try; [now apply onchain_attempt_emits |].
    intros [e | d]; esteps side; [apply IH | exact I].
Qed.

Lemma send_marketplace_request_emits
    (crypto marketplace_contract : string) (gas_limit : Z) (prompt tool : string)
    (method_args_data : MechMarketplaceRequestConfig)
    (extra_attributes : option (list (string * JValue)))
    (price : Z) (retries timeout sleep : option Z) :
  P EIpfsPush ->
  (forall requestData,
      P (EBuildTx (request_tx w marketplace_contract crypto gas_limit requestData
                              method_args_data price))) ->
  P ESignTx -> P ESendTx -> P (ESleep (or_default sleep (WAIT_SLEEP w))) ->
  emits P (send_marketplace_request w crypto marketplace_contract gas_limit prompt tool
             method_args_data extra_attributes price retries timeout sleep)
        (fun _ => True).
Proof.
  intros Hp Hb Hs Hd Hz. unfold send_marketplace_request. esteps side.
  apply send_marketplace_request_loop_emits; try assumption. apply Hb.
Qed.

Lemma wait_for_one_task_emits (coro : string) (outcome : option (N * option string)) :
  emits P (_wait_for_tasks w [{| task_coro := coro; task_outcome := outcome |}])
        (fun _ => True).
Proof.
  unfold _wait_for_tasks, asyncio_wait_first_completed.
  cbn [finish_times task_outcome].
  destruct outcome as [[d result] |]; [| esteps side].
  cbn [fold_right List.filter]. unfold finishes_at. cbn [task_outcome].
  rewrite N.eqb_refl. cbn [negb]. esteps side. cbn [cancel_all task_outcome].
  esteps side. exact I.
Qed.

Lemma wait_for_marketplace_data_url_emits
    (request_id mech_contract subgraph_url deliver_signature : string)
    (confirmation_type : ConfirmationType) :
  P (ECreateTask "watch_for_marketplace_data_url_from_wss") ->
  emits P (wait_for_marketplace_data_url w request_id mech_contract subgraph_url
             deliver_signature confirmation_type)
        (fun _ => True).
Proof.
  intros Ht. unfold wait_for_marketplace_data_url, create_task.
  destruct confirmation_type; esteps side; cbn [app];
    try (eapply emits_bind; [apply wait_for_one_task_emits |];
         intros; esteps side; exact I).
  unfold _wait_for_tasks, asyncio_wait_first_completed. esteps side.
Qed.

Lemma requests_get_emits (url : string) :
  emits P (requests_get w url) (fun _ => True).
Proof. unfold requests_get, of_result. esteps side; exact I. Qed.

Lemma wait_for_offchain_marketplace_data_emits (fuel : nat) (request_id : JValue) :
  P (ESleep one_second) ->
  emits P (wait_for_offchain_marketplace_data w fuel request_id) (fun _ => True).
Proof.
  intros Hz. induction fuel as [| fuel IH]; cbn [wait_for_offchain_marketplace_data].
  - esteps side.
  - apply emits_bind_try; [apply requests_get_emits |].
    intros [e | response]; esteps side; first [exact IH | exact I].
Qed.

Lemma send_offchain_marketplace_request_loop_emits
    (fuel : nat) (crypto marketplace_contract requestData : string)
    (maxDeliveryRate : Z) (paymentType priorityMech : string)
    (retries deadline sleep tries : Z) :
  (forall args, P (ECall marketplace_contract "mapNonces" args)) ->
  (forall args, P (ECall marketplace_contract "getRequestId" args)) ->
  P ESignMessage -> P (EHttpPost signed_requests_url) -> P (ESleep sleep) ->
  emits P (send_offchain_marketplace_request_loop w fuel crypto marketplace_contract
             requestData maxDeliveryRate paymentType priorityMech
             retries deadline sleep tries)
        (fun _ => True).
Proof.
  intros Hn Hr Hs Hp Hz. revert tries.
  induction fuel as [| fuel IH]; intros tries;
    cbn [send_offchain_marketplace_request_loop].
  - esteps side.
  - estep side. estep side; [| esteps side; exact I].
    apply emits_bind_try.
    + unfold requests_post, of_result.
      esteps ltac:(first [apply Hn | apply Hr | exact Hp | side]); exact I.
    + intros [e | d]; esteps side; [apply IH | exact I].
Qed.

Lemma approve_price_tokens_emits (sender wrapped_token tracker : string) (price : Z) :
  P (ECall wrapped_token "balanceOf" [VStr sender]) ->
  P (EBuildTx (approve_tx wrapped_token tracker sender price)) ->
  P ESignTx -> P ESendTx ->
  emits P (approve_price_tokens w sender wrapped_token tracker price) (fun _ => True).
Proof.
  intros Hc Hb Hs Hd.
  unfold approve_price_tokens, build_transaction, sign_transaction,
    send_signed_transaction, of_result.
  fold (approve_tx wrapped_token tracker sender price).
  esteps side; exact I.
Qed.

Lemma check_prepaid_balances_emits (requester tracker ptype : string) (rate : Z) :
  (ptype = PAYMENT_TYPE_NATIVE \/ ptype = PAYMENT_TYPE_TOKEN ->
   P (ECall tracker "mapRequesterBalances" [VStr requester])) ->
  emits P (check_prepaid_balances w requester tracker ptype rate) (fun _ => True).
Proof.
  intros Hc. unfold check_prepaid_balances.
  esteps ltac:(first [apply Hc;
                      match goal with
                      | H : String.eqb _ _ = true |- _ =>
                          apply String.eqb_eq in H; auto
                      end
                     | side]); exact I.
Qed.

Lemma getitem_emits (x : JValue) (k : string) :
  emits P (getitem x k) (fun _ => True).
Proof. unfold getitem. esteps side; exact I. Qed.

End Footprints.

(** Proves one disjunct of a footprint, each of its parts by computation or
    from the facts at hand. *)
Ltac footprint_conj :=
  solve [repeat split; first [reflexivity | assumption | cbn; tauto | cbn; auto 8]].

Ltac footprint_disj :=
  first [footprint_conj | left; footprint_disj | right; footprint_disj].

Ltac footprint_side :=
  cbv beta iota zeta delta [call_footprint];
  cbn [resolved_mech resolved_marketplace default from_option id];
  first [exact I | reflexivity | assumption | footprint_disj].

Ltac footprint_rules := intros; exact I.

Lemma marketplace_interact_payment_footprint
    (w : World) (cfg : MechConfig) (priority_mech : option string)
    (use_prepaid use_offchain : bool) (requester : string) (backoff : Z) :
  let mech := resolved_mech priority_mech in
  let marketplace := resolved_marketplace cfg priority_mech in
  let ptype := paymentType w mech in
  let tracker := mapPaymentTypeBalanceTrackers w marketplace ptype in
  emits (call_footprint w cfg priority_mech use_prepaid use_offchain requester backoff)
        (marketplace_interact_payment w cfg 100 use_prepaid requester ptype tracker
           (maxDeliveryRate w mech))
        (fun _ => True).
Proof.
  intros mech marketplace ptype tracker.
  unfold marketplace_interact_payment.
  destruct use_prepaid eqn:Hprepaid; cbn [negb].
  - esteps footprint_side.
    eapply emits_bind;
      [apply check_prepaid_balances_emits; [footprint_rules .. |] |].
    + intros Hty. footprint_side.
    + intros _ _. esteps footprint_side. exact I.
  - destruct (String.eqb ptype PAYMENT_TYPE_TOKEN) eqn:Hty;
      [| esteps footprint_side; exact I].
    apply String.eqb_eq in Hty.
    rewrite wrapped_token_100.
    esteps footprint_side.
    eapply emits_bind;
      [apply approve_price_tokens_emits; [footprint_rules .. | | | |]; footprint_side |].
    intros approve_tx _.
    esteps footprint_side; exact I.
Qed.

Lemma marketplace_interact_subscription_footprint
    (w : World) (cfg : MechConfig) (priority_mech : option string)
    (use_prepaid use_offchain : bool) (requester : string) (backoff : Z) (price : Z) :
  let mech := resolved_mech priority_mech in
  let marketplace := resolved_marketplace cfg priority_mech in
  let ptype := paymentType w mech in
  let tracker := mapPaymentTypeBalanceTrackers w marketplace ptype in
  emits (call_footprint w cfg priority_mech use_prepaid use_offchain requester backoff)
        (marketplace_interact_subscription w requester ptype tracker price)
        (fun _ => True).
Proof.
  intros mech marketplace ptype tracker.
  unfold marketplace_interact_subscription, fetch_requester_nvm_subscription_balance.
  destruct (String.eqb ptype PAYMENT_TYPE_NVM) eqn:Hty;
    [| esteps footprint_side; exact I].
  apply String.eqb_eq in Hty.
  esteps footprint_side; exact I.
Qed.

Lemma marketplace_interact_onchain_footprint
    (w : World) (cfg : MechConfig) (priority_mech : option string)
    (use_prepaid : bool) (requester : string)
    (prompt tool : string) (rc : MechMarketplaceRequestConfig)
    (extra_attributes : option (list (string * JValue)))
    (price : Z) (retries timeout sleep : option Z)
    (mech_contract deliver_signature : string) (confirmation_type : ConfirmationType) :
  emits (call_footprint w cfg priority_mech use_prepaid false requester
           (or_default sleep (WAIT_SLEEP w)))
        (marketplace_interact_onchain w cfg requester
           (resolved_marketplace cfg priority_mech) prompt tool rc
           extra_attributes price retries timeout sleep mech_contract
           deliver_signature confirmation_type)
        (fun _ => True).
Proof.
  unfold marketplace_interact_onchain.
  esteps footprint_side.
  eapply emits_bind;
    [apply send_marketplace_request_emits; [footprint_rules .. | | | | |];
     try (intros requestData); footprint_side |].
  intros digest _.
  esteps footprint_side; try exact I.
  eapply emits_bind;
    [apply wait_for_marketplace_data_url_emits; [footprint_rules .. |];
     footprint_side |].
  intros data_url _. esteps footprint_side; try exact I.
  eapply emits_bind; [apply requests_get_emits; footprint_rules |].
  intros data _. esteps footprint_side. exact I.
Qed.

Lemma marketplace_interact_offchain_footprint
    (w : World) (cfg : MechConfig) (priority_mech : option string)
    (use_prepaid : bool) (requester : string)
    (fuel : nat) (prompt tool : string) (rc : MechMarketplaceRequestConfig)
    (extra_attributes : option (list (string * JValue)))
    (retries timeout sleep : option Z) :
  emits (call_footprint w cfg priority_mech use_prepaid true requester
           (or_default sleep (WAIT_SLEEP w)))
        (marketplace_interact_offchain w fuel requester
           (resolved_marketplace cfg priority_mech) prompt tool rc
           extra_attributes retries timeout sleep)
        (fun _ => True).
Proof.
  unfold marketplace_interact_offchain, send_offchain_marketplace_request,
    fetch_ipfs_hash.
  esteps footprint_side.
  eapply emits_bind;
    [apply send_offchain_marketplace_request_loop_emits; [footprint_rules .. | | | | |];
     try (intros args); footprint_side |].
  intros response _. esteps footprint_side; try exact I.
  eapply emits_bind; [apply getitem_emits |].
  intros request_id _. esteps footprint_side.
  eapply emits_bind;
    [apply wait_for_offchain_marketplace_data_emits; [footprint_rules .. |];
     footprint_side |].
  intros data _. esteps footprint_side; try exact I.
  eapply emits_bind; [apply getitem_emits |].
  intros task_result _. esteps footprint_side.
  eapply emits_bind; [apply requests_get_emits; footprint_rules |].
  intros data' _. esteps footprint_side. exact I.
Qed.

(** Every action of every call is within the footprint. *)
Lemma marketplace_interact_footprint
    (w : World) (fuel : nat) (prompt : string) (priority_mech : option string)
    (use_prepaid use_offchain : bool) (tool : option string)
    (extra_attributes : option (list (string * JValue)))
    (private_key_path : option string) (confirmation_type : ConfirmationType)
    (retries timeout sleep : option Z) (chain_config : option string) :
  let cfg := get_mech_config w chain_config in
  let requester :=
    crypto_address w (or_default_str private_key_path (PRIVATE_KEY_FILE_PATH w)) in
  emits (call_footprint w cfg priority_mech use_prepaid use_offchain requester
           (or_default sleep (WAIT_SLEEP w)))
        (marketplace_interact w fuel prompt priority_mech use_prepaid use_offchain
           tool extra_attributes private_key_path confirmation_type
           retries timeout sleep chain_config)
        (fun _ => True).
Proof.
  intros cfg requester. unfold marketplace_interact. fold cfg.
  destruct (String.eqb _ ADDRESS_ZERO); [esteps footprint_side; exact I |].
  destruct (Z.eq_dec (mc_chain_id cfg) 100) as [Hc | Hc];
    [rewrite Hc, default_config_100
    | rewrite (default_config_only_100 _ Hc); esteps footprint_side].
  unfold fetch_mech_info.
  destruct priority_mech as [pm |];
    esteps footprint_side; enorm;
    fold requester;
    (eapply emits_bind;
     [first [apply (marketplace_interact_payment_footprint w cfg (Some pm))
            | apply (marketplace_interact_payment_footprint w cfg None)] |]);
    intros [early | price] _; esteps footprint_side; try exact I;
    (eapply emits_bind;
     [first [apply (marketplace_interact_subscription_footprint w cfg (Some pm))
            | apply (marketplace_interact_subscription_footprint w cfg None)] |]);
    intros price' _;
    (destruct use_offchain; cbn [negb];
     [first [apply (marketplace_interact_offchain_footprint w cfg (Some pm))
            | apply (marketplace_interact_offchain_footprint w cfg None)]
     | first [apply (marketplace_interact_onchain_footprint w cfg (Some pm))
             | apply (marketplace_interact_onchain_footprint w cfg None)]]).
Qed.

(** ** What a call never does *)

Lemma call_events_footprint
    (w : World) (fuel : nat) (prompt : string) (priority_mech : option string)
    (use_prepaid use_offchain : bool) (tool : option string)
    (extra_attributes : option (list (string * JValue)))
    (private_key_path : option string) (confirmation_type : ConfirmationType)
    (retries timeout sleep : option Z) (chain_config : option string) (t0 : Z) :
  Forall (call_footprint w (get_mech_config w chain_config) priority_mech
            use_prepaid use_offchain
            (crypto_address w (or_default_str private_key_path (PRIVATE_KEY_FILE_PATH w)))
            (or_default sleep (WAIT_SLEEP w)))
         (events (snd (marketplace_interact w fuel prompt priority_mech use_prepaid
                         use_offchain tool extra_attributes private_key_path
                         confirmation_type retries timeout sleep chain_config
                         (start t0)))).
Proof.
  destruct (marketplace_interact_footprint w fuel prompt priority_mech use_prepaid
              use_offchain tool extra_attributes private_key_path confirmation_type
              retries timeout sleep chain_config (start t0))
    as (new & Htr & Hnew & _).
  unfold events. rewrite Htr. cbn [start trace app].
  apply List.Forall_map. exact Hnew.
Qed.

Lemma filter_none {A} (P : A -> Prop) (f : A -> bool) (l : list A) :
  Forall P l -> (forall x, P x -> f x = false) -> List.filter f l = [].
Proof.
  intros Hl Hf. induction Hl as [| x l Hx _ IH]; [reflexivity |].
  cbn [List.filter]. now rewrite (Hf x Hx).
Qed.

(** X23. A prepaid call, and a call to a mech that is not a token mech,
    never builds an approve transaction and never waits for its receipt. *)
Theorem approval_only_for_direct_token_calls
    (w : World) (fuel : nat) (prompt : string) (priority_mech : option string)
    (use_prepaid use_offchain : bool) (tool : option string)
    (extra_attributes : option (list (string * JValue)))
    (private_key_path : option string) (confirmation_type : ConfirmationType)
    (retries timeout sleep : option Z) (chain_config : option string) (t0 : Z) :
  let r := marketplace_interact w fuel prompt priority_mech use_prepaid use_offchain
             tool extra_attributes private_key_path confirmation_type
             retries timeout sleep chain_config (start t0) in
  use_prepaid = true
  \/ paymentType w (resolved_mech priority_mech) <> PAYMENT_TYPE_TOKEN ->
  List.filter is_approval_action (events (snd r)) = [].
Proof.
  intros r Hno. subst r.
  eapply filter_none; [apply call_events_footprint |].
  intros [] He; cbn in He |- *; try reflexivity.
  - destruct He as [[[Hp Hty] _] | (_ & Hm & _)].
    + destruct Hno as [Hno | Hno]; [congruence | contradiction].
    + now rewrite Hm.
  - destruct He as [Hp Hty]. destruct Hno as [Hno | Hno]; [congruence | contradiction].
Qed.

Lemma approval_only_for_direct_token_calls_witness :
  let w := sample_world gnosis PAYMENT_TYPE_TOKEN 10 50 50 0 builds always_sent delivered in
  let r := marketplace_interact w 5 "hello" None true false None None None
             WAIT_FOR_BOTH None None None None (start 0) in
  List.filter is_approval_action (events (snd r)) = []
  /\ List.filter is_build_tx (events (snd r)) <> [].
Proof.
  intros w r. split.
  - apply (approval_only_for_direct_token_calls w 5 "hello" None true false None None
             None WAIT_FOR_BOTH None None None None 0).
    left. reflexivity.
  - vm_compute. discriminate.
Defined.

(** X24. The two branches do not mix.  An off-chain call never uploads
    the metadata, never builds a request transaction, never reads a request
    identifier from a receipt and starts no task; an on-chain call never
    reads the nonce or the request identifier from the marketplace, signs no
    message and posts nothing. *)
Theorem branches_do_not_mix
    (w : World) (fuel : nat) (prompt : string) (priority_mech : option string)
    (use_prepaid use_offchain : bool) (tool : option string)
    (extra_attributes : option (list (string * JValue)))
    (private_key_path : option string) (confirmation_type : ConfirmationType)
    (retries timeout sleep : option Z) (chain_config : option string) (t0 : Z) :
  let r := marketplace_interact w fuel prompt priority_mech use_prepaid use_offchain
             tool extra_attributes private_key_path confirmation_type
             retries timeout sleep chain_config (start t0) in
  List.filter (if use_offchain then is_onchain_action else is_offchain_action)
              (events (snd r)) = [].
Proof.
  intros r. subst r.
  eapply filter_none; [apply call_events_footprint |].
  destruct use_offchain; intros [] He; cbn in He |- *; try reflexivity;
    try (destruct He; discriminate);
    try discriminate.
  - destruct He as [[_ ->] | (Hoff & _)]; [reflexivity | discriminate].
  - repeat match goal with
           | H : _ \/ _ |- _ => destruct H
           | H : _ /\ _ |- _ => destruct H
           | H : False |- _ => destruct H
           end; subst; try reflexivity; discriminate.
Qed.

(** X25. Every approve transaction a call builds is the same one: on the
    wrapped token of chain 100, for the mech's balance tracker, for exactly
    the max delivery rate, from the requester, with value 0 and gas 60000. *)
Theorem approval_is_for_the_rate
    (w : World) (fuel : nat) (prompt : string) (priority_mech : option string)
    (use_prepaid use_offchain : bool) (tool : option string)
    (extra_attributes : option (list (string * JValue)))
    (private_key_path : option string) (confirmation_type : ConfirmationType)
    (retries timeout sleep : option Z) (chain_config : option string) (t0 : Z) :
  let cfg := get_mech_config w chain_config in
  let mech := resolved_mech priority_mech in
  let tracker :=
    mapPaymentTypeBalanceTrackers w (resolved_marketplace cfg priority_mech)
                                  (paymentType w mech) in
  let requester :=
    crypto_address w (or_default_str private_key_path (PRIVATE_KEY_FILE_PATH w)) in
  let r := marketplace_interact w fuel prompt priority_mech use_prepaid use_offchain
             tool extra_attributes private_key_path confirmation_type
             retries timeout sleep chain_config (start t0) in
  Forall (fun e =>
            match e with
            | EBuildTx tx =>
                tx_method tx = "approve" ->
                tx = approve_tx gnosis_wrapped_token tracker requester
                                (maxDeliveryRate w mech)
            | _ => True
            end)
         (events (snd r)).
Proof.
  intros cfg mech tracker requester r. subst r.
  eapply Forall_impl; [apply call_events_footprint |].
  intros [] He; cbn in He |- *; try exact I.
  intros Hm. destruct He as [[_ ->] | (_ & Hreq & _)]; [reflexivity | congruence].
Qed.

(** X26. A call that is not prepaid, to a native mech, reads no balance:
    neither the wallet, nor a deposit, nor subscription credits. *)
Theorem direct_native_call_reads_no_balance
    (w : World) (fuel : nat) (prompt : string) (priority_mech : option string)
    (use_offchain : bool) (tool : option string)
    (extra_attributes : option (list (string * JValue)))
    (private_key_path : option string) (confirmation_type : ConfirmationType)
    (retries timeout sleep : option Z) (chain_config : option string) (t0 : Z) :
  let r := marketplace_interact w fuel prompt priority_mech false use_offchain
             tool extra_attributes private_key_path confirmation_type
             retries timeout sleep chain_config (start t0) in
  paymentType w (resolved_mech priority_mech) = PAYMENT_TYPE_NATIVE ->
  List.filter is_balance_read (events (snd r)) = [].
Proof.
  intros r Hty. subst r.
  eapply filter_none; [apply call_events_footprint |].
  intros [] He; cbn in He |- *; try reflexivity.
  rewrite Hty in He.
  repeat match goal with
         | H : _ \/ _ |- _ => destruct H
         | H : _ /\ _ |- _ => destruct H
         | H : False |- _ => destruct H
         end; subst; try reflexivity; discriminate.
Qed.

Lemma direct_native_call_reads_no_balance_witness :
  let w := sample_world gnosis PAYMENT_TYPE_NATIVE 10 0 0 0 builds always_sent delivered in
  let r := marketplace_interact w 5 "hello" None false false None None None
             WAIT_FOR_BOTH None None None None (start 0) in
  List.filter is_balance_read (events (snd r)) = []
  /\ omap request_value (events (snd r)) = [10].
Proof.
  intros w r. split.
  - apply (direct_native_call_reads_no_balance w 5 "hello" None false None None
             None WAIT_FOR_BOTH None None None None 0).
    reflexivity.
  - vm_compute. reflexivity.
Defined.

(** X27. Every request transaction a call builds goes to the resolved
    marketplace, from the requester, with the configured gas limit. *)
Theorem request_transaction_addressing
    (w : World) (fuel : nat) (prompt : string) (priority_mech : option string)
    (use_prepaid use_offchain : bool) (tool : option string)
    (extra_attributes : option (list (string * JValue)))
    (private_key_path : option string) (confirmation_type : ConfirmationType)
    (retries timeout sleep : option Z) (chain_config : option string) (t0 : Z) :
  let cfg := get_mech_config w chain_config in
  let requester :=
    crypto_address w (or_default_str private_key_path (PRIVATE_KEY_FILE_PATH w)) in
  let r := marketplace_interact w fuel prompt priority_mech use_prepaid use_offchain
             tool extra_attributes private_key_path confirmation_type
             retries timeout sleep chain_config (start t0) in
  Forall (fun e =>
            match e with
            | EBuildTx tx =>
                tx_method tx = "request" ->
                tx_contract tx = resolved_marketplace cfg priority_mech
                /\ tx_sender tx = requester
                /\ tx_gas tx = mc_gas_limit cfg
            | _ => True
            end)
         (events (snd r)).
Proof.
  intros cfg requester r. subst r.
  eapply Forall_impl; [apply call_events_footprint |].
  intros [] He; cbn in He |- *; try exact I; try tauto.
  intros Hm. destruct He as [[_ ->] | (_ & _ & Hc & Hs & Hg)]; [discriminate Hm | auto].
Qed.

(** X28. No call cancels a task, and every sleep of a call lasts the
    back-off in force, or, in an off-chain call, the one second of the
    poll. *)
Theorem sleeps_and_cancellations
    (w : World) (fuel : nat) (prompt : string) (priority_mech : option string)
    (use_prepaid use_offchain : bool) (tool : option string)
    (extra_attributes : option (list (string * JValue)))
    (private_key_path : option string) (confirmation_type : ConfirmationType)
    (retries timeout sleep : option Z) (chain_config : option string) (t0 : Z) :
  let r := marketplace_interact w fuel prompt priority_mech use_prepaid use_offchain
             tool extra_attributes private_key_path confirmation_type
             retries timeout sleep chain_config (start t0) in
  Forall (fun e =>
            match e with
            | ESleep ticks =>
                ticks = or_default sleep (WAIT_SLEEP w)
                \/ (use_offchain = true /\ ticks = one_second)
            | ECancelTask _ => False
            | _ => True
            end)
         (events (snd r)).
Proof.
  intros r. subst r.
  eapply Forall_impl; [apply call_events_footprint |].
  intros [] He; cbn in He |- *; try exact I; exact He.
Qed.

(** ** Reaching the branches with a deposit *)

(** X11. A prepaid call to a native or token mech whose deposit with the
    balance tracker covers the max delivery rate reads the deposit once and
    is then the on-chain branch with price 0, or the off-chain branch. *)
Theorem prepaid_call_is_its_branch
    (w : World) (fuel : nat) (prompt : string) (priority_mech : option string)
    (use_offchain : bool) (tool : option string)
    (extra_attributes : option (list (string * JValue)))
    (private_key_path : option string) (confirmation_type : ConfirmationType)
    (retries timeout sleep : option Z) (chain_config : option string) (t0 : Z) :
  let cfg := get_mech_config w chain_config in
  let mech := resolved_mech priority_mech in
  let marketplace := resolved_marketplace cfg priority_mech in
  let ptype := paymentType w mech in
  let tracker := mapPaymentTypeBalanceTrackers w marketplace ptype in
  let requester :=
    crypto_address w (or_default_str private_key_path (PRIVATE_KEY_FILE_PATH w)) in
  let tool' := verify_or_retrieve_tool w (serviceId w mech) tool in
  let rc := resolved_config w cfg priority_mech in
  mc_chain_id cfg = 100 ->
  mc_mech_marketplace_contract cfg <> ADDRESS_ZERO ->
  path_exists w (or_default_str private_key_path (PRIVATE_KEY_FILE_PATH w)) = true ->
  ptype = PAYMENT_TYPE_NATIVE \/ ptype = PAYMENT_TYPE_TOKEN ->
  maxDeliveryRate w mech <= mapRequesterBalances w tracker requester ->
  exists st : State,
    events st = (resolution_events w cfg priority_mech
                 ++ registration_events cfg priority_mech
                 ++ [EPrint "Prepaid request to be used, skipping payment" [];
                     ECall tracker "mapRequesterBalances" [VStr requester]])%list
    /\ marketplace_interact w fuel prompt priority_mech true use_offchain
         tool extra_attributes private_key_path confirmation_type
         retries timeout sleep chain_config (start t0)
       = if use_offchain then
           marketplace_interact_offchain w fuel requester marketplace prompt tool' rc
             extra_attributes retries timeout sleep st
         else
           marketplace_interact_onchain w cfg requester marketplace prompt tool' rc
             extra_attributes 0 retries timeout sleep mech
             (snd (get_event_signatures w (marketplace_abi w))) confirmation_type st.
Proof.
  intros cfg mech marketplace ptype tracker requester tool' rc Hc Ha Hp Hty Hdep.
  subst rc tool' requester tracker ptype marketplace mech.
  unfold marketplace_interact, start, resolved_config. fold cfg.
  apply String.eqb_neq in Ha. rewrite Ha, Hc, default_config_100. clear Ha Hc.
  apply Z.ltb_ge in Hdep.
  destruct priority_mech as [pm|];
    cbn [resolved_mech resolved_marketplace default from_option id] in *;
    mrun; rewrite Hp; mrun;
    destruct Hty as [Hty | Hty]; rewrite Hty in *;
    cbv delta [PAYMENT_TYPE_NATIVE PAYMENT_TYPE_TOKEN] in Hdep;
    mrun_eqb; rewrite Hdep; mrun_eqb;
    eexists; (split; [| destruct use_offchain; reflexivity]); reflexivity.
Qed.

Lemma prepaid_call_is_its_branch_witness :
  let w := sample_world gnosis PAYMENT_TYPE_TOKEN 10 50 0 0 builds always_sent delivered in
  exists st : State,
    length (events st) = 10%nat
    /\ marketplace_interact w 5 "hello" None true false None None None
         WAIT_FOR_BOTH None None None None (start 0)
       = marketplace_interact_onchain w gnosis "0xRequester"
           "0x735FAAb1c4Ec41128c367AFb5c3baC73509f70bB" "hello" "openai-gpt-4"
           (resolved_config w gnosis None) None 0 None None None
           "0x478ad20eD958dCC5AD4ABa6F4E4cc51e07a840E4" "topic:MarketplaceDeliver"
           WAIT_FOR_BOTH st.
Proof.
  intros w.
  destruct (prepaid_call_is_its_branch w 5 "hello" None false None None None
              WAIT_FOR_BOTH None None None None 0) as (st & Hev & Hrun);
    [reflexivity | discriminate | reflexivity | right; reflexivity | cbn; lia |].
  exists st. split; [now rewrite Hev | exact Hrun].
Defined.

Lemma direct_native_call_is_its_branch_witness :
  let w := sample_world gnosis PAYMENT_TYPE_NATIVE 10 0 0 0 builds always_sent delivered in
  exists st : State,
    length (events st) = 8%nat
    /\ marketplace_interact w 5 "hello" None false true None None None
         WAIT_FOR_BOTH None None None None (start 0)
       = marketplace_interact_offchain w 5 "0xRequester"
           "0x735FAAb1c4Ec41128c367AFb5c3baC73509f70bB" "hello" "openai-gpt-4"
           (resolved_config w gnosis None) None None None None st.
Proof.
  intros w.
  destruct (direct_native_call_is_its_branch w 5 "hello" None true None None None
              WAIT_FOR_BOTH None None None None 0) as (st & Hev & _ & _ & Hrun);
    [reflexivity | discriminate | reflexivity | reflexivity |].
  exists st. split; [now rewrite Hev | exact Hrun].
Defined.

(** [bytes.fromhex] fails just when its scan of an ASCII string stops. *)
Lemma bytes_fromhex_scan_stop (s : string) :
  (bytes_fromhex s = None <-> is_Some (fromhex_scan_stop s))
  /\ forall c, bytes_fromhex (String c s) = None
               <-> is_Some (fromhex_scan_stop (String c s)).
Proof.
  assert (Hmap : forall (f : nat -> nat) (o : option nat),
             is_Some (option_map f o) <-> is_Some o).
  { intros f [n |]; cbn; split; intros [x Hx]; try discriminate; eexists; reflexivity. }
  assert (Hnone : @is_Some nat None <-> False).
  { split; [intros [x Hx]; discriminate | tauto]. }
  assert (Hsome : forall n : nat, is_Some (Some n) <-> True).
  { intros n. split; [tauto | eexists; reflexivity]. }
  induction s as [| c' s [IH1 IH2]].
  - split.
    + cbn. rewrite Hnone. split; [discriminate | tauto].
    + intros c. cbn. destruct (is_ascii_whitespace c); cbn.
      * rewrite Hnone. split; [discriminate | tauto].
      * destruct (hex_value c); rewrite Hsome; tauto.
  - split; [apply IH2 |]. intros c.
    cbn [bytes_fromhex fromhex_scan_stop].
    destruct (is_ascii_whitespace c).
    + rewrite Hmap. apply IH2.
    + destruct (hex_value c) as [h |]; [| rewrite Hsome; tauto].
      destruct (hex_value c') as [l |]; [| rewrite Hsome; tauto].
      rewrite Hmap, <- IH1.
      destruct (bytes_fromhex s); split; congruence.
Qed.

(** A failure of [bytes.fromhex] has a position to report. *)
Lemma bytes_fromhex_None_position (s : string) :
  bytes_fromhex s = None ->
  exists position, bytes_fromhex_invalid_position s = Some position.
Proof.
  intros Hs. unfold bytes_fromhex_invalid_position.
  destruct (first_non_ascii s) as [i |]; [eexists; reflexivity |].
  apply (proj1 (bytes_fromhex_scan_stop s)) in Hs. exact Hs.
Qed.

(** X9. The request identifier read from the receipt must be
    hexadecimal text: otherwise [bytes.fromhex] raises [ValueError], naming
    the position of the character it stopped at, after the transaction was
    sent and before any delivery is awaited. *)
Theorem request_id_must_be_hexadecimal
    (w : World) (cfg : MechConfig) (crypto marketplace prompt tool : string)
    (rc : MechMarketplaceRequestConfig)
    (extra_attributes : option (list (string * JValue)))
    (price : Z) (retries timeout sleep : option Z)
    (mech_contract deliver_signature : string) (confirmation_type : ConfirmationType)
    (st : State) (digest : option string) :
  let st1 := snd (print w "Sending Mech Marketplace request..." [] st) in
  let sent := send_marketplace_request w crypto marketplace (mc_gas_limit cfg)
                prompt tool rc extra_attributes price retries timeout sleep st1 in
  let r := marketplace_interact_onchain w cfg crypto marketplace prompt tool rc
             extra_attributes price retries timeout sleep mech_contract
             deliver_signature confirmation_type st in
  let tx_hash := default "" digest in
  let request_id := watch_for_marketplace_request_id w tx_hash in
  fst sent = Return digest ->
  truthy_str digest = true ->
  bytes_fromhex request_id = None ->
  (exists position : nat,
      bytes_fromhex_invalid_position request_id = Some position
      /\ fst r = Raised (ValueError
                           ("non-hexadecimal number found in fromhex() arg at position "
                            +:+ pretty position)))
  /\ events (snd r)
     = (events (snd sent)
        ++ [EPrint "  - Transaction sent: {transaction_url_formatted}"
                   [VStr (mc_transaction_url cfg); VStr tx_hash];
            EPrint "  - Waiting for transaction receipt..." [];
            EWatchRequestId tx_hash])%list.
Proof.
  intros st1 sent r tx_hash request_id Hsent Hd Hid.
  destruct (bytes_fromhex_None_position request_id Hid) as [position Hpos].
  subst r. unfold marketplace_interact_onchain.
  rewrite (bind_return _ _ st tt st1) by reflexivity.
  destruct sent as [o st2] eqn:Esent. cbn [fst snd] in *. subst o sent.
  rewrite (bind_return _ _ _ _ _ Esent). rewrite Hd. cbn [negb].
  fold tx_hash. fold request_id. rewrite Hid.
  repeat (first [rewrite bind_print | rewrite bind_emit]; cbv beta).
  unfold raise, bytes_fromhex_error. rewrite Hpos. cbn [fst snd default].
  split; [exists position; split; reflexivity |].
  rewrite events_emit, !events_print, <- !app_assoc. reflexivity.
Qed.

Lemma request_id_must_be_hexadecimal_witness :
  let w := with_answers
             (sample_world gnosis PAYMENT_TYPE_NATIVE 10 0 0 0 builds always_sent delivered)
             true [] (fun _ => inr JNull) "0x2a" None in
  let r := marketplace_interact_onchain w gnosis "0xRequester"
             "0x735FAAb1c4Ec41128c367AFb5c3baC73509f70bB" "hello" "openai-gpt-4"
             (resolved_config w gnosis None)
             None 10 None None None "0x478ad20eD958dCC5AD4ABa6F4E4cc51e07a840E4"
             "topic:MarketplaceDeliver" WAIT_FOR_BOTH (start 0) in
  fst r = Raised (ValueError
                    "non-hexadecimal number found in fromhex() arg at position 1")
  /\ In ESendTx (events (snd r))
  /\ List.filter is_task_event (events (snd r)) = [].
Proof.
  intros w r.
  destruct (request_id_must_be_hexadecimal w gnosis "0xRequester"
              "0x735FAAb1c4Ec41128c367AFb5c3baC73509f70bB" "hello" "openai-gpt-4"
              (resolved_config w gnosis None)
              None 10 None None None "0x478ad20eD958dCC5AD4ABa6F4E4cc51e07a840E4"
              "topic:MarketplaceDeliver" WAIT_FOR_BOTH (start 0) (Some "0xdigest")
              eq_refl eq_refl eq_refl) as [(position & Hpos & Hr) Hev].
  assert (position = 1%nat) as -> by (vm_compute in Hpos; congruence).
  split; [exact Hr |]. fold r in Hev. rewrite Hev. split; vm_compute; tauto.
Defined.
